(** * Digit Recognizer notebooks: a shallow embedding

    The two notebooks (the first one and CNN_2) are linear scripts over
    numpy, pandas, scikit-learn and Keras.  Each cell is embedded below
    under the names it assigns; the library calls the cells make are
    embedded after the libraries' own code, restricted to the arguments the
    notebooks pass, with the numeric kernels and the random generators left
    abstract. *)

From Stdlib Require Import String Ascii DecimalString.
From Stdlib Require DecimalNat.
From Stdlib Require Import ZArith List Lia QArith Qabs Bool Arith Permutation.
From Stdlib Require Import Floats.SpecFloat.
Import ListNotations.

Close Scope Q_scope.
Open Scope string_scope.
Open Scope list_scope.
Open Scope nat_scope.

(** ** Python exceptions as an error monad

    An exception carries the gist of the library's message. *)

Module Py.

Inductive exn : Type :=
| ValueError (msg : string)
| IndexError (msg : string).

Inductive result (A : Type) : Type :=
| OK (a : A)
| Raise (e : exn).

Arguments OK {A} a.
Arguments Raise {A} e.

Definition bind {A B : Type} (r : result A) (k : A -> result B) : result B :=
  match r with
  | OK a => k a
  | Raise e => Raise e
  end.

Definition is_ok {A : Type} (r : result A) : bool :=
  match r with
  | OK _ => true
  | Raise _ => false
  end.

End Py.

Import Py.

Notation "x <- c ;; k" := (Py.bind c (fun x => k))
  (at level 61, c at next level, right associativity).

(** ** float32, as IEEE 754 binary32 with round to nearest even *)

Module Float32.

Definition prec : Z := 24.
Definition emax : Z := 128.

Definition float32 : Type := spec_float.

(** [astype('float32')] on an integer. *)
Definition of_Z (z : Z) : float32 := binary_normalize prec emax z 0 false.

(** Elementwise [/] of two float32 values. *)
Definition div (x y : float32) : float32 := SFdiv prec emax x y.

Definition leb (x y : float32) : bool := SFleb x y.

Definition is_nan (x : float32) : bool :=
  match x with
  | S754_nan => true
  | _ => false
  end.

(** The rational a finite float stands for. *)
Definition to_Q (x : float32) : option Q :=
  match x with
  | S754_zero _ => Some 0%Q
  | S754_finite s m e =>
      let mag := (inject_Z (Z.pos m) * Qpower 2 e)%Q in
      Some (if s then Qopp mag else mag)
  | S754_infinity _ => None
  | S754_nan => None
  end.

End Float32.

(** ** float64, as IEEE 754 binary64: Python's floats, numpy's default *)

Module Float64.

Definition prec : Z := 53.
Definition emax : Z := 1024.

Definition float64 : Type := spec_float.

Definition of_Z (z : Z) : float64 := binary_normalize prec emax z 0 false.

Definition zero : float64 := S754_zero false.

Definition add (x y : float64) : float64 := SFadd prec emax x y.
Definition sub (x y : float64) : float64 := SFsub prec emax x y.
Definition mul (x y : float64) : float64 := SFmul prec emax x y.
Definition div (x y : float64) : float64 := SFdiv prec emax x y.
Definition opp (x : float64) : float64 := SFopp x.

Definition leb (x y : float64) : bool := SFleb x y.
Definition ltb (x y : float64) : bool := SFltb x y.
Definition eqb (x y : float64) : bool := SFeqb x y.

(** Python's truth value of a number: false for a zero only. *)
Definition is_zero (x : float64) : bool :=
  match x with
  | S754_zero _ => true
  | _ => false
  end.

(** The rational a finite float stands for. *)
Definition to_Q (x : float64) : option Q := Float32.to_Q x.

End Float64.

(** ** numpy: the array operations the notebooks use *)

Module Numpy.

Section Reshape.
Variable A : Type.

(** [n] consecutive pieces of [k] elements each. *)
Fixpoint chunks (n k : nat) (l : list A) : list (list A) :=
  match n with
  | O => []
  | S n' => firstn k l :: chunks n' k (skipn k l)
  end.

(** A two-dimensional array, row by row; [ravel] is its C-order buffer. *)
Definition ravel (a : list (list A)) : list A := concat a.

(** The [-1] entry of a shape: the array's size divided by the product
    of the known entries, an error when it does not divide. *)
Definition infer_dim (size known : nat) : result nat :=
  if (known =? 0) || negb (size mod known =? 0)
  then Raise (ValueError "cannot reshape array")
  else OK (size / known).

(** [a.reshape((-1, 28, 28, 1))]. *)
Definition reshape_28_28_1 (a : list (list A))
  : result (list (list (list (list A)))) :=
  let buf := ravel a in
  n <- infer_dim (length buf) (28 * 28 * 1) ;;
  OK (map (fun img => map (fun row => map (fun px => [px]) row)
                          (chunks 28 28 img))
          (chunks n (28 * 28) buf)).
End Reshape.

Arguments chunks {A} n k l.
Arguments ravel {A} a.
Arguments reshape_28_28_1 {A} a.

(** [np.arange(1, stop)]. *)
Definition arange1 (stop : nat) : list nat := seq 1 (stop - 1).

(** [np.argmax] on one row of floats: the scan keeps the first element
    that is not [<=] the running maximum and stops at a NaN. *)
Fixpoint argmax_scan (mp : Float32.float32) (max_ind i : nat)
         (ip : list Float32.float32) : nat :=
  match ip with
  | [] => max_ind
  | x :: rest =>
      if negb (Float32.leb x mp)
      then if Float32.is_nan x then i else argmax_scan x i (S i) rest
      else argmax_scan mp max_ind (S i) rest
  end.

Definition argmax (row : list Float32.float32) : result nat :=
  match row with
  | [] => Raise (ValueError "attempt to get argmax of an empty sequence")
  | mp :: rest =>
      if Float32.is_nan mp then OK 0 else OK (argmax_scan mp 0 1 rest)
  end.

(** [np.argmax(a, axis=1)]. *)
Fixpoint argmax_axis1 (a : list (list Float32.float32)) : result (list nat) :=
  match a with
  | [] => OK []
  | row :: rows =>
      k <- argmax row ;;
      ks <- argmax_axis1 rows ;;
      OK (k :: ks)
  end.

End Numpy.

(** ** scikit-learn: [train_test_split] *)

Module Sklearn.

(** [ceil(0.2 * n_samples)], written on the integers as the ceiling of
    the fifth.  The code takes the ceiling of a binary64 product;
    [n_test_binary64] below computes that product bit by bit and
    [n_test_binary64_agrees] checks that the two agree on every size up to
    a hundred thousand rows. *)
Definition n_test_of (n_samples : nat) : nat := (n_samples + 4) / 5.

(** The same number with the product rounded as binary64 does: [0.2] is
    the double [7205759403792794 * 2^-55]. *)
Definition test_size_binary64 : spec_float :=
  S754_finite false 7205759403792794 (-55).

Definition ceil_binary64 (x : spec_float) : Z :=
  match x with
  | S754_finite s m e =>
      let v := if s then Z.neg m else Z.pos m in
      if (0 <=? e)%Z then (v * 2 ^ e)%Z
      else (- ((- v) / 2 ^ (- e)))%Z
  | _ => 0%Z
  end.

Definition n_test_binary64 (n_samples : Z) : Z :=
  ceil_binary64
    (SFmul 53 1024 test_size_binary64
       (binary_normalize 53 1024 n_samples 0 false)).

Fixpoint agree_from (count : nat) (n : Z) : bool :=
  match count with
  | O => true
  | S count' => (n_test_binary64 n =? (n + 4) / 5)%Z && agree_from count' (n + 1)
  end.

(** [_validate_shuffle_split(n_samples, 0.2, None)]: the test size is the
    ceiling, the training size its complement, and an empty training set
    is an error. *)
Definition validate_shuffle_split (n_samples : nat) : result (nat * nat) :=
  let n_test := n_test_of n_samples in
  let n_train := n_samples - n_test in
  if n_train =? 0
  then Raise (ValueError "the resulting train set will be empty")
  else OK (n_train, n_test).

Section SafeIndexing.
Variable A : Type.

(** [_safe_indexing(a, indices)]: [a[indices]]. *)
Fixpoint safe_indexing (a : list A) (indices : list nat) : result (list A) :=
  match indices with
  | [] => OK []
  | i :: rest =>
      match nth_error a i with
      | Some x => xs <- safe_indexing a rest ;; OK (x :: xs)
      | None => Raise (IndexError "index out of bounds")
      end
  end.
End SafeIndexing.

Arguments safe_indexing {A} a indices.

Section Split.
(** numpy's generator: [RandomState(seed)], the process-wide instance
    that [random_state=None] would use, and [rng.permutation(n)]. *)
Variable RandomState : Type.
Variable seeded : Z -> RandomState.
Variable permutation : RandomState -> nat -> list nat * RandomState.

Variables A B : Type.

(** [check_random_state]: an integer seeds a generator of its own, [None]
    takes the process-wide one. *)
Definition check_random_state (random_state : option Z)
           (global : RandomState) : RandomState :=
  match random_state with
  | Some seed => seeded seed
  | None => global
  end.

(** One iteration of [ShuffleSplit._iter_indices]. *)
Definition iter_indices (rng : RandomState) (n_samples n_train n_test : nat)
  : list nat * list nat * RandomState :=
  let '(perm, rng') := permutation rng n_samples in
  let ind_test := firstn n_test perm in
  let ind_train := firstn n_train (skipn n_test perm) in
  (ind_train, ind_test, rng').

(** [train_test_split(X, y, test_size=0.2, random_state=random_state)].
    The second component is the process-wide generator afterwards. *)
Definition train_test_split (X : list A) (y : list B)
           (random_state : option Z) (global : RandomState)
  : result (list A * list A * list B * list B) * RandomState :=
  if negb (length X =? length y)
  then (Raise (ValueError "inconsistent numbers of samples"), global)
  else
    match validate_shuffle_split (length X) with
    | Raise e => (Raise e, global)
    | OK (n_train, n_test) =>
        let rng := check_random_state random_state global in
        let '(train, test, rng') := iter_indices rng (length X) n_train n_test in
        let global' := match random_state with
                       | Some _ => global
                       | None => rng'
                       end in
        (X_train <- safe_indexing X train ;;
         X_test <- safe_indexing X test ;;
         y_train <- safe_indexing y train ;;
         y_test <- safe_indexing y test ;;
         OK (X_train, X_test, y_train, y_test),
         global')
    end.
End Split.

Arguments train_test_split {RandomState} seeded permutation {A B} X y random_state global.
Arguments iter_indices {RandomState} permutation rng n_samples n_train n_test.
Arguments check_random_state {RandomState} seeded random_state global.

End Sklearn.

(** ** pandas: the data frame of the last cell and [to_csv] *)

Module Pandas.

(** A frame built from a dict of columns: the columns in insertion order. *)
Record DataFrame : Type := {
  columns : list string;
  data : list (list nat)
}.

Definition nrows (df : DataFrame) : nat :=
  match data df with
  | [] => 0
  | c :: _ => length c
  end.

(** [pd.DataFrame({name1: col1, name2: col2})]. *)
Definition DataFrame2 (name1 : string) (col1 : list nat)
           (name2 : string) (col2 : list nat) : result DataFrame :=
  if length col1 =? length col2
  then OK {| columns := [name1; name2]; data := [col1; col2] |}
  else Raise (ValueError "All arrays must be of the same length").

Definition column (df : DataFrame) (name : string) : option (list nat) :=
  match find (fun p => String.eqb (fst p) name) (combine (columns df) (data df)) with
  | Some p => Some (snd p)
  | None => None
  end.

Definition show_nat (n : nat) : string :=
  DecimalString.NilZero.string_of_uint (Nat.to_uint n).

Definition join_comma (fields : list string) : string :=
  String.concat "," fields.

(** Row [i] of the frame, one field per column. *)
Definition row (df : DataFrame) (i : nat) : list nat :=
  map (fun c => nth i c 0) (data df).

(** [df.to_csv(path, index=False)]: the lines of the file. *)
Definition to_csv (df : DataFrame) : list string :=
  join_comma (columns df)
  :: map (fun i => join_comma (map show_nat (row df i))) (seq 0 (nrows df)).

End Pandas.

(** ** Keras: layers, [compile], [fit], [predict] and [ImageDataGenerator] *)

Module Keras.

Inductive activation : Type := linear | relu | softmax.
Inductive padding : Type := valid | same.

Inductive layer : Type :=
| Conv2D (filters : nat) (kernel_size : nat * nat) (pad : padding) (act : activation)
| BatchNormalization
| Activation (act : activation)
| MaxPooling2D (pool_size : nat * nat)
| Flatten
| Dense (units : nat) (act : activation).

Inductive loss : Type := categorical_crossentropy | sparse_categorical_crossentropy.
(** The optimizers and some of the metrics [compile] takes by name. *)
Inductive optimizer : Type :=
| sgd | rmsprop | adam | adadelta | adagrad | adamax | nadam | ftrl.
Inductive metric : Type := accuracy | mean_squared_error | mean_absolute_error.

(** The arguments of [model.compile]. *)
Record compile_args : Type := {
  compiled_optimizer : optimizer;
  compiled_loss : loss;
  compiled_metrics : list metric
}.

(** What one step reports, and the line printed at the end of an epoch. *)
Record logs : Type := {
  loss_value : Float32.float32;
  accuracy_value : Float32.float32
}.

Record epoch_report : Type := {
  epoch : nat;
  train_logs : logs;
  val_logs : logs
}.

Inductive phase : Type := Training | Validation | Inference.

Inductive fill : Type := constant | nearest | reflect | wrap.

(** The attributes [ImageDataGenerator.__init__] stores, Python floats; a
    scalar [zoom_range] becomes the interval [[1 - zoom, 1 + zoom]],
    computed in binary64. *)
Record ImageDataGenerator : Type := {
  rotation_range : Float64.float64;
  width_shift_range : Float64.float64;
  height_shift_range : Float64.float64;
  shear_range : Float64.float64;
  zoom_range : Float64.float64 * Float64.float64;
  horizontal_flip : bool;
  vertical_flip : bool;
  fill_mode : fill
}.

Definition ImageDataGenerator_init
           (rotation width_shift height_shift zoom shear : Float64.float64)
           (hflip : bool) (fm : fill) : ImageDataGenerator :=
  {| rotation_range := rotation;
     width_shift_range := width_shift;
     height_shift_range := height_shift;
     shear_range := shear;
     zoom_range := (Float64.sub (Float64.of_Z 1) zoom,
                    Float64.add (Float64.of_Z 1) zoom);
     horizontal_flip := hflip;
     vertical_flip := false;
     fill_mode := fm |}.

(** The parameters of one random transformation, binary64 numbers. *)
Record transform : Type := {
  theta : Float64.float64;
  tx : Float64.float64;
  ty : Float64.float64;
  shear : Float64.float64;
  zx : Float64.float64;
  zy : Float64.float64;
  flip_horizontal : bool;
  flip_vertical : bool
}.

(** One image, [28 x 28 x 1] after the loader. *)
Definition image : Type := list (list (list Float32.float32)).

(** A training target: a one-hot row (notebook 1) or a class index
    (notebook 2). *)
Inductive target : Type :=
| OneHot (row : list Float32.float32)
| Sparse (class : Z).

(** The numeric side of the framework: batched activations, the variables
    of a layer, a layer applied in inference mode, batch normalisation in
    training mode (which also moves its averages), the optimizer's update,
    the loss and metric of a batch, the generators behind shuffling and
    augmentation, and the affine resampling of one image.  [rng] is the
    state of the process's generators taken together: numpy's, which
    draws the index arrays and the transformations, TensorFlow's, which
    shuffles the arrays given to [fit], and Python's, with which [fit]
    shuffles the order of a [Sequence]'s batches; [rng_permutation g n] is
    a shuffled [arange(n)] drawn from that state, [rng_uniform] is
    [np.random.uniform] and [rng_random] is [np.random.random]. *)
Record Backend : Type := {
  tensor : Type;
  variables : Type;
  rng : Type;
  infer : layer -> variables -> tensor -> tensor;
  bn_train : variables -> tensor -> tensor * variables;
  stack : list image -> tensor;
  unstack : tensor -> list (list Float32.float32);
  apply_gradients :
    compile_args -> list (layer * variables) -> tensor -> list target ->
    list (layer * variables);
  batch_loss : loss -> tensor -> list target -> Float32.float32;
  batch_metric : metric -> tensor -> list target -> Float32.float32;
  mean : list Float32.float32 -> Float32.float32;
  rng_permutation : rng -> nat -> list nat * rng;
  rng_uniform : rng -> Float64.float64 -> Float64.float64 -> Float64.float64 * rng;
  rng_random : rng -> Float64.float64 * rng;
  apply_transform : ImageDataGenerator -> transform -> image -> image
}.

(** What the model is fed: the phase, the epoch, the input batch and its
    targets (none at inference). *)
Definition event : Type := phase * nat * list image * list target.

Section Reading.
Variable X : Type.

(** Consecutive batches of at most [k] elements. *)
Definition batches (k : nat) (l : list X) : list (list X) :=
  Numpy.chunks ((length l + k - 1) / k) k l.

(** [a[index_array]] for an index array that comes from a permutation
    of [arange(len(a))]. *)
Definition gather (a : list X) (index_array : list nat) : list X :=
  flat_map (fun j => match nth_error a j with
                     | Some x => [x]
                     | None => []
                     end) index_array.
End Reading.

Arguments batches {X} k l.
Arguments gather {X} a index_array.

Section Model.
Variable K : Backend.

(** A [Sequential] model: its layers with their variables. *)
Definition model : Type := list (layer * variables K).

Definition build (layers : list layer) (initial : list (variables K)) : model :=
  combine layers initial.

Definition call (l : layer) (v : variables K) (training : bool) (x : tensor K)
  : tensor K * variables K :=
  match l, training with
  | BatchNormalization, true => bn_train K v x
  | _, _ => (infer K l v x, v)
  end.

Fixpoint sequential_call (m : model) (training : bool) (x : tensor K)
  : tensor K * model :=
  match m with
  | [] => (x, [])
  | (l, v) :: rest =>
      let '(y, v') := call l v training x in
      let '(z, rest') := sequential_call rest training y in
      (z, (l, v') :: rest')
  end.

Definition batch_logs (args : compile_args) (out : tensor K) (y : list target) : logs :=
  {| loss_value := batch_loss K (compiled_loss args) out y;
     accuracy_value :=
       match compiled_metrics args with
       | mt :: _ => batch_metric K mt out y
       | [] => S754_nan
       end |}.

Definition reduce_logs (ls : list logs) : logs :=
  {| loss_value := mean K (map loss_value ls);
     accuracy_value := mean K (map accuracy_value ls) |}.

(** One step of training and one of validation.  The targets are taken
    to be those the loss is defined on, rows of as many numbers as the
    model returns for the categorical cross-entropy and class indices
    below that number for the sparse one: what TensorFlow does with
    others, an error or a NaN, is not told apart here. *)
Definition train_step (args : compile_args) (m : model)
           (b : list image * list target) : model * logs :=
  let '(out, m1) := sequential_call m true (stack K (fst b)) in
  (apply_gradients K args m1 (stack K (fst b)) (snd b), batch_logs args out (snd b)).

Definition test_step (args : compile_args) (m : model)
           (b : list image * list target) : model * logs :=
  let '(out, m1) := sequential_call m false (stack K (fst b)) in
  (m1, batch_logs args out (snd b)).

Definition predict_step (m : model) (b : list image)
  : model * list (list Float32.float32) :=
  let '(out, m1) := sequential_call m false (stack K b) in
  (m1, unstack K out).

(** One pass over a list of batches with a step function, with the
    events it leaves. *)
Fixpoint run_steps (step : model -> list image * list target -> model * logs)
         (ph : phase) (e : nat) (m : model)
         (bs : list (list image * list target))
  : model * list logs * list event :=
  match bs with
  | [] => (m, [], [])
  | b :: rest =>
      let '(m1, l) := step m b in
      let '(m2, ls, tr) := run_steps step ph e m1 rest in
      (m2, l :: ls, (ph, e, fst b, snd b) :: tr)
  end.

(** [model.evaluate] on the validation arrays, as [fit] calls it; arrays
    of different lengths are rejected. *)
Definition evaluate (args : compile_args) (e : nat) (m : model)
           (val : list image * list target) (batch_size : nat)
  : result (model * list logs) * list event :=
  if negb (length (fst val) =? length (snd val))
  then (Raise (ValueError "Data cardinality is ambiguous"), [])
  else
    let '(m1, ls, tr) :=
      run_steps (test_step args) Validation e m
                (combine (batches batch_size (fst val))
                         (batches batch_size (snd val))) in
    (OK (m1, ls), tr).

(** The training data of one epoch, drawn from a state of type [St], and
    the state afterwards.  For arrays the state is the generator. *)
Definition iterator (St : Type) : Type :=
  St -> list (list image * list target) * St.

Definition dataset : Type := iterator (rng K).

(** The shuffled index array of an epoch, cut into batches. *)
Definition index_batches (n batch_size : nat) (g : rng K)
  : list (list nat) * rng K :=
  let '(perm, g') := rng_permutation K g n in
  (batches batch_size perm, g').

(** Arrays given to [fit] with [batch_size]: shuffled every epoch, and
    rejected when their lengths differ. *)
Definition array_epoch (x : list image) (y : list target) (batch_size : nat)
  : dataset :=
  fun g =>
    let '(ibs, g') := index_batches (length x) batch_size g in
    (map (fun ib => (gather x ib, gather y ib)) ibs, g').

Definition array_dataset (x : list image) (y : list target) (batch_size : nat)
  : result dataset :=
  if length x =? length y
  then OK (array_epoch x y batch_size)
  else Raise (ValueError "Data cardinality is ambiguous").

(** [ImageDataGenerator.get_random_transform(img_shape)]: every number
    is a binary64 one, and so is the product of a shift with the height
    or the width. *)
Definition get_random_transform (dg : ImageDataGenerator)
           (img_shape : nat * nat) (g : rng K) : transform * rng K :=
  let '(th, g1) :=
    if Float64.is_zero (rotation_range dg) then (Float64.zero, g)
    else rng_uniform K g (Float64.opp (rotation_range dg)) (rotation_range dg) in
  let '(t_x, g2) :=
    if Float64.is_zero (height_shift_range dg) then (Float64.zero, g1)
    else
      let '(u, g') := rng_uniform K g1 (Float64.opp (height_shift_range dg))
                                  (height_shift_range dg) in
      (if Float64.ltb (height_shift_range dg) (Float64.of_Z 1)
       then Float64.mul u (Float64.of_Z (Z.of_nat (fst img_shape))) else u, g') in
  let '(t_y, g3) :=
    if Float64.is_zero (width_shift_range dg) then (Float64.zero, g2)
    else
      let '(u, g') := rng_uniform K g2 (Float64.opp (width_shift_range dg))
                                  (width_shift_range dg) in
      (if Float64.ltb (width_shift_range dg) (Float64.of_Z 1)
       then Float64.mul u (Float64.of_Z (Z.of_nat (snd img_shape))) else u, g') in
  let '(sh, g4) :=
    if Float64.is_zero (shear_range dg) then (Float64.zero, g3)
    else rng_uniform K g3 (Float64.opp (shear_range dg)) (shear_range dg) in
  let '(z_x, z_y, g5) :=
    if Float64.eqb (fst (zoom_range dg)) (Float64.of_Z 1)
       && Float64.eqb (snd (zoom_range dg)) (Float64.of_Z 1)
    then (Float64.of_Z 1, Float64.of_Z 1, g4)
    else
      let '(a, g') := rng_uniform K g4 (fst (zoom_range dg)) (snd (zoom_range dg)) in
      let '(b, g'') := rng_uniform K g' (fst (zoom_range dg)) (snd (zoom_range dg)) in
      (a, b, g'') in
  let '(r1, g6) := rng_random K g5 in
  let '(r2, g7) := rng_random K g6 in
  ({| theta := th; tx := t_x; ty := t_y; shear := sh; zx := z_x; zy := z_y;
      flip_horizontal :=
        Float64.ltb r1 (Float64.div (Float64.of_Z 1) (Float64.of_Z 2))
        && horizontal_flip dg;
      flip_vertical :=
        Float64.ltb r2 (Float64.div (Float64.of_Z 1) (Float64.of_Z 2))
        && vertical_flip dg |}, g7).

Definition image_shape (x : image) : nat * nat :=
  (length x, length (hd [] x)).

(** [NumpyArrayIterator._get_batches_of_transformed_samples]: every
    sample of the batch gets a transformation of its own.  With the
    generator's other options left at their defaults [standardize] is the
    identity. *)
Fixpoint transformed_samples (dg : ImageDataGenerator) (x : list image)
         (index_array : list nat) (g : rng K) : list image * rng K :=
  match index_array with
  | [] => ([], g)
  | j :: rest =>
      match nth_error x j with
      | Some xj =>
          let '(params, g1) := get_random_transform dg (image_shape xj) g in
          let '(xs, g2) := transformed_samples dg x rest g1 in
          (apply_transform K dg params xj :: xs, g2)
      | None => transformed_samples dg x rest g
      end
  end.

(** The iterator [datagen.flow(x, y, batch_size=batch_size)] returns; its
    constructor rejects arrays of different lengths. *)
Record NumpyArrayIterator : Type := {
  image_data_generator : ImageDataGenerator;
  iterator_x : list image;
  iterator_y : list target;
  iterator_batch_size : nat
}.

Definition flow (dg : ImageDataGenerator) (x : list image) (y : list target)
           (batch_size : nat) : result NumpyArrayIterator :=
  if length x =? length y
  then OK {| image_data_generator := dg; iterator_x := x; iterator_y := y;
             iterator_batch_size := batch_size |}
  else Raise (ValueError "x (images tensor) and y (labels) should have the same length").

(** [len(iterator)], the number of its batches. *)
Definition iterator_len (it : NumpyArrayIterator) : nat :=
  (length (iterator_x it) + iterator_batch_size it - 1) / iterator_batch_size it.

(** What the iterator keeps between two batches: its index array, unset
    until the first batch is asked for, beside the generators. *)
Definition iterator_state : Type := option (list nat) * rng K.

(** [iterator[idx]] for an [idx] below the length: the index array is
    drawn if it is not set, and the batch is made of the samples at its
    positions [batch_size * idx] onwards. *)
Definition getitem (it : NumpyArrayIterator) (idx : nat) (st : iterator_state)
  : (list image * list target) * iterator_state :=
  let '(index_array, g1) :=
    match fst st with
    | Some ia => (ia, snd st)
    | None => rng_permutation K (snd st) (length (iterator_x it))
    end in
  let ib := firstn (iterator_batch_size it)
                   (skipn (iterator_batch_size it * idx) index_array) in
  let '(xs, g2) :=
    transformed_samples (image_data_generator it) (iterator_x it) ib g1 in
  ((xs, gather (iterator_y it) ib), (Some index_array, g2)).

(** The batches [iterator[i]] for [i] in [order], one after the other.  An
    [i] that is not below the length, which an order that comes from a
    permutation never holds, is passed over. *)
Fixpoint getitems (it : NumpyArrayIterator) (order : list nat) (st : iterator_state)
  : list (list image * list target) * iterator_state :=
  match order with
  | [] => ([], st)
  | idx :: rest =>
      if idx <? iterator_len it
      then
        let '(b, st1) := getitem it idx st in
        let '(bs, st2) := getitems it rest st1 in
        (b :: bs, st2)
      else getitems it rest st
  end.

(** One epoch of [fit] on the iterator: the order of the batches is
    shuffled, the batches are asked for in that order, and at the end of
    the epoch the iterator draws its next index array. *)
Definition sequence_epoch (it : NumpyArrayIterator) : iterator iterator_state :=
  fun st =>
    let '(order, g1) := rng_permutation K (snd st) (iterator_len it) in
    let '(bs, st1) := getitems it order (fst st, g1) in
    let '(index_array, g2) := rng_permutation K (snd st1) (length (iterator_x it)) in
    (bs, (Some index_array, g2)).

(** Before the first epoch [fit] asks the iterator for batch 0, to see
    what its batches are like, and drops it; an iterator without a batch
    cannot answer. *)
Definition sequence_peek (it : NumpyArrayIterator) (g : rng K)
  : result iterator_state :=
  if iterator_len it =? 0
  then Raise (ValueError "Asked to retrieve element 0, but the Sequence has length 0")
  else OK (snd (getitem it 0 (None, g))).

(** The epochs of [fit].  An epoch without a single training step is an
    error; the result comes with the events up to the error, if any. *)
Fixpoint fit_epochs (St : Type) (args : compile_args) (remaining e : nat)
         (m : model) (g : St) (ds : iterator St) (val : list image * list target)
         (validation_batch_size : nat)
  : result (model * list epoch_report * St) * list event :=
  match remaining with
  | O => (OK (m, [], g), [])
  | S remaining' =>
      let '(bs, g1) := ds g in
      match bs with
      | [] => (Raise (ValueError "Unexpected result of train_function (Empty logs)"), [])
      | _ :: _ =>
          let '(m1, tl, tr1) := run_steps (train_step args) Training e m bs in
          match evaluate args e m1 val validation_batch_size with
          | (Raise err, tr2) => (Raise err, tr1 ++ tr2)
          | (OK (m2, vl), tr2) =>
              let '(r, tr3) :=
                fit_epochs St args remaining' (S e) m2 g1 ds val
                           validation_batch_size in
              (match r with
               | OK (m3, h, g2) =>
                   OK (m3,
                       {| epoch := e;
                          train_logs := reduce_logs tl;
                          val_logs := reduce_logs vl |} :: h,
                       g2)
               | Raise err => Raise err
               end,
               tr1 ++ tr2 ++ tr3)
          end
      end
  end.

(** [model.fit(ds, epochs=epochs, validation_data=val)]. *)
Definition fit (args : compile_args) (m : model) (g : rng K) (ds : result dataset)
           (epochs : nat) (val : list image * list target)
           (validation_batch_size : nat)
  : result (model * list epoch_report * rng K) * list event :=
  match ds with
  | OK ds' => fit_epochs (rng K) args epochs 0 m g ds' val validation_batch_size
  | Raise err => (Raise err, [])
  end.

(** [model.fit(iterator, epochs=epochs, validation_data=val)]: what is
    returned beside the model and the reports is the generators' state. *)
Definition fit_sequence (args : compile_args) (m : model) (g : rng K)
           (it : result NumpyArrayIterator) (epochs : nat)
           (val : list image * list target) (validation_batch_size : nat)
  : result (model * list epoch_report * rng K) * list event :=
  match it with
  | Raise err => (Raise err, [])
  | OK it' =>
      match sequence_peek it' g with
      | Raise err => (Raise err, [])
      | OK st =>
          let '(r, tr) :=
            fit_epochs iterator_state args epochs 0 m st (sequence_epoch it') val
                       validation_batch_size in
          (match r with
           | OK (m', h, st') => OK (m', h, snd st')
           | Raise err => Raise err
           end, tr)
      end
  end.

(** [model.predict(x)]: batches of 32 in inference mode. *)
Fixpoint predict_batches (m : model) (bs : list (list image))
  : model * list (list Float32.float32) * list event :=
  match bs with
  | [] => (m, [], [])
  | b :: rest =>
      let '(m1, out) := predict_step m b in
      let '(m2, outs, tr) := predict_batches m1 rest in
      (m2, out ++ outs, (Inference, 0, b, []) :: tr)
  end.

Definition predict (m : model) (x : list image)
  : result (model * list (list Float32.float32)) * list event :=
  match x with
  | [] => (Raise (ValueError "Unexpected result of predict_function (Empty batch_outputs)"), [])
  | _ :: _ =>
      let '(m1, outs, tr) := predict_batches m (batches 32 x) in
      (OK (m1, outs), tr)
  end.
End Model.

Arguments fit_epochs K {St} args remaining e m g ds val validation_batch_size.

(** [tf.keras.utils.to_categorical(y, num_classes)]: a row of zeros with a
    one written at index [y], numpy wrapping a negative index once. *)
Definition one_hot (num_classes k : nat) : list Float32.float32 :=
  map (fun j => if j =? k then Float32.of_Z 1 else S754_zero false)
      (seq 0 num_classes).

Fixpoint to_categorical (y : list Z) (num_classes : nat)
  : result (list (list Float32.float32)) :=
  match y with
  | [] => OK []
  | l :: rest =>
      row <- (if ((0 <=? l) && (l <? Z.of_nat num_classes))%Z
              then OK (one_hot num_classes (Z.to_nat l))
              else if ((- Z.of_nat num_classes <=? l) && (l <? 0))%Z
                   then OK (one_hot num_classes (Z.to_nat (l + Z.of_nat num_classes)))
                   else Raise (IndexError "index out of bounds")) ;;
      rows <- to_categorical rest num_classes ;;
      OK (row :: rows)
  end.

(** The size of one spatial axis under a window of [filter_size] moved by
    [stride], as the shape inference of the convolution and pooling
    operations computes it: a [valid] window that does not fit is an
    error. *)
Definition windowed_output_size (input_size filter_size stride : nat) (pad : padding)
  : result nat :=
  match pad with
  | valid =>
      if input_size <? filter_size
      then Raise (ValueError "Negative dimension size")
      else OK ((input_size - filter_size + stride) / stride)
  | same => OK ((input_size + stride - 1) / stride)
  end.

(** The shape of a layer's output for one example, the batch axis left
    out, as [Sequential] derives it from [input_shape] when it adds the
    layers: the strides of a convolution are one, those of a pooling its
    pool size, pooling is [valid], and a convolution needs an input that
    has a channel. *)
Definition compute_output_shape (l : layer) (input_shape : list nat)
  : result (list nat) :=
  match l with
  | Conv2D filters (kh, kw) pad _ =>
      match input_shape with
      | [rows; cols; channels] =>
          if channels =? 0
          then Raise (ValueError "Depth of filter must not be 0")
          else
            r <- windowed_output_size rows kh 1 pad ;;
            c <- windowed_output_size cols kw 1 pad ;;
            OK [r; c; filters]
      | _ => Raise (ValueError "Input 0 of layer is incompatible with the layer")
      end
  | MaxPooling2D (ph, pw) =>
      match input_shape with
      | [rows; cols; channels] =>
          r <- windowed_output_size rows ph ph valid ;;
          c <- windowed_output_size cols pw pw valid ;;
          OK [r; c; channels]
      | _ => Raise (ValueError "Input 0 of layer is incompatible with the layer")
      end
  | BatchNormalization =>
      match input_shape with
      | [] => Raise (ValueError "Input has undefined axis dimension")
      | _ :: _ => OK input_shape
      end
  | Activation _ => OK input_shape
  | Flatten => OK [fold_right Nat.mul 1 input_shape]
  | Dense units _ =>
      match input_shape with
      | [] => Raise (ValueError "Input 0 of layer is incompatible with the layer")
      | _ :: _ => OK (removelast input_shape ++ [units])
      end
  end.

Fixpoint sequential_output_shape (layers : list layer) (input_shape : list nat)
  : result (list nat) :=
  match layers with
  | [] => OK input_shape
  | l :: rest =>
      s <- compute_output_shape l input_shape ;;
      sequential_output_shape rest s
  end.

End Keras.

(** ** The loading cell of both notebooks *)

(** The images of a file: a four-dimensional array [(n, 28, 28, 1)]. *)
Definition tensor4 : Type := list Keras.image.

(** [a.reshape((-1, 28, 28, 1)).astype('float32') / 255] on the values of
    a frame whose columns are int64, the type [read_csv] gives a column
    of integers of that range: [astype] rounds each entry once, to the
    nearest float32. *)
Definition prepare_images (a : list (list Z)) : result tensor4 :=
  t <- Numpy.reshape_28_28_1 a ;;
  OK (map (map (map (map (fun v =>
        Float32.div (Float32.of_Z v) (Float32.of_Z 255))))) t).

(** [df.iloc[:, 1:].values] and [df.iloc[:, 0].values]; a data frame is the
    list of its rows. *)
Definition iloc_from1 (df : list (list Z)) : list (list Z) := map (@tl Z) df.
Definition iloc_col0 (df : list (list Z)) : list Z := map (hd 0%Z) df.

Definition train_images (train_df : list (list Z)) : result tensor4 :=
  prepare_images (iloc_from1 train_df).

Definition train_labels (train_df : list (list Z)) : list Z :=
  iloc_col0 train_df.

Definition test_images (test_df : list (list Z)) : result tensor4 :=
  prepare_images test_df.

(** Reading one element [t[n, i, j, c]]. *)
Definition at4 (t : tensor4) (n i j c : nat) : Float32.float32 :=
  nth c (nth j (nth i (nth n t []) []) []) S754_nan.

Definition shape_is_28_28_1 (img : Keras.image) : Prop :=
  length img = 28 /\
  Forall (fun row => length row = 28 /\ Forall (fun px => length px = 1) row) img.

(** The float32 quotient [v / 255], the check that it is a finite number
    of [0, 1] and the check that it is within [2^-25] of the exact quotient. *)
Definition normalise (v : Z) : Float32.float32 :=
  Float32.div (Float32.of_Z v) (Float32.of_Z 255).

Definition in_unit_interval (x : Float32.float32) : bool :=
  match Float32.to_Q x with
  | Some q => Qle_bool 0%Q q && Qle_bool q 1%Q
  | None => false
  end.

Definition close_to_quotient (v : Z) (x : Float32.float32) : bool :=
  match Float32.to_Q x with
  | Some q => Qle_bool (Qabs (q - inject_Z v / 255)%Q) (1 # (2 ^ 25))%Q
  | None => false
  end.

(** ** The split cell of both notebooks *)

(** [test_size=0.2] and [random_state=42]. *)
Definition split_cell {RandomState A B : Type} (seeded : Z -> RandomState)
           (permutation : RandomState -> nat -> list nat * RandomState)
           (images : list A) (labels : list B) (global : RandomState)
  : result (list A * list A * list B * list B) * RandomState :=
  Sklearn.train_test_split seeded permutation images labels (Some 42%Z) global.

(** ** The last cells of both notebooks: predicted classes and submission *)

Definition predicted_classes (predictions : list (list Float32.float32))
  : result (list nat) :=
  Numpy.argmax_axis1 predictions.

Definition submission_df (predictions : list (list Float32.float32))
  : result Pandas.DataFrame :=
  classes <- predicted_classes predictions ;;
  Pandas.DataFrame2 "ImageId" (Numpy.arange1 (length classes + 1))
                    "Label" classes.

Definition submission_csv (predictions : list (list Float32.float32))
  : result (list string) :=
  df <- submission_df predictions ;;
  OK (Pandas.to_csv df).

(** ** Notebook 1 *)

Module Notebook1.
Import Keras.

(** In [3], last line. *)
Definition train_labels (train_df : list (list Z)) : result (list target) :=
  rows <- to_categorical (iloc_col0 train_df) 10 ;;
  OK (map OneHot rows).

(** In [5]: the [input_shape] the first layer is given. *)
Definition input_shape : list nat := [28; 28; 1].

(** In [5]. *)
Definition layers : list layer :=
  [ Conv2D 32 (3, 3) valid relu;
    MaxPooling2D (2, 2);
    Conv2D 64 (3, 3) valid relu;
    MaxPooling2D (2, 2);
    Conv2D 64 (3, 3) valid relu;
    Flatten;
    Dense 64 relu;
    Dense 10 softmax ].

(** In [6]. *)
Definition compile : compile_args :=
  {| compiled_optimizer := adam;
     compiled_loss := categorical_crossentropy;
     compiled_metrics := [accuracy] |}.

(** In [7]: [model.fit(X_train, y_train, epochs=10, batch_size=64,
    validation_data=(X_val, y_val))]. *)
Definition fit_cell (K : Backend) (m : model K) (g : rng K)
           (X_train : list image) (y_train : list target)
           (X_val : list image) (y_val : list target)
  : result (model K * list epoch_report * rng K) * list event :=
  fit K compile m g (array_dataset K X_train y_train 64) 10 (X_val, y_val) 64.

(** In [8], first line. *)
Definition predictions (K : Backend) (m : model K) (test_images : list image)
  : result (model K * list (list Float32.float32)) * list event :=
  predict K m test_images.

(** The notebook from the two files to the lines of [submission.csv]:
    the cells in their order, the first error ending the run. *)
Definition run {RandomState : Type} (seeded : Z -> RandomState)
           (permutation : RandomState -> nat -> list nat * RandomState)
           (global : RandomState) (K : Backend)
           (initial : list (variables K)) (g : rng K)
           (train_df test_df : list (list Z)) : result (list string) :=
  images <- train_images train_df ;;
  tests <- test_images test_df ;;
  labels <- train_labels train_df ;;
  parts <- fst (split_cell (A := image) (B := target)
                           seeded permutation images labels global) ;;
  let '(X_train, X_val, y_train, y_val) := parts in
  fitted <- fst (fit_cell K (build K layers initial) g X_train y_train X_val y_val) ;;
  let '(m, _, _) := fitted in
  predicted <- fst (predictions K m tests) ;;
  submission_csv (snd predicted).

End Notebook1.

(** ** Notebook 2 *)

Module Notebook2.
Import Keras.

(** The labels stay integers.  The cells below are numbered from 0, as
    they lie in the notebook file. *)
Definition train_labels (train_df : list (list Z)) : list target :=
  map Sparse (iloc_col0 train_df).

(** Cell 9.  [0.1] is the double nearest to a tenth, which the quotient
    of 1 by 10 in binary64 is.  [datagen.fit] only computes statistics for
    the feature-wise options, which are off, so it leaves the generator as
    it is. *)
Definition tenth : Float64.float64 :=
  Float64.div (Float64.of_Z 1) (Float64.of_Z 10).

Definition datagen : ImageDataGenerator :=
  ImageDataGenerator_init (Float64.of_Z 10) tenth tenth tenth tenth false nearest.

(** Cell 11: the [input_shape] the first layer is given. *)
Definition input_shape : list nat := [28; 28; 1].

(** Cell 11. *)
Definition layers : list layer :=
  [ Conv2D 32 (3, 3) same linear;
    BatchNormalization;
    Activation relu;
    MaxPooling2D (2, 2);
    Conv2D 64 (3, 3) same linear;
    BatchNormalization;
    Activation relu;
    MaxPooling2D (2, 2);
    Flatten;
    Dense 128 linear;
    BatchNormalization;
    Activation relu;
    Dense 10 softmax ].

(** Cell 13. *)
Definition compile : compile_args :=
  {| compiled_optimizer := adam;
     compiled_loss := sparse_categorical_crossentropy;
     compiled_metrics := [accuracy] |}.

(** Cell 15: [model.fit(datagen.flow(train_images, train_labels,
    batch_size=64), epochs=10, validation_data=(val_images, val_labels))]. *)
Definition fit_cell (K : Backend) (m : model K) (g : rng K)
           (train_images : list image) (train_labels : list target)
           (val_images : list image) (val_labels : list target)
  : result (model K * list epoch_report * rng K) * list event :=
  fit_sequence K compile m g (flow datagen train_images train_labels 64) 10
               (val_images, val_labels) 32.

(** Cell 17, first line. *)
Definition predictions (K : Backend) (m : model K) (test_images : list image)
  : result (model K * list (list Float32.float32)) * list event :=
  predict K m test_images.

(** The notebook from the two files to the lines of [submission.csv]:
    the cells in their order, the first error ending the run. *)
Definition run {RandomState : Type} (seeded : Z -> RandomState)
           (permutation : RandomState -> nat -> list nat * RandomState)
           (global : RandomState) (K : Backend)
           (initial : list (variables K)) (g : rng K)
           (train_df test_df : list (list Z)) : result (list string) :=
  images <- train_images train_df ;;
  tests <- test_images test_df ;;
  parts <- fst (split_cell (A := image) (B := target)
                           seeded permutation images (train_labels train_df) global) ;;
  let '(train_images, val_images, train_labels, val_labels) := parts in
  fitted <- fst (fit_cell K (build K layers initial) g
                          train_images train_labels val_images val_labels) ;;
  let '(m, _, _) := fitted in
  predicted <- fst (predictions K m tests) ;;
  submission_csv (snd predicted).

End Notebook2.

(** ** Reading a trace *)

Definition event_phase (ev : Keras.event) : Keras.phase := fst (fst (fst ev)).
Definition event_epoch (ev : Keras.event) : nat := snd (fst (fst ev)).
Definition event_images (ev : Keras.event) : list Keras.image := snd (fst ev).
Definition event_targets (ev : Keras.event) : list Keras.target := snd ev.

Definition phase_eqb (a b : Keras.phase) : bool :=
  match a, b with
  | Keras.Training, Keras.Training => true
  | Keras.Validation, Keras.Validation => true
  | Keras.Inference, Keras.Inference => true
  | _, _ => false
  end.

(** The events of one phase and epoch, in order. *)
Definition events_of (ph : Keras.phase) (e : nat) (trace : list Keras.event)
  : list Keras.event :=
  filter (fun ev => phase_eqb (event_phase ev) ph && (event_epoch ev =? e)) trace.

(** ** Small instances for examples *)

(** A small generator for running the split on examples: the state is a
    counter and the permutation a rotation by it. *)
Module ToyRandom.
Definition RandomState : Type := nat.
Definition seeded (seed : Z) : RandomState := Z.to_nat seed.
Definition permutation (s : RandomState) (n : nat) : list nat * RandomState :=
  (skipn (S s mod (n + 1)) (seq 0 n) ++ firstn (S s mod (n + 1)) (seq 0 n), S s).
End ToyRandom.

(** A small backend to run the notebooks' cells on examples: a tensor is
    the batch itself, a layer adds one to a counter it keeps when it is a
    batch normalisation in training mode, and the transformation is the
    identity. *)
Module ToyBackend.
Definition K : Keras.Backend :=
  {| Keras.tensor := list Keras.image;
     Keras.variables := nat;
     Keras.rng := nat;
     Keras.infer := fun _ _ x => x;
     Keras.bn_train := fun v x => (x, S v);
     Keras.stack := fun b => b;
     Keras.unstack := fun t => map (fun _ => map Float32.of_Z [0; 1; 0; 0; 0; 0; 0; 0; 0; 0]%Z) t;
     Keras.apply_gradients := fun _ m _ _ => m;
     Keras.batch_loss := fun _ _ _ => S754_zero false;
     Keras.batch_metric := fun _ _ _ => Float32.of_Z 1;
     Keras.mean := fun l => hd (S754_zero false) l;
     Keras.rng_permutation := ToyRandom.permutation;
     Keras.rng_uniform := fun g lo hi => (lo, S g);
     Keras.rng_random := fun g => (Float64.zero, S g);
     Keras.apply_transform := fun _ _ x => x |}.

Definition blank : Keras.image := [[[S754_zero false]]].
Definition model0 : Keras.model K := Keras.build K Notebook2.layers (repeat 0 13).
End ToyBackend.

(** A backend that keeps the shapes and nothing else: a tensor is the
    number of examples of a batch and the shape of one, a layer gives its
    input the shape [compute_output_shape] computes, and a batch of [n]
    vectors of [k] numbers unstacks to [n] rows of [k] with a one at
    index 1. *)
Module ShapedBackend.
Definition shape_of_images (b : list Keras.image) : list nat :=
  match b with
  | [] => [28; 28; 1]
  | x :: _ => [length x; length (hd [] x); length (hd [] (hd [] x))]
  end.

Definition K : Keras.Backend :=
  {| Keras.tensor := nat * list nat;
     Keras.variables := nat;
     Keras.rng := nat;
     Keras.infer := fun l _ x =>
       (fst x, match Keras.compute_output_shape l (snd x) with
               | OK s => s
               | Raise _ => []
               end);
     Keras.bn_train := fun v x => (x, S v);
     Keras.stack := fun b => (length b, shape_of_images b);
     Keras.unstack := fun x =>
       repeat (Keras.one_hot (fold_right Nat.mul 1 (snd x)) 1) (fst x);
     Keras.apply_gradients := fun _ m _ _ => m;
     Keras.batch_loss := fun _ _ _ => S754_zero false;
     Keras.batch_metric := fun _ _ _ => Float32.of_Z 1;
     Keras.mean := fun l => hd (S754_zero false) l;
     Keras.rng_permutation := ToyRandom.permutation;
     Keras.rng_uniform := fun g lo hi => (lo, S g);
     Keras.rng_random := fun g => (Float64.zero, S g);
     Keras.apply_transform := fun _ _ x => x |}.

Definition shape_of (x : Keras.tensor K) : nat * list nat := x.

(** A blank image of the loader's shape. *)
Definition blank : Keras.image := repeat (repeat [S754_zero false] 28) 28.
End ShapedBackend.

(** ** Predicates the statements below use *)

(** What the specification gives as the size of the training subset:
    the ceiling of [0.8 * N]. *)
Definition ceil_08 (N : nat) : nat := (8 * N + 9) / 10.

(** Every element of [t] is the float32 quotient by 255 of the element of
    the buffer [buf] that C order puts there. *)
Definition normalised_from (buf : list Z) (t : tensor4) : Prop :=
  forall n i j, n < length t -> i < 28 -> j < 28 ->
    at4 t n i j 0 = normalise (nth (784 * n + 28 * i + j) buf 0%Z).

Definition pixel (v : Z) : Prop := (0 <= v <= 255)%Z.

(** One image per row of the table, each [28 x 28 x 1], element
    [(n, i, j, 0)] being the float32 quotient by 255 of pixel [28 * i + j]
    of row [n], a finite number of [0, 1] within [2^-25] of the exact
    quotient. *)
Definition rows_normalised (rows : list (list Z)) (t : tensor4) : Prop :=
  length t = length rows /\
  Forall shape_is_28_28_1 t /\
  forall n i j, n < length rows -> i < 28 -> j < 28 ->
    let v := nth (28 * i + j) (nth n rows []) 0%Z in
    at4 t n i j 0 = normalise v /\
    in_unit_interval (at4 t n i j 0) = true /\
    close_to_quotient v (at4 t n i j 0) = true.

(** [out] is [a] read at [indices], in that order. *)
Definition selects {A : Type} (a : list A) (indices : list nat) (out : list A) : Prop :=
  Forall2 (fun i x => nth_error a i = Some x) indices out.

(** The four arrays are [X] and [y] read at two index lists that together
    hold every position of [X] exactly once. *)
Definition partitions {A B : Type} (X : list A) (y : list B)
           (X_train X_val : list A) (y_train y_val : list B) : Prop :=
  exists train test : list nat,
    Permutation (train ++ test) (seq 0 (length X)) /\
    selects X train X_train /\ selects y train y_train /\
    selects X test X_val /\ selects y test y_val.


(** The generator as it is at the start of epoch [k] of [fit]; for an
    iterator, its state. *)
Fixpoint rng_after (K : Keras.Backend) {St : Type} (ds : Keras.iterator St)
         (k : nat) (g : St) : St :=
  match k with
  | O => g
  | S k' => rng_after K ds k' (snd (ds g))
  end.

Definition as_event (ph : Keras.phase) (e : nat)
           (b : list Keras.image * list Keras.target) : Keras.event :=
  (ph, e, fst b, snd b).

(** The batches of the validation arrays. *)
Definition validation_batches (val : list Keras.image * list Keras.target)
           (batch_size : nat) : list (list Keras.image * list Keras.target) :=
  combine (Keras.batches batch_size (fst val)) (Keras.batches batch_size (snd val)).

(** What epoch [e] feeds the model when it starts with generator [g]. *)
Definition epoch_events (K : Keras.Backend) {St : Type} (ds : Keras.iterator St)
           (val : list Keras.image * list Keras.target) (batch_size : nat)
           (e : nat) (g : St) : list Keras.event :=
  map (as_event Keras.Training e) (fst (ds g))
  ++ map (as_event Keras.Validation e) (validation_batches val batch_size).

(** The iterator cell 15 trains on, for arrays of one length, and the
    state it is in when the first epoch starts: [fit] has asked it for
    batch 0. *)
Definition train_iterator (X : list Keras.image) (y : list Keras.target)
  : Keras.NumpyArrayIterator :=
  {| Keras.image_data_generator := Notebook2.datagen;
     Keras.iterator_x := X;
     Keras.iterator_y := y;
     Keras.iterator_batch_size := 64 |}.

Definition peeked (K : Keras.Backend) (it : Keras.NumpyArrayIterator)
           (g : Keras.rng K) : Keras.iterator_state K :=
  snd (Keras.getitem K it 0 (None, g)).

(** The iterator holds an index array, a permutation of the positions
    of its images. *)
Definition index_array_set (K : Keras.Backend) (it : Keras.NumpyArrayIterator)
           (st : Keras.iterator_state K) : Prop :=
  exists ia, fst st = Some ia /\
             Permutation ia (seq 0 (length (Keras.iterator_x it))).



(** The draws the specification describes for one sample, one after the
    other from the generator: an angle between -10 and 10, a fraction
    between -0.1 and 0.1 for each shift, multiplied by the height or the
    width, a shear between -0.1 and 0.1, two zoom factors between
    [1 - 0.1] and [1 + 0.1], and the two numbers a flip would be decided
    on, were one allowed. *)
Definition drawn_parameters (K : Keras.Backend) (shape : nat * nat)
           (g : Keras.rng K) : Keras.transform * Keras.rng K :=
  let '(angle, g1) :=
    Keras.rng_uniform K g (Float64.opp (Float64.of_Z 10)) (Float64.of_Z 10) in
  let '(fx, g2) :=
    Keras.rng_uniform K g1 (Float64.opp Notebook2.tenth) Notebook2.tenth in
  let '(fy, g3) :=
    Keras.rng_uniform K g2 (Float64.opp Notebook2.tenth) Notebook2.tenth in
  let '(sh, g4) :=
    Keras.rng_uniform K g3 (Float64.opp Notebook2.tenth) Notebook2.tenth in
  let '(za, g5) :=
    Keras.rng_uniform K g4 (Float64.sub (Float64.of_Z 1) Notebook2.tenth)
                      (Float64.add (Float64.of_Z 1) Notebook2.tenth) in
  let '(zb, g6) :=
    Keras.rng_uniform K g5 (Float64.sub (Float64.of_Z 1) Notebook2.tenth)
                      (Float64.add (Float64.of_Z 1) Notebook2.tenth) in
  let g7 := snd (Keras.rng_random K g6) in
  let g8 := snd (Keras.rng_random K g7) in
  ({| Keras.theta := angle;
      Keras.tx := Float64.mul fx (Float64.of_Z (Z.of_nat (fst shape)));
      Keras.ty := Float64.mul fy (Float64.of_Z (Z.of_nat (snd shape)));
      Keras.shear := sh;
      Keras.zx := za;
      Keras.zy := zb;
      Keras.flip_horizontal := false;
      Keras.flip_vertical := false |}, g8).

(** [samples] are the examples at [positions] of [X] and [y], in that
    order: each label beside its image under parameters drawn for that
    sample from the generator as the sample before it left it, the first
    from [g]; the last draw leaves [g']. *)
Inductive drawn_in_turn (K : Keras.Backend) (X : list Keras.image)
          (y : list Keras.target)
  : list nat -> Keras.rng K -> list (Keras.image * Keras.target) -> Keras.rng K
    -> Prop :=
| drawn_none (g : Keras.rng K) : drawn_in_turn K X y [] g [] g
| drawn_next (j : nat) (positions : list nat) (g g' : Keras.rng K)
             (x : Keras.image) (t : Keras.target)
             (samples : list (Keras.image * Keras.target)) :
    nth_error X j = Some x ->
    nth_error y j = Some t ->
    drawn_in_turn K X y positions
                  (snd (drawn_parameters K (Keras.image_shape x) g)) samples g' ->
    drawn_in_turn K X y (j :: positions) g
                  ((Keras.apply_transform K Notebook2.datagen
                      (fst (drawn_parameters K (Keras.image_shape x) g)) x, t)
                   :: samples) g'.


(** The generator's contract: a permutation of the positions, and a
    number between the bounds. *)
Definition permutes (K : Keras.Backend) : Prop :=
  forall g n, Permutation (fst (Keras.rng_permutation K g n)) (seq 0 n).


(** The targets the two losses are given: the one-hot row of one of ten
    classes, and the index of one of ten classes. *)
Definition is_one_hot (t : Keras.target) : Prop :=
  exists k, k < 10 /\ t = Keras.OneHot (Keras.one_hot 10 k).

Definition is_class_index (t : Keras.target) : Prop :=
  exists c, (0 <= c <= 9)%Z /\ t = Keras.Sparse c.

(** A key that orders the floats the way [SFcompare] does: the class
    (infinities, sign), then exponent and mantissa. *)
Definition order_key (x : spec_float) : Z * Z * Z :=
  match x with
  | S754_infinity true => (-2, 0, 0)%Z
  | S754_finite true m e => (-1, - e, - Z.pos m)%Z
  | S754_zero _ => (0, 0, 0)%Z
  | S754_finite false m e => (1, e, Z.pos m)%Z
  | S754_infinity false => (2, 0, 0)%Z
  | S754_nan => (3, 0, 0)%Z
  end.

Definition key_le (a b : Z * Z * Z) : Prop :=
  let '(a1, a2, a3) := a in
  let '(b1, b2, b3) := b in
  (a1 < b1 \/ (a1 = b1 /\ (a2 < b2 \/ (a2 = b2 /\ a3 <= b3))))%Z.

Definition not_nan (p : Float32.float32) : Prop := Float32.is_nan p = false.

(** Two rows of scores in tenths; the first has its maximum twice. *)
Definition example_predictions : list (list Float32.float32) :=
  [ map (fun v => Float32.div (Float32.of_Z v) (Float32.of_Z 10))
        [0; 1; 4; 0; 0; 4; 1; 0; 0; 0]%Z;
    map (fun v => Float32.div (Float32.of_Z v) (Float32.of_Z 10))
        [0; 0; 0; 0; 0; 0; 0; 1; 0; 9]%Z ].

(** The model object after a call of [predict]: an error leaves it as it
    was. *)
Definition model_after (K : Keras.Backend) (m : Keras.model K)
           (r : result (Keras.model K * list (list Float32.float32)))
  : Keras.model K :=
  match r with
  | OK (m1, _) => m1
  | Raise _ => m
  end.

(** The backend keeps to the shapes, [shape_of] giving for a tensor the
    number of examples it holds and the shape of one: a batch of images
    of the loader stacks to [n] examples of [28 x 28 x 1]; a layer in
    inference mode gives its input the shape [compute_output_shape]
    computes; and [n] vectors of [k] numbers unstack to [n] rows of
    [k]. *)
Definition respects_shapes (K : Keras.Backend)
           (shape_of : Keras.tensor K -> nat * list nat) : Prop :=
  (forall b, Forall shape_is_28_28_1 b ->
             shape_of (Keras.stack K b) = (length b, [28; 28; 1])) /\
  (forall l v x s,
      Keras.compute_output_shape l (snd (shape_of x)) = OK s ->
      shape_of (Keras.infer K l v x) = (fst (shape_of x), s)) /\
  (forall x n k,
      shape_of x = (n, [k]) ->
      length (Keras.unstack K x) = n /\
      Forall (fun r => length r = k) (Keras.unstack K x)).

(** An entry of an integer column as [read_csv] gives it. *)
Definition int64 (v : Z) : Prop := (- 2 ^ 63 <= v < 2 ^ 63)%Z.







(** What training leaves behind: the model, the training loss and
    accuracy reported for each epoch, and the generator. *)
Definition training_outcome (K : Keras.Backend)
           (r : result (Keras.model K * list Keras.epoch_report * Keras.rng K))
  : option (Keras.model K * list (nat * Keras.logs) * Keras.rng K) :=
  match r with
  | OK (m, h, g) =>
      Some (m, map (fun rep => (Keras.epoch rep, Keras.train_logs rep)) h, g)
  | Raise _ => None
  end.

(** The examples a list of steps was fed, each image with its target, in
    the order they were fed. *)
Definition fed_examples (steps : list Keras.event)
  : list (Keras.image * Keras.target) :=
  flat_map (fun ev => combine (event_images ev) (event_targets ev)) steps.

(** A label [to_categorical] takes for ten classes, and the class it
    writes the one at. *)
Definition label_in_range (l : Z) : bool := ((-10 <=? l) && (l <=? 9))%Z.

Definition encoded_class (l : Z) : nat := Z.to_nat (l mod 10).

(** The optimizer's update returns the layers it was given. *)
Definition keeps_layers (K : Keras.Backend) : Prop :=
  forall args m x y,
    map fst (Keras.apply_gradients K args m x y) = map fst m.

(** One update of the optimizer, on the batch [b]. *)
Definition update (K : Keras.Backend) (args : Keras.compile_args)
           (m : Keras.model K) (b : list Keras.image * list Keras.target)
  : Keras.model K :=
  Keras.apply_gradients K args m (Keras.stack K (fst b)) (snd b).

(** The batches the first [n] epochs draw, in the order they are drawn. *)
Definition training_batches (K : Keras.Backend) {St : Type} (ds : Keras.iterator St)
           (n : nat) (g : St) : list (list Keras.image * list Keras.target) :=
  flat_map (fun k => fst (ds (rng_after K ds k g))) (seq 0 n).

(** * Facts about cutting a buffer into pieces *)

Section ChunkFacts.
Variable A : Type.
Implicit Types l : list A.

Lemma chunks_length n k l : length (Numpy.chunks n k l) = n.
Proof.
  revert l; induction n as [|n IH]; intros l; simpl; [reflexivity|].
  now rewrite IH.
Qed.

Lemma firstn_plus a b l :
  firstn (a + b) l = firstn a l ++ firstn b (skipn a l).
Proof.
  revert l; induction a as [|a IH]; intros l; simpl; [reflexivity|].
  destruct l as [|x l]; simpl.
  - now rewrite firstn_nil.
  - now rewrite IH.
Qed.

Lemma concat_chunks n k l :
  concat (Numpy.chunks n k l) = firstn (n * k) l.
Proof.
  revert l; induction n as [|n IH]; intros l; simpl; [reflexivity|].
  now rewrite IH, firstn_plus.
Qed.

Lemma chunks_all_full n k l :
  n * k <= length l ->
  Forall (fun c => length c = k) (Numpy.chunks n k l).
Proof.
  revert l; induction n as [|n IH]; intros l Hlen; simpl; constructor.
  - rewrite length_firstn. simpl in Hlen. lia.
  - apply IH. rewrite length_skipn. simpl in Hlen. lia.
Qed.


Lemma nth_chunks n k l i j d :
  i < n -> j < k ->
  nth j (nth i (Numpy.chunks n k l) []) d = nth (i * k + j) l d.
Proof.
  revert l i; induction n as [|n IH]; intros l i Hi Hj; [lia|].
  simpl. destruct i as [|i].
  - simpl. rewrite nth_firstn.
    destruct (j <? k) eqn:E; [reflexivity|].
    apply Nat.ltb_ge in E. lia.
  - rewrite IH by lia. rewrite nth_skipn. f_equal. simpl. lia.
Qed.

Lemma concat_uniform_length k (rows : list (list A)) :
  Forall (fun r => length r = k) rows ->
  length (concat rows) = length rows * k.
Proof.
  induction 1 as [|r rows Hr _ IH]; simpl; [reflexivity|].
  rewrite length_app, IH, Hr. reflexivity.
Qed.

Lemma nth_concat_uniform k (rows : list (list A)) n j d :
  Forall (fun r => length r = k) rows ->
  j < k ->
  nth (n * k + j) (concat rows) d = nth j (nth n rows []) d.
Proof.
  intros H; revert n; induction H as [|r rows Hr _ IH]; intros n Hj.
  - simpl. destruct (n * k + j); destruct n; destruct j; reflexivity.
  - destruct n as [|n]; simpl.
    + rewrite app_nth1 by lia. reflexivity.
    + rewrite app_nth2 by lia.
      replace (k + n * k + j - length r) with (n * k + j) by lia.
      now apply IH.
Qed.

Lemma nth_map_in (B : Type) (f : A -> B) l n d d' :
  n < length l -> nth n (map f l) d' = f (nth n l d).
Proof.
  intros Hn. rewrite (nth_indep _ d' (f d)) by now rewrite length_map.
  apply map_nth.
Qed.
End ChunkFacts.

Arguments nth_map_in {A B} f l n d d'.
Arguments nth_chunks {A} n k l i j d.

(** * The loader *)

Lemma infer_dim_exact n k :
  k <> 0 -> Numpy.infer_dim (k * n) k = OK n.
Proof.
  intros Hk. unfold Numpy.infer_dim.
  replace (k * n) with (n * k) by lia.
  rewrite Nat.Div0.mod_mul, Nat.div_mul by exact Hk.
  apply Nat.eqb_neq in Hk. rewrite Hk. reflexivity.
Qed.

Lemma normalise_pixel_all :
  forallb (fun k => in_unit_interval (normalise (Z.of_nat k))
                    && close_to_quotient (Z.of_nat k) (normalise (Z.of_nat k)))
          (seq 0 256) = true.
Proof. vm_compute. reflexivity. Qed.

Lemma normalise_pixel v :
  pixel v ->
  in_unit_interval (normalise v) = true /\ close_to_quotient v (normalise v) = true.
Proof.
  intros [Hlo Hhi].
  pose proof normalise_pixel_all as H.
  rewrite forallb_forall in H.
  specialize (H (Z.to_nat v)).
  rewrite Z2Nat.id in H by exact Hlo.
  apply andb_true_iff. apply H.
  apply in_seq. lia.
Qed.

(** Whenever the buffer holds [784 * n] numbers the reshape goes through,
    whatever the width of the rows was. *)
Lemma prepare_images_buffer (a : list (list Z)) (n : nat) :
  length (concat a) = 784 * n ->
  exists t, prepare_images a = OK t /\
            length t = n /\
            Forall shape_is_28_28_1 t /\
            normalised_from (concat a) t.
Proof.
  intros Hlen.
  unfold prepare_images, Numpy.reshape_28_28_1, Numpy.ravel.
  change (28 * 28 * 1) with 784. change (28 * 28) with 784.
  rewrite Hlen, infer_dim_exact by discriminate.
  cbv beta iota delta [Py.bind].
  eexists; split; [reflexivity|].
  assert (Hfull : Forall (fun c => length c = 784) (Numpy.chunks n 784 (concat a))).
  { apply chunks_all_full. lia. }
  split; [|split].
  - now rewrite !length_map, chunks_length.
  - rewrite !Forall_map.
    eapply Forall_impl; [|exact Hfull].
    intros img Himg. cbv beta in Himg |- *. split.
    + now rewrite !length_map, chunks_length.
    + rewrite !Forall_map.
      assert (H28 : Forall (fun c => length c = 28) (Numpy.chunks 28 28 img))
        by (apply chunks_all_full; lia).
      eapply Forall_impl; [|exact H28].
      intros row Hrow. cbv beta. split.
      * now rewrite !length_map.
      * rewrite !Forall_map. apply Forall_forall. reflexivity.
  - intros k i j Hk Hi Hj.
    rewrite !length_map, chunks_length in Hk.
    unfold at4.
    set (img := nth k (Numpy.chunks n 784 (concat a)) []).
    assert (Himg : length img = 784).
    { rewrite Forall_forall in Hfull. apply Hfull, nth_In.
      now rewrite chunks_length. }
    set (row := nth i (Numpy.chunks 28 28 img) []).
    assert (Hrow : length row = 28).
    { assert (H28 : Forall (fun c => length c = 28) (Numpy.chunks 28 28 img))
        by (apply chunks_all_full; lia).
      rewrite Forall_forall in H28. apply H28, nth_In.
      now rewrite chunks_length. }
    rewrite (nth_map_in _ (map _ (Numpy.chunks n 784 (concat a))) k [] _)
      by now rewrite length_map, chunks_length.
    rewrite (nth_map_in _ (Numpy.chunks n 784 (concat a)) k [] _)
      by now rewrite chunks_length.
    fold img.
    rewrite (nth_map_in _ (map _ (Numpy.chunks 28 28 img)) i [] _)
      by now rewrite length_map, chunks_length.
    rewrite (nth_map_in _ (Numpy.chunks 28 28 img) i [] _)
      by now rewrite chunks_length.
    fold row.
    rewrite (nth_map_in _ (map _ row) j [0%Z] _) by now rewrite length_map, Hrow.
    rewrite (nth_map_in _ row j 0%Z _) by now rewrite Hrow.
    subst row img.
    match goal with
    | |- nth 0 (map _ [?x]) _ = normalise ?y => change (normalise x = normalise y)
    end.
    f_equal.
    rewrite (nth_chunks 28 28 _ _ _ 0%Z) by assumption.
    rewrite (nth_chunks n 784 _ _ _ 0%Z) by lia.
    f_equal. lia.
Qed.

Lemma prepare_images_rows (rows : list (list Z)) :
  Forall (fun r => length r = 784 /\ Forall pixel r) rows ->
  exists t, prepare_images rows = OK t /\ rows_normalised rows t.
Proof.
  intros Hrows.
  assert (Hw : Forall (fun r => length r = 784) rows).
  { eapply Forall_impl; [|exact Hrows]. now intros r [Hr _]. }
  destruct (prepare_images_buffer rows (length rows)) as (t & Ht & Hlen & Hshape & Hnorm).
  { rewrite (concat_uniform_length _ 784) by exact Hw. lia. }
  exists t. split; [exact Ht|].
  split; [exact Hlen|]. split; [exact Hshape|].
  intros n i j Hn Hi Hj. cbv zeta.
  assert (Hv : pixel (nth (28 * i + j) (nth n rows []) 0%Z)).
  { rewrite Forall_forall in Hrows.
    destruct (Hrows (nth n rows [])) as [Hlr Hpx]; [now apply nth_In|].
    rewrite Forall_forall in Hpx. apply Hpx, nth_In. lia. }
  assert (Hat : at4 t n i j 0 = normalise (nth (28 * i + j) (nth n rows []) 0%Z)).
  { rewrite Hnorm by lia.
    replace (784 * n + 28 * i + j) with (n * 784 + (28 * i + j)) by lia.
    rewrite (nth_concat_uniform _ 784) by (assumption || lia).
    reflexivity. }
  rewrite Hat. destruct (normalise_pixel _ Hv) as [H1 H2]. now repeat split.
Qed.

(** C3.  For every table whose rows are 784 pixel values in [0, 255]
    (after the label column of the training file is dropped), the loader
    returns one [28 x 28 x 1] image per row; the element at [(n, i, j, 0)]
    is the float32 quotient by 255 of pixel [28 * i + j] of row [n], which
    is a finite number of [0, 1] within [2^-25] of the exact quotient. *)
Theorem loader_normalises_pixel_rows (test_df train_df : list (list Z)) :
  Forall (fun r => length r = 784 /\ Forall pixel r) test_df ->
  Forall (fun r => length r = 785 /\ Forall pixel (tl r)) train_df ->
  (exists t, test_images test_df = OK t /\ rows_normalised test_df t) /\
  (exists t, train_images train_df = OK t /\
             rows_normalised (iloc_from1 train_df) t).
Proof.
  intros Htest Htrain. split.
  - now apply prepare_images_rows.
  - apply prepare_images_rows. unfold iloc_from1.
    rewrite Forall_map. eapply Forall_impl; [|exact Htrain].
    intros r [Hlen Hpx]. split; [|exact Hpx].
    destruct r; simpl in *; lia.
Qed.

Lemma repeat_pixels (v : Z) (n : nat) : pixel v -> Forall pixel (repeat v n).
Proof.
  intros Hv. apply Forall_forall. intros x Hx.
  apply repeat_spec in Hx. now subst.
Qed.

Lemma loader_normalises_pixel_rows_witness :
  (exists t, test_images [repeat 255%Z 784; repeat 0%Z 784] = OK t /\
             rows_normalised [repeat 255%Z 784; repeat 0%Z 784] t) /\
  (exists t, train_images [7%Z :: repeat 128%Z 784] = OK t /\
             rows_normalised (iloc_from1 [7%Z :: repeat 128%Z 784]) t).
Proof.
  apply loader_normalises_pixel_rows.
  - constructor; [|constructor; [|constructor]];
      (split; [apply repeat_length | apply repeat_pixels; unfold pixel; lia]).
  - constructor; [|constructor].
    split; [exact (f_equal S (repeat_length 128%Z 784))
           | apply repeat_pixels; unfold pixel; lia].
Defined.

(** C10.  The loader does not look at the width of the rows: whenever the
    rows of a table of int64 entries share a width other than 784 and the
    table holds [784 * n] numbers in all, the reshape returns [n] images
    without an error, image [k] being read from positions [784 * k]
    onwards of the row-by-row buffer, across the rows' boundaries. *)
Theorem loader_accepts_other_widths (test_df : list (list Z)) (w n : nat) :
  Forall (Forall int64) test_df ->
  Forall (fun r => length r = w) test_df ->
  w <> 784 ->
  length test_df * w = 784 * n ->
  exists t, test_images test_df = OK t /\
            length t = n /\
            Forall shape_is_28_28_1 t /\
            normalised_from (concat test_df) t.
Proof.
  intros _ Hw _ Hsize.
  apply prepare_images_buffer.
  now rewrite (concat_uniform_length _ w).
Qed.

Lemma loader_accepts_other_widths_witness :
  exists t, test_images [repeat 51%Z 392; repeat 255%Z 392] = OK t /\
            length t = 1 /\
            Forall shape_is_28_28_1 t /\
            normalised_from (concat [repeat 51%Z 392; repeat 255%Z 392]) t.
Proof.
  apply (loader_accepts_other_widths [repeat 51%Z 392; repeat 255%Z 392] 392 1).
  - constructor; [|constructor; [|constructor]];
      apply Forall_forall; intros v Hv; apply repeat_spec in Hv; subst v;
      unfold int64; lia.
  - constructor; [|constructor; [|constructor]]; apply repeat_length.
  - discriminate.
  - reflexivity.
Defined.

(** * The split *)

Section IndexingFacts.
Variable A : Type.

Lemma safe_indexing_in_range (a : list A) (indices : list nat) (d : A) :
  Forall (fun i => i < length a) indices ->
  Sklearn.safe_indexing a indices = OK (map (fun i => nth i a d) indices).
Proof.
  induction 1 as [|i rest Hi _ IH]; simpl; [reflexivity|].
  destruct (nth_error a i) as [x|] eqn:E.
  - rewrite IH. simpl. f_equal. f_equal.
    symmetry. now apply nth_error_nth.
  - apply nth_error_None in E. lia.
Qed.

Lemma map_nth_all (l : list A) (d : A) :
  map (fun i => nth i l d) (seq 0 (length l)) = l.
Proof.
  induction l as [|x l IH]; simpl; [reflexivity|].
  f_equal. rewrite <- seq_shift, map_map. exact IH.
Qed.
End IndexingFacts.

Arguments safe_indexing_in_range {A} a indices d.
Arguments map_nth_all {A} l d.

Lemma n_test_le (n : nat) : Sklearn.n_test_of n <= n.
Proof.
  unfold Sklearn.n_test_of.
  destruct n as [|n]; [reflexivity|].
  apply Nat.Div0.div_le_upper_bound. lia.
Qed.

Lemma n_train_is_floor (n : nat) : n - Sklearn.n_test_of n = 8 * n / 10.
Proof.
  unfold Sklearn.n_test_of.
  pose proof (Nat.div_mod_eq (n + 4) 5) as H1.
  pose proof (Nat.mod_upper_bound (n + 4) 5) as H2.
  pose proof (Nat.div_mod_eq (8 * n) 10) as H3.
  pose proof (Nat.mod_upper_bound (8 * n) 10) as H4.
  lia.
Qed.

Lemma validate_shuffle_split_ok (n : nat) :
  2 <= n ->
  Sklearn.validate_shuffle_split n
  = OK (n - Sklearn.n_test_of n, Sklearn.n_test_of n).
Proof.
  intros Hn. unfold Sklearn.validate_shuffle_split.
  destruct (n - Sklearn.n_test_of n =? 0) eqn:E; [|reflexivity].
  apply Nat.eqb_eq in E. rewrite n_train_is_floor in E.
  assert (1 <= 8 * n / 10) by (apply Nat.div_le_lower_bound; lia).
  lia.
Qed.

Lemma agree_from_sound (count : nat) (start n : Z) :
  Sklearn.agree_from count start = true ->
  (start <= n < start + Z.of_nat count)%Z ->
  Sklearn.n_test_binary64 n = ((n + 4) / 5)%Z.
Proof.
  revert start; induction count as [|count IH]; intros start Hall Hn; [lia|].
  simpl in Hall. apply andb_true_iff in Hall. destruct Hall as [Hhere Hrest].
  destruct (Z.eq_dec n start) as [->|Hne].
  - now apply Z.eqb_eq.
  - apply (IH (start + 1)%Z); [exact Hrest | lia].
Qed.

(** On every size up to a hundred thousand rows the binary64 product and
    its ceiling give the test size used above. *)
Lemma n_test_binary64_agrees (n : nat) :
  n <= Z.to_nat 100000 ->
  Sklearn.n_test_binary64 (Z.of_nat n) = Z.of_nat (Sklearn.n_test_of n).
Proof.
  intros Hn.
  rewrite (agree_from_sound (Z.to_nat 100001) 0 (Z.of_nat n)).
  - unfold Sklearn.n_test_of. rewrite Nat2Z.inj_div, Nat2Z.inj_add. reflexivity.
  - vm_compute. reflexivity.
  - lia.
Qed.

Lemma selects_map_nth {A : Type} (a : list A) (indices : list nat) (d : A) :
  Forall (fun i => i < length a) indices ->
  selects a indices (map (fun i => nth i a d) indices).
Proof.
  induction 1 as [|i rest Hi _ IH]; simpl; constructor; [|exact IH].
  now apply nth_error_nth'.
Qed.

Lemma combine_map_same {I A B : Type} (f : I -> A) (g : I -> B) (l : list I) :
  combine (map f l) (map g l) = map (fun i => (f i, g i)) l.
Proof.
  induction l as [|i l IH]; simpl; [reflexivity|]. now rewrite IH.
Qed.

Lemma toy_permutation_perm (s n : nat) :
  Permutation (fst (ToyRandom.permutation s n)) (seq 0 n).
Proof.
  unfold ToyRandom.permutation. simpl fst.
  rewrite Permutation_app_comm. now rewrite firstn_skipn.
Qed.

(** With at least two examples the split returns [X] and [y] read at the
    tail and at the head of the permutation. *)
Lemma split_cell_reads
      (RandomState : Type) (seeded : Z -> RandomState)
      (permutation : RandomState -> nat -> list nat * RandomState)
      (A B : Type) (X : list A) (y : list B) (global : RandomState)
      (dx : A) (dy : B) :
  (forall s n, Permutation (fst (permutation s n)) (seq 0 n)) ->
  length X = length y ->
  2 <= length X ->
  exists train test : list nat,
    Permutation (train ++ test) (seq 0 (length X)) /\
    length train = length X - Sklearn.n_test_of (length X) /\
    length test = Sklearn.n_test_of (length X) /\
    split_cell seeded permutation X y global
    = (OK (map (fun i => nth i X dx) train, map (fun i => nth i X dx) test,
           map (fun i => nth i y dy) train, map (fun i => nth i y dy) test),
       global).
Proof.
  intros Hperm Hlen HN.
  set (N := length X) in *.
  unfold split_cell, Sklearn.train_test_split.
  fold N. rewrite <- Hlen, Nat.eqb_refl. simpl negb. cbv iota.
  rewrite validate_shuffle_split_ok by exact HN.
  set (nt := Sklearn.n_test_of N).
  assert (Hnt : nt <= N) by apply n_test_le.
  unfold Sklearn.iter_indices, Sklearn.check_random_state.
  specialize (Hperm (seeded 42%Z) N).
  destruct (permutation (seeded 42%Z) N) as [perm rng'].
  simpl fst in Hperm.
  assert (Hplen : length perm = N).
  { rewrite (Permutation_length Hperm). apply length_seq. }
  assert (Htrain : firstn (N - nt) (skipn nt perm) = skipn nt perm).
  { apply firstn_all2. rewrite length_skipn. lia. }
  rewrite Htrain.
  exists (skipn nt perm), (firstn nt perm).
  assert (Hall : Permutation (skipn nt perm ++ firstn nt perm) (seq 0 N)).
  { rewrite Permutation_app_comm. now rewrite firstn_skipn. }
  assert (Hin : forall i, In i (skipn nt perm ++ firstn nt perm) -> i < N).
  { intros i Hi. apply (Permutation_in _ Hall) in Hi.
    apply in_seq in Hi. lia. }
  assert (Htr : Forall (fun i => i < N) (skipn nt perm)).
  { apply Forall_forall. intros i Hi. apply Hin, in_or_app. now left. }
  assert (Hte : Forall (fun i => i < N) (firstn nt perm)).
  { apply Forall_forall. intros i Hi. apply Hin, in_or_app. now right. }
  split; [exact Hall|].
  split; [rewrite length_skipn; lia|].
  split; [rewrite length_firstn; lia|].
  rewrite (safe_indexing_in_range X _ dx Htr).
  rewrite (safe_indexing_in_range X _ dx Hte).
  rewrite Hlen in Htr, Hte.
  rewrite (safe_indexing_in_range y _ dy Htr).
  rewrite (safe_indexing_in_range y _ dy Hte).
  reflexivity.
Qed.

(** C1.  For every generator whose [permutation] returns a permutation of
    the positions and all arrays [X] and [y] of one length [N], the split
    with [test_size=0.2] and [random_state=42] raises [ValueError] when
    [N < 2]; when [N >= 2] it returns four arrays: the training part has
    [N - ceil(N / 5) = floor(0.8 * N)] examples, the validation part the
    other [ceil(0.2 * N)]; they are [X] and [y] read at two index lists
    that hold every position exactly once, so the labelled examples of the
    two parts are a rearrangement of the original ones. *)
Theorem split_partitions_floor_ceil
        (RandomState : Type) (seeded : Z -> RandomState)
        (permutation : RandomState -> nat -> list nat * RandomState)
        (A B : Type) (X : list A) (y : list B) (global : RandomState) :
  (forall s n, Permutation (fst (permutation s n)) (seq 0 n)) ->
  length X = length y ->
  (length X < 2 ->
   split_cell seeded permutation X y global
   = (Raise (ValueError "the resulting train set will be empty"), global)) /\
  (2 <= length X ->
   exists X_train X_val y_train y_val,
     split_cell seeded permutation X y global
     = (OK (X_train, X_val, y_train, y_val), global) /\
     length X_train = 8 * length X / 10 /\
     length X_val = (length X + 4) / 5 /\
     length X_train + length X_val = length X /\
     length y_train = length X_train /\
     length y_val = length X_val /\
     partitions X y X_train X_val y_train y_val /\
     Permutation (combine X_train y_train ++ combine X_val y_val) (combine X y)).
Proof.
  intros Hperm Hlen. split.
  { intros Hsmall. unfold split_cell, Sklearn.train_test_split.
    rewrite <- Hlen, Nat.eqb_refl. simpl negb. cbv iota.
    destruct (length X) as [|[|n]]; [reflexivity | reflexivity | lia]. }
  intros HN.
  destruct X as [|dx X']; [simpl in HN; lia|].
  destruct y as [|dy y']; [discriminate|].
  set (X := dx :: X') in *. set (y := dy :: y') in *.
  destruct (split_cell_reads _ seeded permutation _ _ X y global dx dy Hperm Hlen HN)
    as (train & test & Hall & Ltrain & Ltest & Heq).
  pose proof (n_test_le (length X)) as Hnt.
  assert (Hin : forall i, In i (train ++ test) -> i < length X).
  { intros i Hi. apply (Permutation_in _ Hall) in Hi.
    apply in_seq in Hi. lia. }
  assert (Htr : Forall (fun i => i < length X) train).
  { apply Forall_forall. intros i Hi. apply Hin, in_or_app. now left. }
  assert (Hte : Forall (fun i => i < length X) test).
  { apply Forall_forall. intros i Hi. apply Hin, in_or_app. now right. }
  rewrite Heq. do 4 eexists. split; [reflexivity|].
  rewrite !length_map, Ltrain, Ltest.
  split; [apply n_train_is_floor|].
  split; [reflexivity|].
  split; [lia|].
  split; [reflexivity|].
  split; [reflexivity|].
  split.
  - exists train, test. split; [exact Hall|].
    repeat split; apply selects_map_nth; try assumption; now rewrite <- Hlen.
  - rewrite !combine_map_same, <- map_app.
    rewrite (Permutation_map _ Hall).
    rewrite (map_ext _ (fun i => nth i (combine X y) (dx, dy)))
      by (intros i; symmetry; apply combine_nth; exact Hlen).
    replace (length X) with (length (combine X y))
      by (rewrite length_combine, <- Hlen; apply Nat.min_id).
    now rewrite map_nth_all.
Qed.

Lemma split_partitions_floor_ceil_witness :
  exists X_train X_val y_train y_val,
    split_cell ToyRandom.seeded ToyRandom.permutation
               [10; 11; 12; 13; 14; 15] [0; 1; 2; 3; 4; 5] 7
    = (OK (X_train, X_val, y_train, y_val), 7) /\
    length X_train = 8 * 6 / 10 /\
    length X_val = (6 + 4) / 5 /\
    length X_train + length X_val = 6 /\
    length y_train = length X_train /\
    length y_val = length X_val /\
    partitions [10; 11; 12; 13; 14; 15] [0; 1; 2; 3; 4; 5]
               X_train X_val y_train y_val /\
    Permutation (combine X_train y_train ++ combine X_val y_val)
                (combine [10; 11; 12; 13; 14; 15] [0; 1; 2; 3; 4; 5]).
Proof.
  apply (split_partitions_floor_ceil _ ToyRandom.seeded ToyRandom.permutation
           _ _ [10; 11; 12; 13; 14; 15] [0; 1; 2; 3; 4; 5] 7).
  - exact toy_permutation_perm.
  - reflexivity.
  - simpl; lia.
Defined.

(** The statement of C1 as the specification has it fails: on six
    examples the training part has four of them, not [ceil(0.8 * 6) = 5],
    and on a single example the split raises. *)
Lemma split_size_counterexample :
  fst (split_cell ToyRandom.seeded ToyRandom.permutation
                  [10; 11; 12; 13; 14; 15] [0; 1; 2; 3; 4; 5] 7)
  = OK ([13; 14; 15; 10], [11; 12], [3; 4; 5; 0], [1; 2]) /\
  length [13; 14; 15; 10] <> ceil_08 6 /\
  fst (split_cell ToyRandom.seeded ToyRandom.permutation [10] [0] 7)
  = Raise (ValueError "the resulting train set will be empty").
Proof.
  split; [reflexivity|]. split; [|reflexivity].
  vm_compute. discriminate.
Qed.

(** For every generator the sizes are the same: the training part never
    has [ceil(0.8 * N)] examples unless [N] is a multiple of five. *)
Lemma train_size_differs (N : nat) :
  N mod 5 <> 0 -> 8 * N / 10 <> ceil_08 N.
Proof.
  unfold ceil_08. intros H.
  pose proof (Nat.div_mod_eq N 5) as H0.
  pose proof (Nat.mod_upper_bound N 5) as H5.
  pose proof (Nat.div_mod_eq (8 * N) 10) as H1.
  pose proof (Nat.mod_upper_bound (8 * N) 10) as H2.
  pose proof (Nat.div_mod_eq (8 * N + 9) 10) as H3.
  pose proof (Nat.mod_upper_bound (8 * N + 9) 10) as H4.
  lia.
Qed.

(** C2.  With [random_state=42] the split does not read or advance the
    process-wide generator: from any two states of it the four arrays (or
    the error) are the same, and a second run after the first returns what
    the first did. *)
Theorem split_deterministic
        (RandomState : Type) (seeded : Z -> RandomState)
        (permutation : RandomState -> nat -> list nat * RandomState)
        (A B : Type) (X : list A) (y : list B) (global1 global2 : RandomState) :
  fst (split_cell seeded permutation X y global1)
  = fst (split_cell seeded permutation X y global2) /\
  snd (split_cell seeded permutation X y global1) = global1 /\
  fst (split_cell seeded permutation X y
                  (snd (split_cell seeded permutation X y global1)))
  = fst (split_cell seeded permutation X y global1).
Proof.
  assert (Hfst : forall g1 g2,
             fst (split_cell seeded permutation X y g1)
             = fst (split_cell seeded permutation X y g2)).
  { intros g1 g2. unfold split_cell, Sklearn.train_test_split.
    destruct (negb (length X =? length y)); [reflexivity|].
    destruct (Sklearn.validate_shuffle_split (length X)) as [[n_train n_test]|e];
      [|reflexivity].
    simpl Sklearn.check_random_state.
    destruct (Sklearn.iter_indices permutation (seeded 42%Z) (length X) n_train n_test)
      as [[train test] rng'].
    reflexivity. }
  assert (Hsnd : forall g, snd (split_cell seeded permutation X y g) = g).
  { intros g. unfold split_cell, Sklearn.train_test_split.
    destruct (negb (length X =? length y)); [reflexivity|].
    destruct (Sklearn.validate_shuffle_split (length X)) as [[n_train n_test]|e];
      [|reflexivity].
    destruct (Sklearn.iter_indices permutation
                (Sklearn.check_random_state seeded (Some 42%Z) g)
                (length X) n_train n_test) as [[train test] rng'].
    reflexivity. }
  split; [apply Hfst|]. split; [apply Hsnd|]. apply Hfst.
Qed.

(** Without a seed the same call does depend on the process-wide
    generator, and two runs in a row differ. *)
Example unseeded_split_varies :
  let run := Sklearn.train_test_split ToyRandom.seeded ToyRandom.permutation
               [10; 11; 12; 13; 14; 15] [0; 1; 2; 3; 4; 5] None in
  fst (run 7) <> fst (run (snd (run 7))).
Proof. vm_compute. discriminate. Qed.

(** * The float order *)

Lemma leb_key (x y : spec_float) :
  Float32.is_nan x = false -> Float32.is_nan y = false ->
  (Float32.leb x y = true <-> key_le (order_key x) (order_key y)).
Proof.
  intros Hx Hy. unfold Float32.leb, SFleb, SFcompare.
  destruct x as [sx|sx| |sx mx ex]; try discriminate;
    destruct y as [sy|sy| |sy my ey]; try discriminate;
    try destruct sx; try destruct sy; simpl;
    try (split; [intros _; lia | reflexivity]);
    try (split; [discriminate | lia]).
  - destruct (Z.compare_spec ex ey) as [He|He|He];
      [ change (Pos.compare_cont Eq mx my) with (Pos.compare mx my);
        destruct (Pos.compare_spec mx my) as [Hm|Hm|Hm]; simpl | | ];
      split; try discriminate; try reflexivity; try lia.
  - destruct (Z.compare_spec ex ey) as [He|He|He];
      [ change (Pos.compare_cont Eq mx my) with (Pos.compare mx my);
        destruct (Pos.compare_spec mx my) as [Hm|Hm|Hm]; simpl | | ];
      split; try discriminate; try reflexivity; try lia.
Qed.


Lemma leb_trans (x y z : spec_float) :
  Float32.is_nan x = false -> Float32.is_nan y = false -> Float32.is_nan z = false ->
  Float32.leb x y = true -> Float32.leb y z = true -> Float32.leb x z = true.
Proof.
  intros Hx Hy Hz Hxy Hyz.
  apply (leb_key x z Hx Hz).
  apply (leb_key x y Hx Hy) in Hxy. apply (leb_key y z Hy Hz) in Hyz.
  unfold key_le in *.
  destruct (order_key x) as [[a1 a2] a3], (order_key y) as [[b1 b2] b3],
           (order_key z) as [[c1 c2] c3]. lia.
Qed.


(** * The predicted classes *)




(** Whatever the row holds, the scan returns one of its positions. *)
Lemma argmax_scan_bound (rest : list Float32.float32) (mp : Float32.float32) (max_ind i : nat) :
  max_ind < i -> Numpy.argmax_scan mp max_ind i rest < i + length rest.
Proof.
  revert mp max_ind i; induction rest as [|z rest IH]; intros mp max_ind i Hlt;
    simpl; [lia|].
  destruct (negb (Float32.leb z mp)).
  - destruct (Float32.is_nan z); [lia|].
    specialize (IH z i (S i)). lia.
  - specialize (IH mp max_ind (S i)). lia.
Qed.

Lemma argmax_bound (row : list Float32.float32) :
  row <> [] -> exists k, Numpy.argmax row = OK k /\ k < length row.
Proof.
  intros Hne. destruct row as [|mp rest]; [congruence|].
  unfold Numpy.argmax. destruct (Float32.is_nan mp).
  - exists 0. split; [reflexivity | simpl; lia].
  - eexists. split; [reflexivity|].
    pose proof (argmax_scan_bound rest mp 0 1). simpl. lia.
Qed.

Lemma argmax_axis1_rows (predictions : list (list Float32.float32)) :
  Forall (fun row => row <> []) predictions ->
  exists classes,
    Numpy.argmax_axis1 predictions = OK classes /\
    Forall2 (fun row k => Numpy.argmax row = OK k) predictions classes.
Proof.
  induction 1 as [|row rows Hrow _ IH].
  - exists []. split; [reflexivity | constructor].
  - destruct IH as (ks & Hks & Hall).
    destruct (argmax_bound row Hrow) as (k & Hk & _).
    exists (k :: ks). simpl. rewrite Hk, Hks. simpl.
    split; [reflexivity | now constructor].
Qed.

Example example_predicted_classes :
  predicted_classes example_predictions = OK [2; 9].
Proof. vm_compute. reflexivity. Qed.

(** * The submission *)

Lemma arange1_succ (n : nat) : Numpy.arange1 (n + 1) = seq 1 n.
Proof. unfold Numpy.arange1. f_equal. lia. Qed.

Lemma to_csv_two_columns (name1 name2 : string) (col1 col2 : list nat) :
  Pandas.to_csv {| Pandas.columns := [name1; name2]; Pandas.data := [col1; col2] |}
  = (name1 ++ "," ++ name2)%string
    :: map (fun i => (Pandas.show_nat (nth i col1 0) ++ ","
                      ++ Pandas.show_nat (nth i col2 0))%string)
           (seq 0 (length col1)).
Proof. reflexivity. Qed.

(** C5.  For every array of predictions with [N] rows of ten numbers, the
    last cells build a frame with the columns [ImageId] and [Label] and
    [N] rows: [ImageId] is [1, 2, ..., N], [Label] holds for row [i] the
    class computed from the [i]-th row of the predictions, a number below
    ten, and the file written is the line [ImageId,Label] followed by the
    [N] lines [i+1,label_i] in that order. *)
Theorem submission_has_one_row_per_image (predictions : list (list Float32.float32)) :
  Forall (fun row => length row = 10) predictions ->
  exists labels df,
    predicted_classes predictions = OK labels /\
    Forall2 (fun row l => Numpy.argmax row = OK l /\ l < 10) predictions labels /\
    submission_df predictions = OK df /\
    Pandas.columns df = ["ImageId"; "Label"] /\
    Pandas.nrows df = length predictions /\
    Pandas.column df "ImageId" = Some (seq 1 (length predictions)) /\
    Pandas.column df "Label" = Some labels /\
    submission_csv predictions
    = OK ("ImageId,Label"
          :: map (fun i => (Pandas.show_nat (S i) ++ ","
                            ++ Pandas.show_nat (nth i labels 0))%string)
                 (seq 0 (length predictions))).
Proof.
  intros Hrows.
  destruct (argmax_axis1_rows predictions) as (labels & Hcl & Hall).
  { eapply Forall_impl; [|exact Hrows]. intros row Hlen ->. discriminate. }
  assert (Hlen : length labels = length predictions).
  { symmetry. exact (Forall2_length Hall). }
  exists labels.
  exists {| Pandas.columns := ["ImageId"; "Label"];
            Pandas.data := [seq 1 (length predictions); labels] |}.
  assert (Hdf : submission_df predictions
                = OK {| Pandas.columns := ["ImageId"; "Label"];
                        Pandas.data := [seq 1 (length predictions); labels] |}).
  { unfold submission_df, predicted_classes. rewrite Hcl.
    cbv beta iota delta [Py.bind]. rewrite arange1_succ.
    unfold Pandas.DataFrame2. rewrite length_seq, Nat.eqb_refl.
    now rewrite Hlen. }
  split; [exact Hcl|]. split.
  - clear Hcl Hlen Hdf.
    induction Hall as [|row l rows ls Hl _ IH]; constructor.
    + split; [exact Hl|].
      inversion Hrows as [|? ? H10 _]; subst.
      destruct (argmax_bound row) as (k & Hk & Hb); [intros ->; discriminate|].
      rewrite Hk in Hl. inversion Hl. subst. lia.
    + apply IH. now inversion Hrows.
  - split; [exact Hdf|]. split; [reflexivity|].
    split; [apply length_seq|]. split; [reflexivity|]. split; [reflexivity|].
    unfold submission_csv. rewrite Hdf.
    cbv beta iota delta [Py.bind]. rewrite to_csv_two_columns.
    rewrite length_seq. do 2 f_equal.
    apply map_ext_in. intros i Hi. apply in_seq in Hi.
    rewrite seq_nth by lia. reflexivity.
Qed.

Lemma submission_has_one_row_per_image_witness :
  exists labels df,
    predicted_classes example_predictions = OK labels /\
    Forall2 (fun row l => Numpy.argmax row = OK l /\ l < 10)
            example_predictions labels /\
    submission_df example_predictions = OK df /\
    Pandas.columns df = ["ImageId"; "Label"] /\
    Pandas.nrows df = length example_predictions /\
    Pandas.column df "ImageId" = Some (seq 1 (length example_predictions)) /\
    Pandas.column df "Label" = Some labels /\
    submission_csv example_predictions
    = OK ("ImageId,Label"
          :: map (fun i => (Pandas.show_nat (S i) ++ ","
                            ++ Pandas.show_nat (nth i labels 0))%string)
                 (seq 0 (length example_predictions))).
Proof.
  apply (submission_has_one_row_per_image example_predictions).
  repeat constructor.
Defined.

Example example_submission :
  submission_csv example_predictions = OK ["ImageId,Label"; "1,2"; "2,9"].
Proof. vm_compute. reflexivity. Qed.

(** * Inference *)

Section InferenceFacts.
Variable K : Keras.Backend.

Lemma call_inference (l : Keras.layer) (v : Keras.variables K) (x : Keras.tensor K) :
  Keras.call K l v false x = (Keras.infer K l v x, v).
Proof. destruct l; reflexivity. Qed.

Lemma sequential_call_inference (m : Keras.model K) (x : Keras.tensor K) :
  snd (Keras.sequential_call K m false x) = m.
Proof.
  revert x; induction m as [|[l v] rest IH]; intros x; simpl; [reflexivity|].
  rewrite call_inference.
  specialize (IH (Keras.infer K l v x)).
  destruct (Keras.sequential_call K rest false (Keras.infer K l v x)) as [z rest'].
  simpl in *. now rewrite IH.
Qed.

Lemma predict_step_frozen (m : Keras.model K) (b : list Keras.image) :
  fst (Keras.predict_step K m b) = m.
Proof.
  unfold Keras.predict_step.
  pose proof (sequential_call_inference m (Keras.stack K b)) as H.
  destruct (Keras.sequential_call K m false (Keras.stack K b)) as [out m1].
  exact H.
Qed.

Lemma predict_batches_frozen (m : Keras.model K) (bs : list (list Keras.image)) :
  fst (fst (Keras.predict_batches K m bs)) = m.
Proof.
  revert m; induction bs as [|b rest IH]; intros m; simpl; [reflexivity|].
  pose proof (predict_step_frozen m b) as H.
  destruct (Keras.predict_step K m b) as [m1 out]. simpl in H. subst m1.
  specialize (IH m).
  destruct (Keras.predict_batches K m rest) as [[m2 outs] tr]. exact IH.
Qed.

Lemma predict_batches_trace (m : Keras.model K) (bs : list (list Keras.image)) :
  snd (Keras.predict_batches K m bs)
  = map (fun b => (Keras.Inference, 0, b, [])) bs.
Proof.
  revert m; induction bs as [|b rest IH]; intros m; simpl; [reflexivity|].
  destruct (Keras.predict_step K m b) as [m1 out].
  specialize (IH m1).
  destruct (Keras.predict_batches K m1 rest) as [[m2 outs] tr].
  simpl in *. now rewrite IH.
Qed.
End InferenceFacts.

Lemma predict_frozen (K : Keras.Backend) (m : Keras.model K) (x : list Keras.image) :
  model_after K m (fst (Keras.predict K m x)) = m.
Proof.
  unfold Keras.predict. destruct x as [|x0 x]; [reflexivity|].
  pose proof (predict_batches_frozen K m (Keras.batches 32 (x0 :: x))) as H.
  destruct (Keras.predict_batches K m (Keras.batches 32 (x0 :: x))) as [[m1 outs] tr].
  exact H.
Qed.

Lemma predict_trace (K : Keras.Backend) (m : Keras.model K) (x : list Keras.image) :
  snd (Keras.predict K m x)
  = map (fun b => (Keras.Inference, 0, b, [])) (Keras.batches 32 x).
Proof.
  unfold Keras.predict. destruct x as [|x0 x]; [reflexivity|].
  pose proof (predict_batches_trace K m (Keras.batches 32 (x0 :: x))) as H.
  destruct (Keras.predict_batches K m (Keras.batches 32 (x0 :: x))) as [[m1 outs] tr].
  exact H.
Qed.

(** On at least one image [predict] returns, and leaves the model as it
    found it. *)
Lemma predict_returns (K : Keras.Backend) (m : Keras.model K) (x : list Keras.image) :
  x <> [] -> exists outs, fst (Keras.predict K m x) = OK (m, outs).
Proof.
  intros Hx. pose proof (predict_frozen K m x) as H.
  unfold Keras.predict in *. destruct x as [|x0 x]; [congruence|].
  destruct (Keras.predict_batches K m (Keras.batches 32 (x0 :: x))) as [[m1 outs] tr].
  simpl in *. subst m1. now exists outs.
Qed.

(** C8.  [model.predict] runs every layer in inference mode, where no
    layer writes its variables: the model after the call is the model
    before it, so a second call on the same images returns what the first
    did, the same rows of predictions (or, for no image at all, the same
    error), in both notebooks. *)
Theorem predict_twice_same (K : Keras.Backend) (m : Keras.model K)
        (test_images : list Keras.image) :
  let run1 := fst (Notebook1.predictions K m test_images) in
  let run1' := fst (Notebook2.predictions K m test_images) in
  model_after K m run1 = m /\
  fst (Notebook1.predictions K (model_after K m run1) test_images) = run1 /\
  model_after K m run1' = m /\
  fst (Notebook2.predictions K (model_after K m run1') test_images) = run1'.
Proof.
  cbv zeta. unfold Notebook1.predictions, Notebook2.predictions.
  rewrite !predict_frozen. now repeat split.
Qed.

(** In training mode a batch normalisation does write its variables. *)
Example training_call_moves_averages :
  snd (Keras.sequential_call ToyBackend.K ToyBackend.model0 true [ToyBackend.blank])
  <> ToyBackend.model0.
Proof. vm_compute. discriminate. Qed.

Example example_predict_twice :
  fst (Notebook2.predictions ToyBackend.K ToyBackend.model0
         [ToyBackend.blank; ToyBackend.blank])
  = OK (ToyBackend.model0,
        [map Float32.of_Z [0; 1; 0; 0; 0; 0; 0; 0; 0; 0]%Z;
         map Float32.of_Z [0; 1; 0; 0; 0; 0; 0; 0; 0; 0]%Z]).
Proof. vm_compute. reflexivity. Qed.

(** * Batches *)

Section BatchFacts.
Variable X : Type.
Implicit Types l : list X.

Lemma length_batches k l : length (Keras.batches k l) = (length l + k - 1) / k.
Proof. apply chunks_length. Qed.


Lemma concat_batches k l : 0 < k -> concat (Keras.batches k l) = l.
Proof.
  intros Hk. unfold Keras.batches. rewrite concat_chunks.
  apply firstn_all2.
  pose proof (Nat.div_mod_eq (length l + k - 1) k) as H.
  pose proof (Nat.mod_upper_bound (length l + k - 1) k) as H'.
  nia.
Qed.

Lemma list_sum_lengths (ls : list (list X)) :
  list_sum (map (@length X) ls) = length (concat ls).
Proof.
  induction ls as [|a ls IH]; simpl; [reflexivity|].
  now rewrite length_app, IH.
Qed.
End BatchFacts.

Lemma map_fst_combine_same {A B : Type} (a : list A) (b : list B) :
  length a = length b -> map fst (combine a b) = a.
Proof.
  revert b; induction a as [|x a IH]; intros [|y b] H; simpl in *;
    try discriminate; [reflexivity|].
  f_equal. apply IH. lia.
Qed.

Lemma map_snd_combine_same {A B : Type} (a : list A) (b : list B) :
  length a = length b -> map snd (combine a b) = b.
Proof.
  revert b; induction a as [|x a IH]; intros [|y b] H; simpl in *;
    try discriminate; [reflexivity|].
  f_equal. apply IH. lia.
Qed.


Lemma gather_length {X : Type} (a : list X) (indices : list nat) :
  Forall (fun j => j < length a) indices ->
  length (Keras.gather a indices) = length indices.
Proof.
  induction 1 as [|j rest Hj _ IH]; simpl; [reflexivity|].
  destruct (nth_error a j) eqn:E.
  - simpl. now rewrite IH.
  - apply nth_error_None in E. lia.
Qed.

(** * The trace of [fit] *)

Lemma events_of_app (ph : Keras.phase) (e : nat) (t1 t2 : list Keras.event) :
  events_of ph e (t1 ++ t2) = events_of ph e t1 ++ events_of ph e t2.
Proof. apply filter_app. Qed.

Lemma events_of_batches (ph ph' : Keras.phase) (e e' : nat)
      (bs : list (list Keras.image * list Keras.target)) :
  events_of ph e (map (as_event ph' e') bs)
  = if phase_eqb ph' ph && (e' =? e) then map (as_event ph' e') bs else [].
Proof.
  unfold events_of.
  induction bs as [|b bs IH]; simpl.
  - now destruct (phase_eqb ph' ph && (e' =? e)).
  - rewrite IH. unfold event_phase, event_epoch, as_event at 1. simpl.
    now destruct (phase_eqb ph' ph && (e' =? e)).
Qed.

Lemma events_of_flat_map {I : Type} (ph : Keras.phase) (e : nat)
      (f : I -> list Keras.event) (l : list I) :
  events_of ph e (flat_map f l) = flat_map (fun i => events_of ph e (f i)) l.
Proof.
  induction l as [|i l IH]; simpl; [reflexivity|].
  now rewrite events_of_app, IH.
Qed.

Lemma flat_map_all_nil {I B : Type} (f : I -> list B) (l : list I) :
  (forall i, In i l -> f i = []) -> flat_map f l = [].
Proof.
  induction l as [|i l IH]; intros H; simpl; [reflexivity|].
  rewrite (H i) by now left. apply IH. intros k Hk. apply H. now right.
Qed.

Lemma flat_map_over_map {I J B : Type} (f : J -> list B) (h : I -> J) (l : list I) :
  flat_map f (map h l) = flat_map (fun i => f (h i)) l.
Proof.
  induction l as [|i l IH]; simpl; [reflexivity|]. now rewrite IH.
Qed.

Lemma flat_map_single {B : Type} (h : nat -> list B) (j a n : nat) :
  a <= j < a + n ->
  flat_map (fun k => if k =? j then h k else []) (seq a n) = h j.
Proof.
  revert a; induction n as [|n IH]; intros a Hj; [lia|].
  simpl. destruct (a =? j) eqn:E.
  - apply Nat.eqb_eq in E. subst a.
    rewrite flat_map_all_nil; [apply app_nil_r|].
    intros k Hk. apply in_seq in Hk.
    destruct (k =? j) eqn:E'; [apply Nat.eqb_eq in E'; lia | reflexivity].
  - apply Nat.eqb_neq in E. simpl. apply IH. lia.
Qed.

Section FitFacts.
Variable K : Keras.Backend.

Lemma run_steps_trace step ph e (m : Keras.model K) bs :
  snd (Keras.run_steps K step ph e m bs) = map (as_event ph e) bs.
Proof.
  revert m; induction bs as [|b bs IH]; intros m; simpl; [reflexivity|].
  destruct (step m b) as [m1 l]. specialize (IH m1).
  destruct (Keras.run_steps K step ph e m1 bs) as [[m2 ls] tr].
  simpl in *. now rewrite IH.
Qed.

Lemma evaluate_trace args e (m : Keras.model K) val vbs :
  snd (Keras.evaluate K args e m val vbs) = []
  \/ snd (Keras.evaluate K args e m val vbs)
     = map (as_event Keras.Validation e) (validation_batches val vbs).
Proof.
  unfold Keras.evaluate.
  destruct (negb (length (fst val) =? length (snd val))); [now left|].
  right.
  pose proof (run_steps_trace (Keras.test_step K args) Keras.Validation e m
                (combine (Keras.batches vbs (fst val)) (Keras.batches vbs (snd val))))
    as H.
  destruct (Keras.run_steps K (Keras.test_step K args) Keras.Validation e m
              (combine (Keras.batches vbs (fst val)) (Keras.batches vbs (snd val))))
    as [[m1 ls] tr].
  exact H.
Qed.

Lemma evaluate_ok args e (m : Keras.model K) val vbs :
  length (fst val) = length (snd val) ->
  exists m1 ls,
    Keras.evaluate K args e m val vbs
    = (OK (m1, ls), map (as_event Keras.Validation e) (validation_batches val vbs)).
Proof.
  intros Hlen. unfold Keras.evaluate.
  rewrite Hlen, Nat.eqb_refl. simpl negb. cbv iota.
  pose proof (run_steps_trace (Keras.test_step K args) Keras.Validation e m
                (combine (Keras.batches vbs (fst val)) (Keras.batches vbs (snd val))))
    as H.
  destruct (Keras.run_steps K (Keras.test_step K args) Keras.Validation e m
              (combine (Keras.batches vbs (fst val)) (Keras.batches vbs (snd val))))
    as [[m1 ls] tr].
  simpl in H. subst tr. now exists m1, ls.
Qed.

(** When every epoch has a training batch and the validation arrays have
    one length, the epochs all run. *)
Lemma fit_epochs_run {St : Type} args n e0 (m : Keras.model K) (g : St)
      (ds : Keras.iterator St) val vbs :
  (forall g', fst (ds g') <> []) ->
  length (fst val) = length (snd val) ->
  exists m' h g',
    Keras.fit_epochs K args n e0 m g ds val vbs
    = (OK (m', h, g'),
       flat_map (fun k => epoch_events K ds val vbs (e0 + k) (rng_after K ds k g))
                (seq 0 n)) /\
    map Keras.epoch h = seq e0 n.
Proof.
  intros Hne Hval.
  revert e0 m g; induction n as [|n IH]; intros e0 m g.
  - exists m, [], g. split; reflexivity.
  - cbn [Keras.fit_epochs].
    pose proof (Hne g) as Hg.
    destruct (ds g) as [bs g1] eqn:Eds. simpl in Hg.
    destruct bs as [|b0 bs]; [congruence|].
    pose proof (run_steps_trace (Keras.train_step K args) Keras.Training e0 m (b0 :: bs))
      as H1.
    destruct (Keras.run_steps K (Keras.train_step K args) Keras.Training e0 m (b0 :: bs))
      as [[m1 tl] tr1].
    simpl in H1. subst tr1.
    destruct (evaluate_ok args e0 m1 val vbs Hval) as (m2 & vl & Hev).
    rewrite Hev.
    destruct (IH (S e0) m2 g1) as (m3 & h & g2 & Hrec & Hh).
    rewrite Hrec.
    exists m3, ({| Keras.epoch := e0;
                   Keras.train_logs := Keras.reduce_logs K tl;
                   Keras.val_logs := Keras.reduce_logs K vl |} :: h), g2.
    split.
    + f_equal. cbn [seq flat_map].
      rewrite <- seq_shift, flat_map_over_map.
      change (rng_after K ds 0 g) with g.
      assert (Hhead : epoch_events K ds val vbs (e0 + 0) g
                      = map (as_event Keras.Training e0) (b0 :: bs)
                        ++ map (as_event Keras.Validation e0)
                               (validation_batches val vbs)).
      { unfold epoch_events. now rewrite Eds, Nat.add_0_r. }
      rewrite Hhead, <- app_assoc. do 2 f_equal.
      apply flat_map_ext. intros k.
      replace (e0 + S k) with (S e0 + k) by lia.
      simpl rng_after. now rewrite Eds.
    + simpl. now rewrite Hh.
Qed.

(** Whatever happens, a training step is fed a batch the data set drew. *)
Lemma fit_epochs_training_source {St : Type} args n e0 (m : Keras.model K) (g : St)
      (ds : Keras.iterator St) val vbs ev :
  In ev (snd (Keras.fit_epochs K args n e0 m g ds val vbs)) ->
  event_phase ev = Keras.Training ->
  exists g', In (event_images ev, event_targets ev) (fst (ds g')).
Proof.
  revert e0 m g; induction n as [|n IH]; intros e0 m g Hin Hph; [contradiction|].
  cbn [Keras.fit_epochs] in Hin.
  destruct (ds g) as [bs g1] eqn:Eds.
  destruct bs as [|b0 bs]; [contradiction|].
  pose proof (run_steps_trace (Keras.train_step K args) Keras.Training e0 m (b0 :: bs))
    as H1.
  destruct (Keras.run_steps K (Keras.train_step K args) Keras.Training e0 m (b0 :: bs))
    as [[m1 tl] tr1].
  simpl snd in H1.
  assert (Htrain : forall ev', In ev' tr1 ->
                               exists g', In (event_images ev', event_targets ev')
                                             (fst (ds g'))).
  { intros ev' Hev'. rewrite H1 in Hev'.
    apply in_map_iff in Hev'. destruct Hev' as (b & <- & Hb).
    exists g. rewrite Eds. simpl fst.
    unfold event_images, event_targets, as_event. simpl.
    now destruct b. }
  assert (Hval : forall ev', In ev' (snd (Keras.evaluate K args e0 m1 val vbs)) ->
                             event_phase ev' = Keras.Validation).
  { intros ev' Hev'.
    destruct (evaluate_trace args e0 m1 val vbs) as [E|E]; rewrite E in Hev';
      [contradiction|].
    apply in_map_iff in Hev'. now destruct Hev' as (b & <- & _). }
  destruct (Keras.evaluate K args e0 m1 val vbs) as [[[m2 vl]|err] tr2].
  - specialize (IH (S e0) m2 g1).
    destruct (Keras.fit_epochs K args n (S e0) m2 g1 ds val vbs) as [r tr3].
    simpl snd in Hin, IH, Hval.
    apply in_app_or in Hin. destruct Hin as [Hin|Hin]; [now apply Htrain|].
    apply in_app_or in Hin. destruct Hin as [Hin|Hin].
    + apply Hval in Hin. congruence.
    + now apply IH.
  - simpl snd in Hin, Hval.
    apply in_app_or in Hin. destruct Hin as [Hin|Hin]; [now apply Htrain|].
    apply Hval in Hin. congruence.
Qed.

Lemma fit_run args n (m : Keras.model K) g (ds : Keras.dataset K) val vbs :
  (forall g', fst (ds g') <> []) ->
  length (fst val) = length (snd val) ->
  exists m' h g',
    Keras.fit K args m g (OK ds) n val vbs
    = (OK (m', h, g'),
       flat_map (fun k => epoch_events K ds val vbs k (rng_after K ds k g))
                (seq 0 n)) /\
    map Keras.epoch h = seq 0 n.
Proof.
  intros Hne Hval. unfold Keras.fit.
  exact (fit_epochs_run args n 0 m g ds val vbs Hne Hval).
Qed.

(** The events of a phase in epoch [e] of a run that completes. *)
Lemma events_of_epochs {St : Type} ph (ds : Keras.iterator St) val vbs (g : St) n e :
  e < n ->
  events_of ph e
            (flat_map (fun k => epoch_events K ds val vbs k (rng_after K ds k g))
                      (seq 0 n))
  = events_of ph e (epoch_events K ds val vbs e (rng_after K ds e g)).
Proof.
  intros He. rewrite events_of_flat_map.
  rewrite (flat_map_ext _
             (fun k => if k =? e
                       then events_of ph e
                              (epoch_events K ds val vbs k (rng_after K ds k g))
                       else [])).
  - rewrite flat_map_single by lia. reflexivity.
  - intros k. unfold epoch_events.
    rewrite events_of_app, !events_of_batches.
    destruct (k =? e); [reflexivity|].
    now rewrite !andb_false_r.
Qed.

Lemma training_events_of_epochs {St : Type} (ds : Keras.iterator St) val vbs (g : St) n e :
  e < n ->
  events_of Keras.Training e
            (flat_map (fun k => epoch_events K ds val vbs k (rng_after K ds k g))
                      (seq 0 n))
  = map (as_event Keras.Training e) (fst (ds (rng_after K ds e g))).
Proof.
  intros He. rewrite events_of_epochs by exact He. unfold epoch_events.
  rewrite events_of_app, !events_of_batches. simpl.
  rewrite Nat.eqb_refl. apply app_nil_r.
Qed.

Lemma validation_events_of_epochs {St : Type} (ds : Keras.iterator St) val vbs (g : St) n e :
  e < n ->
  events_of Keras.Validation e
            (flat_map (fun k => epoch_events K ds val vbs k (rng_after K ds k g))
                      (seq 0 n))
  = map (as_event Keras.Validation e) (validation_batches val vbs).
Proof.
  intros He. rewrite events_of_epochs by exact He. unfold epoch_events.
  rewrite events_of_app, !events_of_batches. simpl.
  now rewrite Nat.eqb_refl.
Qed.

End FitFacts.

(** * The augmented batches *)

Lemma chunks_as_slices {A : Type} (n k : nat) (l : list A) :
  Numpy.chunks n k l = map (fun i => firstn k (skipn (k * i) l)) (seq 0 n).
Proof.
  revert l; induction n as [|n IH]; intros l; [reflexivity|].
  cbn [Numpy.chunks seq map]. rewrite Nat.mul_0_r. cbn [skipn]. f_equal.
  rewrite IH, <- seq_shift, map_map.
  apply map_ext. intros i. now rewrite skipn_skipn, Nat.mul_succ_r.
Qed.

Lemma batches_as_slices {A : Type} (k : nat) (l : list A) :
  Keras.batches k l
  = map (fun i => firstn k (skipn (k * i) l)) (seq 0 ((length l + k - 1) / k)).
Proof. apply chunks_as_slices. Qed.

Lemma Permutation_concat {A : Type} (l l' : list (list A)) :
  Permutation l l' -> Permutation (concat l) (concat l').
Proof.
  induction 1 as [|x l l' _ IH|x y l|l l' l'' _ IH1 _ IH2]; simpl.
  - constructor.
  - now apply Permutation_app_head.
  - rewrite !app_assoc. apply Permutation_app_tail, Permutation_app_comm.
  - now transitivity (concat l').
Qed.

Lemma batches_incl {X : Type} (k : nat) (l b : list X) :
  0 < k -> In b (Keras.batches k l) -> incl b l.
Proof.
  intros Hk Hb x Hx.
  rewrite <- (concat_batches _ k l Hk). apply in_concat. now exists b.
Qed.

Lemma slice_below {A : Type} (P : A -> Prop) (k i : nat) (l : list A) :
  Forall P l -> Forall P (firstn k (skipn i l)).
Proof.
  intros H.
  rewrite <- (firstn_skipn i l), Forall_app in H. destruct H as [_ H].
  rewrite <- (firstn_skipn k (skipn i l)), Forall_app in H. tauto.
Qed.

Section FlowFacts.
Variable K : Keras.Backend.
Variable dg : Keras.ImageDataGenerator.
Variable X : list Keras.image.
Variable y : list Keras.target.


Lemma array_dataset_each (g : Keras.rng K) :
  Forall2 (fun ib b =>
             snd b = Keras.gather y ib /\
             (Forall (fun j => j < length X) ib -> length (fst b) = length ib))
          (fst (Keras.index_batches K (length X) 64 g))
          (fst (Keras.array_epoch K X y 64 g)).
Proof.
  unfold Keras.array_epoch.
  destruct (Keras.index_batches K (length X) 64 g) as [ibs g1]. simpl.
  induction ibs as [|ib ibs IH]; simpl; constructor; [|exact IH].
  simpl. split; [reflexivity|]. apply gather_length.
Qed.
End FlowFacts.



Lemma index_batches_nonempty (K : Keras.Backend) (N : nat) (g : Keras.rng K) :
  permutes K -> N <> 0 -> fst (Keras.index_batches K N 64 g) <> [].
Proof.
  intros Hperm HN. unfold Keras.index_batches.
  specialize (Hperm g N).
  destruct (Keras.rng_permutation K g N) as [perm g']. simpl fst in *.
  intros Hnil. apply (f_equal (@length _)) in Hnil.
  rewrite length_batches, (Permutation_length Hperm), length_seq in Hnil.
  change (length (@nil (list nat))) with 0 in Hnil.
  assert (1 <= (N + 64 - 1) / 64) by (apply Nat.div_le_lower_bound; lia).
  lia.
Qed.

Lemma array_epoch_nonempty (K : Keras.Backend) (X : list Keras.image)
      (y : list Keras.target) (g : Keras.rng K) :
  permutes K -> X <> [] -> fst (Keras.array_epoch K X y 64 g) <> [].
Proof.
  intros Hperm HX Hnil.
  pose proof (array_dataset_each K X y g) as H. rewrite Hnil in H.
  inversion H as [Hib|]. symmetry in Hib.
  apply (index_batches_nonempty K (length X) g Hperm); [|exact Hib].
  destruct X; [congruence | discriminate].
Qed.

Lemma array_dataset_ok (K : Keras.Backend) (X : list Keras.image)
      (y : list Keras.target) :
  length y = length X ->
  Keras.array_dataset K X y 64 = OK (Keras.array_epoch K X y 64).
Proof.
  intros H. unfold Keras.array_dataset. now rewrite H, Nat.eqb_refl.
Qed.

Lemma flow_ok (X : list Keras.image) (y : list Keras.target) :
  length y = length X ->
  Keras.flow Notebook2.datagen X y 64 = OK (train_iterator X y).
Proof.
  intros H. unfold Keras.flow. now rewrite H, Nat.eqb_refl.
Qed.

Lemma Forall2_right_in {A B : Type} (R : A -> B -> Prop) (l1 : list A)
      (l2 : list B) (b : B) :
  Forall2 R l1 l2 -> In b l2 -> exists a, In a l1 /\ R a b.
Proof.
  induction 1 as [|a b' l1 l2 Hab _ IH]; intros Hb; [contradiction|].
  destruct Hb as [->|Hb].
  - exists a. split; [now left | exact Hab].
  - destruct (IH Hb) as (a' & Ha' & HR). exists a'. split; [now right | exact HR].
Qed.

Lemma rng_after_succ (K : Keras.Backend) {St : Type} (ds : Keras.iterator St)
      (k : nat) (g : St) :
  rng_after K ds (S k) g = snd (ds (rng_after K ds k g)).
Proof.
  revert g; induction k as [|k IH]; intros g; [reflexivity|].
  change (rng_after K ds (S (S k)) g) with (rng_after K ds (S k) (snd (ds g))).
  now rewrite IH.
Qed.

(** ** The iterator *)

Section IteratorFacts.
Variable K : Keras.Backend.
Variable it : Keras.NumpyArrayIterator.

Lemma getitem_set (idx : nat) (ia : list nat) (g : Keras.rng K) :
  Keras.getitem K it idx (Some ia, g)
  = ((fst (Keras.transformed_samples K (Keras.image_data_generator it)
             (Keras.iterator_x it) (firstn (Keras.iterator_batch_size it)
                     (skipn (Keras.iterator_batch_size it * idx) ia)) g),
      Keras.gather (Keras.iterator_y it) (firstn (Keras.iterator_batch_size it)
                     (skipn (Keras.iterator_batch_size it * idx) ia))),
     (Some ia,
      snd (Keras.transformed_samples K (Keras.image_data_generator it)
             (Keras.iterator_x it) (firstn (Keras.iterator_batch_size it)
                     (skipn (Keras.iterator_batch_size it * idx) ia)) g))).
Proof.
  unfold Keras.getitem. cbn [fst snd].
  now destruct (Keras.transformed_samples K (Keras.image_data_generator it)
                  (Keras.iterator_x it) (firstn (Keras.iterator_batch_size it)
                     (skipn (Keras.iterator_batch_size it * idx) ia)) g).
Qed.

Lemma getitem_unset (idx : nat) (g : Keras.rng K) :
  Keras.getitem K it idx (None, g)
  = Keras.getitem K it idx
      (Some (fst (Keras.rng_permutation K g (length (Keras.iterator_x it)))),
       snd (Keras.rng_permutation K g (length (Keras.iterator_x it)))).
Proof.
  unfold Keras.getitem. cbn [fst snd].
  now destruct (Keras.rng_permutation K g (length (Keras.iterator_x it))).
Qed.

Lemma getitems_length (order : list nat) (st : Keras.iterator_state K) :
  Forall (fun idx => idx < Keras.iterator_len it) order ->
  length (fst (Keras.getitems K it order st)) = length order.
Proof.
  intros H; revert st; induction H as [|idx rest Hidx _ IH]; intros st;
    [reflexivity|].
  cbn [Keras.getitems]. apply Nat.ltb_lt in Hidx. rewrite Hidx.
  destruct (Keras.getitem K it idx st) as [b st1].
  specialize (IH st1).
  destruct (Keras.getitems K it rest st1) as [bs st2].
  simpl in *. now rewrite IH.
Qed.


Lemma slices_of_order (ia order : list nat) :
  0 < Keras.iterator_batch_size it ->
  length ia = length (Keras.iterator_x it) ->
  Permutation order (seq 0 (Keras.iterator_len it)) ->
  Permutation (concat (map (fun idx => firstn (Keras.iterator_batch_size it)
                        (skipn (Keras.iterator_batch_size it * idx) ia)) order)) ia.
Proof.
  intros Hk Hlen Hperm.
  transitivity (concat (Keras.batches (Keras.iterator_batch_size it) ia));
    [|now rewrite concat_batches by exact Hk].
  apply Permutation_concat.
  rewrite batches_as_slices, Hlen.
  apply (Permutation_map (fun idx => firstn (Keras.iterator_batch_size it)
                        (skipn (Keras.iterator_batch_size it * idx) ia))). exact Hperm.
Qed.

Lemma sequence_epoch_set (ia : list nat) (g : Keras.rng K) :
  let order := fst (Keras.rng_permutation K g (Keras.iterator_len it)) in
  let r := Keras.getitems K it order
             (Some ia, snd (Keras.rng_permutation K g (Keras.iterator_len it))) in
  Keras.sequence_epoch K it (Some ia, g)
  = (fst r,
     (Some (fst (Keras.rng_permutation K (snd (snd r))
                   (length (Keras.iterator_x it)))),
      snd (Keras.rng_permutation K (snd (snd r)) (length (Keras.iterator_x it))))).
Proof.
  cbv zeta. unfold Keras.sequence_epoch. cbn [fst snd].
  destruct (Keras.rng_permutation K g (Keras.iterator_len it)) as [order g1].
  cbn [fst snd].
  destruct (Keras.getitems K it order (Some ia, g1)) as [bs st1].
  cbn [fst snd].
  now destruct (Keras.rng_permutation K (snd st1) (length (Keras.iterator_x it))).
Qed.

Hypothesis Hperm : permutes K.

Lemma order_below (g : Keras.rng K) :
  Forall (fun idx => idx < Keras.iterator_len it)
         (fst (Keras.rng_permutation K g (Keras.iterator_len it))).
Proof.
  apply Forall_forall. intros idx Hidx.
  apply (Permutation_in _ (Hperm g _)) in Hidx. apply in_seq in Hidx. lia.
Qed.

Lemma sequence_epoch_length (st : Keras.iterator_state K) :
  length (fst (Keras.sequence_epoch K it st)) = Keras.iterator_len it.
Proof.
  unfold Keras.sequence_epoch.
  pose proof (order_below (snd st)) as Hb.
  pose proof (Permutation_length (Hperm (snd st) (Keras.iterator_len it))) as Hl.
  destruct (Keras.rng_permutation K (snd st) (Keras.iterator_len it)) as [order g1].
  cbn [fst] in Hb, Hl.
  pose proof (getitems_length order (fst st, g1) Hb) as H.
  destruct (Keras.getitems K it order (fst st, g1)) as [bs st1].
  destruct (Keras.rng_permutation K (snd st1) (length (Keras.iterator_x it))).
  cbn [fst] in *. now rewrite H, Hl, length_seq.
Qed.

Lemma sequence_epoch_index_array (st : Keras.iterator_state K) :
  index_array_set K it (snd (Keras.sequence_epoch K it st)).
Proof.
  unfold Keras.sequence_epoch.
  destruct (Keras.rng_permutation K (snd st) (Keras.iterator_len it)) as [order g1].
  destruct (Keras.getitems K it order (fst st, g1)) as [bs st1].
  pose proof (Hperm (snd st1) (length (Keras.iterator_x it))) as H.
  destruct (Keras.rng_permutation K (snd st1) (length (Keras.iterator_x it)))
    as [ia g2].
  exists ia. split; [reflexivity | exact H].
Qed.

Lemma peeked_index_array (g : Keras.rng K) : index_array_set K it (peeked K it g).
Proof.
  unfold peeked. rewrite getitem_unset, getitem_set. cbn [snd].
  eexists. split; [reflexivity | apply Hperm].
Qed.

Lemma rng_after_index_array (k : nat) (st : Keras.iterator_state K) :
  index_array_set K it st ->
  index_array_set K it (rng_after K (Keras.sequence_epoch K it) k st).
Proof.
  revert st; induction k as [|k IH]; intros st Hst; [exact Hst|].
  cbn [rng_after]. apply IH, sequence_epoch_index_array.
Qed.

End IteratorFacts.

Lemma train_iterator_len (X : list Keras.image) (y : list Keras.target) :
  Keras.iterator_len (train_iterator X y) = (length X + 63) / 64.
Proof.
  unfold Keras.iterator_len.
  cbn [train_iterator Keras.iterator_x Keras.iterator_batch_size].
  f_equal. lia.
Qed.

Lemma train_iterator_len_pos (X : list Keras.image) (y : list Keras.target) :
  X <> [] -> Keras.iterator_len (train_iterator X y) <> 0.
Proof.
  intros HX. rewrite train_iterator_len.
  assert (1 <= (length X + 63) / 64).
  { apply Nat.div_le_lower_bound; [lia|]. destruct X; [congruence | simpl; lia]. }
  lia.
Qed.

Lemma sequence_epoch_nonempty (K : Keras.Backend) (X : list Keras.image)
      (y : list Keras.target) (st : Keras.iterator_state K) :
  permutes K -> X <> [] ->
  fst (Keras.sequence_epoch K (train_iterator X y) st) <> [].
Proof.
  intros Hperm HX Hnil. apply (f_equal (@length _)) in Hnil.
  rewrite sequence_epoch_length in Hnil by exact Hperm.
  now apply (train_iterator_len_pos X y HX).
Qed.

(** [fit] on the iterator of notebook 2: the batch it peeks at, then the
    epochs. *)
Lemma fit_sequence_run (K : Keras.Backend) args n (m : Keras.model K) g
      (X : list Keras.image) (y : list Keras.target) val vbs :
  permutes K -> X <> [] ->
  length (fst val) = length (snd val) ->
  exists m' h st',
    Keras.fit_epochs K args n 0 m (peeked K (train_iterator X y) g)
                     (Keras.sequence_epoch K (train_iterator X y)) val vbs
    = (OK (m', h, st'),
       flat_map (fun k => epoch_events K (Keras.sequence_epoch K (train_iterator X y))
                            val vbs k
                            (rng_after K (Keras.sequence_epoch K (train_iterator X y))
                                       k (peeked K (train_iterator X y) g)))
                (seq 0 n)) /\
    Keras.fit_sequence K args m g (OK (train_iterator X y)) n val vbs
    = (OK (m', h, snd st'),
       flat_map (fun k => epoch_events K (Keras.sequence_epoch K (train_iterator X y))
                            val vbs k
                            (rng_after K (Keras.sequence_epoch K (train_iterator X y))
                                       k (peeked K (train_iterator X y) g)))
                (seq 0 n)) /\
    map Keras.epoch h = seq 0 n.
Proof.
  intros Hperm HX Hval.
  destruct (fit_epochs_run K args n 0 m (peeked K (train_iterator X y) g)
              (Keras.sequence_epoch K (train_iterator X y)) val vbs)
    as (m' & h & st' & Hrun & Hh).
  { intros st. now apply sequence_epoch_nonempty. }
  { exact Hval. }
  exists m', h, st'. split; [exact Hrun|]. split; [|exact Hh].
  unfold Keras.fit_sequence, Keras.sequence_peek.
  destruct (Keras.iterator_len (train_iterator X y) =? 0) eqn:E.
  - apply Nat.eqb_eq in E. now apply train_iterator_len_pos in E.
  - fold (peeked K (train_iterator X y) g). now rewrite Hrun.
Qed.


(** ** The draws *)



Lemma toy_permutes : permutes ToyBackend.K.
Proof. intros g n. apply toy_permutation_perm. Qed.

Lemma get_random_transform_datagen (K : Keras.Backend) (shape : nat * nat)
      (g : Keras.rng K) :
  Keras.get_random_transform K Notebook2.datagen shape g = drawn_parameters K shape g.
Proof.
  unfold Keras.get_random_transform, drawn_parameters.
  change (Keras.rotation_range Notebook2.datagen) with (Float64.of_Z 10).
  change (Keras.height_shift_range Notebook2.datagen) with Notebook2.tenth.
  change (Keras.width_shift_range Notebook2.datagen) with Notebook2.tenth.
  change (Keras.shear_range Notebook2.datagen) with Notebook2.tenth.
  change (Keras.zoom_range Notebook2.datagen)
    with (Float64.sub (Float64.of_Z 1) Notebook2.tenth,
          Float64.add (Float64.of_Z 1) Notebook2.tenth).
  change (Keras.horizontal_flip Notebook2.datagen) with false.
  change (Keras.vertical_flip Notebook2.datagen) with false.
  cbn [fst snd].
  assert (H1 : Float64.is_zero (Float64.of_Z 10) = false) by (vm_compute; reflexivity).
  assert (H2 : Float64.is_zero Notebook2.tenth = false) by (vm_compute; reflexivity).
  assert (H3 : Float64.ltb Notebook2.tenth (Float64.of_Z 1) = true)
    by (vm_compute; reflexivity).
  assert (H4 : Float64.eqb (Float64.sub (Float64.of_Z 1) Notebook2.tenth)
                           (Float64.of_Z 1) = false) by (vm_compute; reflexivity).
  rewrite H1, H2, H3, H4. cbn [andb].
  destruct (Keras.rng_uniform K g _ _) as [th g1].
  destruct (Keras.rng_uniform K g1 _ _) as [u2 g2].
  destruct (Keras.rng_uniform K g2 _ _) as [u3 g3].
  destruct (Keras.rng_uniform K g3 _ _) as [sh g4].
  destruct (Keras.rng_uniform K g4 _ _) as [a g5].
  destruct (Keras.rng_uniform K g5 _ _) as [b g6].
  destruct (Keras.rng_random K g6) as [r1 g7]. cbn [fst snd].
  destruct (Keras.rng_random K g7) as [r2 g8]. cbn [fst snd].
  now rewrite !andb_false_r.
Qed.


Lemma drawn_in_turn_app (K : Keras.Backend) (X : list Keras.image)
      (y : list Keras.target) (p1 p2 : list nat) (g g1 g2 : Keras.rng K)
      (s1 s2 : list (Keras.image * Keras.target)) :
  drawn_in_turn K X y p1 g s1 g1 ->
  drawn_in_turn K X y p2 g1 s2 g2 ->
  drawn_in_turn K X y (p1 ++ p2) g (s1 ++ s2) g2.
Proof.
  intros H1 H2. induction H1 as [g|j positions g g' x t samples Hx Hy _ IH].
  - exact H2.
  - simpl. apply drawn_next; [exact Hx | exact Hy | exact (IH H2)].
Qed.

Lemma fed_examples_of_events (ph : Keras.phase) (e : nat)
      (bs : list (list Keras.image * list Keras.target)) :
  fed_examples (map (as_event ph e) bs)
  = flat_map (fun b => combine (fst b) (snd b)) bs.
Proof.
  unfold fed_examples. rewrite flat_map_over_map. reflexivity.
Qed.

Section DrawFacts.
Variable K : Keras.Backend.
Variable X : list Keras.image.
Variable y : list Keras.target.
Hypothesis Hy : length y = length X.

Lemma transformed_samples_drawn (ib : list nat) (g : Keras.rng K) :
  Forall (fun j => j < length X) ib ->
  drawn_in_turn K X y ib g
    (combine (fst (Keras.transformed_samples K Notebook2.datagen X ib g))
             (Keras.gather y ib))
    (snd (Keras.transformed_samples K Notebook2.datagen X ib g)).
Proof.
  intros H; revert g; induction H as [|j rest Hj _ IH]; intros g.
  - constructor.
  - cbn [Keras.transformed_samples Keras.gather flat_map].
    destruct (nth_error X j) as [xj|] eqn:Ex;
      [|apply nth_error_None in Ex; lia].
    destruct (nth_error y j) as [t|] eqn:Et;
      [|apply nth_error_None in Et; lia].
    rewrite get_random_transform_datagen.
    specialize (IH (snd (drawn_parameters K (Keras.image_shape xj) g))).
    destruct (drawn_parameters K (Keras.image_shape xj) g) as [params g1] eqn:Hp.
    cbn [snd] in IH.
    destruct (Keras.transformed_samples K Notebook2.datagen X rest g1) as [xs g2].
    cbn [fst snd app combine] in *.
    replace params with (fst (drawn_parameters K (Keras.image_shape xj) g))
      by now rewrite Hp.
    apply drawn_next; [exact Ex | exact Et |]. now rewrite Hp.
Qed.

Lemma getitems_drawn (order ia : list nat) (g : Keras.rng K) :
  Forall (fun idx => idx < Keras.iterator_len (train_iterator X y)) order ->
  Forall (fun j => j < length X) ia ->
  drawn_in_turn K X y
    (concat (map (fun idx => firstn 64 (skipn (64 * idx) ia)) order)) g
    (flat_map (fun b => combine (fst b) (snd b))
              (fst (Keras.getitems K (train_iterator X y) order (Some ia, g))))
    (snd (snd (Keras.getitems K (train_iterator X y) order (Some ia, g)))).
Proof.
  intros H Hia; revert g; induction H as [|idx rest Hidx _ IH]; intros g.
  - constructor.
  - cbn [Keras.getitems]. apply Nat.ltb_lt in Hidx. rewrite Hidx.
    rewrite getitem_set.
    cbn [train_iterator Keras.iterator_x Keras.iterator_y Keras.iterator_batch_size
         Keras.image_data_generator].
    pose proof (transformed_samples_drawn (firstn 64 (skipn (64 * idx) ia)) g
                  (slice_below _ 64 (64 * idx) ia Hia)) as Hd.
    specialize (IH (snd (Keras.transformed_samples K Notebook2.datagen X
                           (firstn 64 (skipn (64 * idx) ia)) g))).
    destruct (Keras.getitems K (train_iterator X y) rest _) as [bs st2].
    cbn [fst snd map concat flat_map] in *.
    eapply drawn_in_turn_app; [exact Hd | exact IH].
Qed.

Hypothesis Hperm : permutes K.

(** One epoch of the iterator of notebook 2, from a state whose index
    array is [ia]: the order of the batches is drawn first, then the
    parameters of every sample in turn, then the next index array. *)
Lemma sequence_epoch_drawn (ia : list nat) (g : Keras.rng K) :
  Permutation ia (seq 0 (length X)) ->
  let B := (length X + 63) / 64 in
  let order := fst (Keras.rng_permutation K g B) in
  let positions := concat (map (fun idx => firstn 64 (skipn (64 * idx) ia)) order) in
  let r := Keras.getitems K (train_iterator X y) order
             (Some ia, snd (Keras.rng_permutation K g B)) in
  Permutation positions (seq 0 (length X)) /\
  drawn_in_turn K X y positions (snd (Keras.rng_permutation K g B))
    (flat_map (fun b => combine (fst b) (snd b))
              (fst (Keras.sequence_epoch K (train_iterator X y) (Some ia, g))))
    (snd (snd r)) /\
  snd (Keras.sequence_epoch K (train_iterator X y) (Some ia, g))
  = (Some (fst (Keras.rng_permutation K (snd (snd r)) (length X))),
     snd (Keras.rng_permutation K (snd (snd r)) (length X))).
Proof.
  intros Hp. cbv zeta. rewrite <- (train_iterator_len X y).
  rewrite sequence_epoch_set. cbn [fst snd].
  assert (Hbelow : Forall (fun j => j < length X) ia).
  { apply Forall_forall. intros j Hj.
    apply (Permutation_in _ Hp) in Hj. apply in_seq in Hj. lia. }
  split; [|split].
  - rewrite (slices_of_order (train_iterator X y) ia); [exact Hp | cbn; lia | | apply Hperm].
    cbn. now rewrite (Permutation_length Hp), length_seq.
  - apply getitems_drawn; [now apply order_below | exact Hbelow].
  - reflexivity.
Qed.
End DrawFacts.

(** The draws of [fit] on the iterator of notebook 2, epoch by epoch:
    epoch [e] feeds the examples at [positions e], its draws going from
    [first e] to [last e]; the batch [fit] peeks at before the first epoch
    is drawn for too; and between two epochs the iterator draws its next
    index array and [fit] the next order of the batches. *)
Lemma sequence_epochs_drawn (K : Keras.Backend) (X : list Keras.image)
      (y : list Keras.target) (g : Keras.rng K) :
  permutes K -> length y = length X ->
  let N := length X in
  let B := (N + 63) / 64 in
  exists (positions : nat -> list nat) (first last : nat -> Keras.rng K),
    (exists peek g0,
       drawn_in_turn K X y (firstn 64 (fst (Keras.rng_permutation K g N)))
                     (snd (Keras.rng_permutation K g N)) peek g0 /\
       first 0 = snd (Keras.rng_permutation K g0 B)) /\
    (forall e,
       Permutation (positions e) (seq 0 N) /\
       drawn_in_turn K X y (positions e) (first e)
         (flat_map (fun b => combine (fst b) (snd b))
            (fst (Keras.sequence_epoch K (train_iterator X y)
                    (rng_after K (Keras.sequence_epoch K (train_iterator X y)) e
                               (peeked K (train_iterator X y) g)))))
         (last e)) /\
    (forall e,
       first (S e)
       = snd (Keras.rng_permutation K
                (snd (Keras.rng_permutation K (last e) N)) B)).
Proof.
  intros Hperm Hy. cbv zeta.
  pose (state := fun e => rng_after K (Keras.sequence_epoch K (train_iterator X y)) e
                                    (peeked K (train_iterator X y) g)).
  pose (ia_of := fun e => match fst (state e) with Some ia => ia | None => [] end).
  pose (first := fun e => snd (Keras.rng_permutation K (snd (state e))
                                 ((length X + 63) / 64))).
  pose (order := fun e => fst (Keras.rng_permutation K (snd (state e))
                                 ((length X + 63) / 64))).
  assert (Hstate : forall e, state e = (Some (ia_of e), snd (state e)) /\
                             Permutation (ia_of e) (seq 0 (length X))).
  { intros e.
    destruct (rng_after_index_array K (train_iterator X y) Hperm e
                (peeked K (train_iterator X y) g)
                (peeked_index_array K (train_iterator X y) Hperm g))
      as (ia & Hia & Hp).
    fold (state e) in Hia. unfold ia_of. rewrite Hia.
    split; [|exact Hp]. destruct (state e) as [o ge]. cbn [fst snd] in *.
    now subst o. }
  exists (fun e => concat (map (fun idx => firstn 64 (skipn (64 * idx) (ia_of e)))
                               (order e))),
         first,
         (fun e => snd (snd (Keras.getitems K (train_iterator X y) (order e)
                               (Some (ia_of e), first e)))).
  split; [|split].
  - assert (Hpeek : peeked K (train_iterator X y) g
                    = (Some (fst (Keras.rng_permutation K g (length X))),
                       snd (Keras.transformed_samples K Notebook2.datagen X
                              (firstn 64 (fst (Keras.rng_permutation K g (length X))))
                              (snd (Keras.rng_permutation K g (length X)))))).
    { unfold peeked. rewrite getitem_unset, getitem_set.
      cbn [train_iterator Keras.iterator_x Keras.iterator_y
           Keras.iterator_batch_size Keras.image_data_generator snd].
      rewrite Nat.mul_0_r. reflexivity. }
    eexists. eexists. split.
    + apply (transformed_samples_drawn K X y Hy).
      apply slice_below with (i := 0). apply Forall_forall. intros j Hj.
      apply (Permutation_in _ (Hperm g (length X))) in Hj.
      apply in_seq in Hj. lia.
    + unfold first, state. cbn [rng_after]. now rewrite Hpeek.
  - intros e. destruct (Hstate e) as [He Hp]. fold (state e). rewrite He.
    destruct (sequence_epoch_drawn K X y Hy Hperm (ia_of e) (snd (state e)) Hp)
      as (H1 & H2 & _).
    split; [exact H1 | exact H2].
  - intros e. destruct (Hstate e) as [He Hp].
    destruct (sequence_epoch_drawn K X y Hy Hperm (ia_of e) (snd (state e)) Hp)
      as (_ & _ & H3).
    unfold first at 1. unfold state at 1. rewrite rng_after_succ.
    fold (state e). rewrite He, H3. reflexivity.
Qed.


Lemma class_indices_repeat (c : Z) (n : nat) :
  (0 <= c <= 9)%Z -> Forall is_class_index (repeat (Keras.Sparse c) n).
Proof.
  intros Hc. apply Forall_forall. intros t Ht. apply repeat_spec in Ht.
  subst t. now exists c.
Qed.



Lemma flat_map_images_of_batches (ph : Keras.phase) (e : nat)
      (bs : list (list Keras.image * list Keras.target)) :
  flat_map event_images (map (as_event ph e) bs) = concat (map fst bs).
Proof.
  induction bs as [|b bs IH]; simpl; [reflexivity|]. now rewrite IH.
Qed.

Lemma flat_map_targets_of_batches (ph : Keras.phase) (e : nat)
      (bs : list (list Keras.image * list Keras.target)) :
  flat_map event_targets (map (as_event ph e) bs) = concat (map snd bs).
Proof.
  induction bs as [|b bs IH]; simpl; [reflexivity|]. now rewrite IH.
Qed.

(** C9.  In notebook 2, for training arrays of one length that are not
    empty, validation arrays of one length and a generator that shuffles
    by a permutation, [fit] completes; whatever the backend's
    transformation does, the validation steps of each of the ten epochs
    are fed [val_images] and [val_labels] as they were passed to [fit], in
    order; and the steps of [predict] are all inference steps, fed
    [test_images] as passed. *)
Theorem validation_and_test_inputs_untouched
        (K : Keras.Backend) (m m' : Keras.model K) (g : Keras.rng K)
        (train_images : list Keras.image) (train_labels : list Keras.target)
        (val_images : list Keras.image) (val_labels : list Keras.target)
        (test_images : list Keras.image) :
  permutes K ->
  train_images <> [] ->
  length train_labels = length train_images ->
  length val_images = length val_labels ->
  let run := Notebook2.fit_cell K m g train_images train_labels
                                val_images val_labels in
  let inference := snd (Notebook2.predictions K m' test_images) in
  Py.is_ok (fst run) = true /\
  (forall e, e < 10 ->
     flat_map event_images (events_of Keras.Validation e (snd run)) = val_images /\
     flat_map event_targets (events_of Keras.Validation e (snd run)) = val_labels) /\
  Forall (fun ev => event_phase ev = Keras.Inference) inference /\
  flat_map event_images inference = test_images.
Proof.
  intros Hperm Hne Htrain Hval. cbv zeta.
  unfold Notebook2.fit_cell. rewrite flow_ok by exact Htrain.
  destruct (fit_sequence_run K Notebook2.compile 10 m g train_images train_labels
              (val_images, val_labels) 32 Hperm Hne Hval)
    as (m1 & h & st1 & _ & Hrun & _).
  rewrite Hrun. cbn [fst snd].
  split; [reflexivity|]. split; [|split].
  - intros e He.
    rewrite validation_events_of_epochs by exact He.
    rewrite flat_map_images_of_batches, flat_map_targets_of_batches.
    unfold validation_batches. simpl fst; simpl snd.
    assert (Hn : length (Keras.batches 32 val_images)
                 = length (Keras.batches 32 val_labels))
      by now rewrite !length_batches, Hval.
    rewrite map_fst_combine_same, map_snd_combine_same by exact Hn.
    split; apply concat_batches; lia.
  - unfold Notebook2.predictions. rewrite predict_trace, Forall_map.
    apply Forall_forall. reflexivity.
  - unfold Notebook2.predictions. rewrite predict_trace.
    rewrite flat_map_concat_map, map_map. simpl.
    rewrite map_id. apply concat_batches. lia.
Qed.

Lemma validation_and_test_inputs_untouched_witness :
  let val_images := repeat ToyBackend.blank 40 in
  let val_labels := repeat (Keras.Sparse 3) 40 in
  let test_images := repeat ToyBackend.blank 33 in
  let run := Notebook2.fit_cell ToyBackend.K ToyBackend.model0 0
               (repeat ToyBackend.blank 130) (repeat (Keras.Sparse 3) 130)
               val_images val_labels in
  let inference :=
    snd (Notebook2.predictions ToyBackend.K ToyBackend.model0 test_images) in
  Py.is_ok (fst run) = true /\
  (forall e, e < 10 ->
     flat_map event_images (events_of Keras.Validation e (snd run)) = val_images /\
     flat_map event_targets (events_of Keras.Validation e (snd run)) = val_labels) /\
  Forall (fun ev => event_phase ev = Keras.Inference) inference /\
  flat_map event_images inference = test_images.
Proof.
  apply (validation_and_test_inputs_untouched ToyBackend.K ToyBackend.model0
           ToyBackend.model0 0 (repeat ToyBackend.blank 130)
           (repeat (Keras.Sparse 3) 130) (repeat ToyBackend.blank 40)
           (repeat (Keras.Sparse 3) 40) (repeat ToyBackend.blank 33)).
  - exact toy_permutes.
  - discriminate.
  - reflexivity.
  - reflexivity.
Defined.


(** * The training loop *)

Lemma to_categorical_one_hot (y : list Z) (rows : list (list Float32.float32)) :
  Keras.to_categorical y 10 = OK rows ->
  Forall is_one_hot (map Keras.OneHot rows).
Proof.
  revert rows; induction y as [|l rest IH]; intros rows H; simpl in H.
  - inversion H. constructor.
  - destruct (Keras.to_categorical rest 10) as [rows'|e] eqn:E.
    + destruct ((0 <=? l)%Z && (l <? 10)%Z) eqn:E1;
        [|destruct ((-10 <=? l)%Z && (l <? 0)%Z) eqn:E2];
        simpl in H; try discriminate; inversion H; subst; simpl;
        (constructor; [|now apply IH]); eexists; (split; [|reflexivity]); lia.
    + destruct ((0 <=? l)%Z && (l <? 10)%Z);
        [|destruct ((-10 <=? l)%Z && (l <? 0)%Z)];
        simpl in H; discriminate.
Qed.

(** The targets the two notebooks start from are of the kinds the
    theorem below asks for, when the labels of the file are digits. *)
Lemma train_labels_kinds (train_df : list (list Z)) (y : list Keras.target) :
  (Notebook1.train_labels train_df = OK y -> Forall is_one_hot y) /\
  (Forall (fun r => (0 <= hd 0%Z r <= 9)%Z) train_df ->
   Forall is_class_index (Notebook2.train_labels train_df)).
Proof.
  split.
  - unfold Notebook1.train_labels. intros H.
    destruct (Keras.to_categorical (iloc_col0 train_df) 10) as [rows|e] eqn:E;
      simpl in H; [|discriminate].
    inversion H. now apply (to_categorical_one_hot (iloc_col0 train_df)).
  - intros H. unfold Notebook2.train_labels, iloc_col0. rewrite !Forall_map.
    eapply Forall_impl; [|exact H]. intros r Hr. now exists (hd 0%Z r).
Qed.

(** ** Training, step by step *)


Section ReplayFacts.
Variable K : Keras.Backend.
Variable args : Keras.compile_args.
Hypothesis Hmetrics : Keras.compiled_metrics args = [Keras.accuracy].





End ReplayFacts.




Example example_fit_epochs :
  let run2 := Notebook2.fit_cell ToyBackend.K ToyBackend.model0 0
                (repeat ToyBackend.blank 130) (repeat (Keras.Sparse 3) 130)
                (repeat ToyBackend.blank 40) (repeat (Keras.Sparse 3) 40) in
  map (fun ev => length (event_images ev))
      (events_of Keras.Training 9 (snd run2)) = [64; 64; 2] /\
  map (fun ev => length (event_images ev))
      (events_of Keras.Validation 9 (snd run2)) = [32; 8].
Proof. vm_compute. split; reflexivity. Qed.

(** With no training image at all [fit] raises, as [predict] does with no
    image to predict. *)
Example example_empty_inputs :
  fst (Notebook1.fit_cell ToyBackend.K ToyBackend.model0 0 [] []
         [ToyBackend.blank] [Keras.OneHot (Keras.one_hot 10 3)])
  = Raise (ValueError "Unexpected result of train_function (Empty logs)") /\
  fst (Notebook1.predictions ToyBackend.K ToyBackend.model0 [])
  = Raise (ValueError "Unexpected result of predict_function (Empty batch_outputs)").
Proof. vm_compute. split; reflexivity. Qed.

(** In notebook 2 the iterator is asked for its first batch before
    anything else, and has none. *)
Example example_empty_iterator :
  fst (Notebook2.fit_cell ToyBackend.K ToyBackend.model0 0 [] []
         [ToyBackend.blank] [Keras.Sparse 3])
  = Raise (ValueError "Asked to retrieve element 0, but the Sequence has length 0").
Proof. vm_compute. reflexivity. Qed.

(** * The cells of a run *)


Lemma prepare_images_length (rows : list (list Z)) :
  Forall (fun r => length r = 784) rows ->
  exists t, prepare_images rows = OK t /\ length t = length rows.
Proof.
  intros Hw.
  destruct (prepare_images_buffer rows (length rows)) as (t & Ht & Hlen & _).
  { rewrite (concat_uniform_length _ 784) by exact Hw. lia. }
  now exists t.
Qed.

Lemma split_cell_returns
      (RandomState : Type) (seeded : Z -> RandomState)
      (permutation : RandomState -> nat -> list nat * RandomState)
      (A B : Type) (X : list A) (y : list B) (global : RandomState) :
  (forall s n, Permutation (fst (permutation s n)) (seq 0 n)) ->
  length X = length y ->
  2 <= length X ->
  exists X_train X_val y_train y_val,
    fst (split_cell seeded permutation X y global)
    = OK (X_train, X_val, y_train, y_val) /\
    X_train <> [] /\
    length y_train = length X_train /\
    length X_val = length y_val.
Proof.
  intros Hperm Hlen HN.
  destruct X as [|dx X']; [simpl in HN; lia|].
  destruct y as [|dy y']; [discriminate|].
  destruct (split_cell_reads _ seeded permutation _ _ (dx :: X') (dy :: y')
              global dx dy Hperm Hlen HN)
    as (train & test & _ & Ltrain & _ & Heq).
  rewrite Heq. do 4 eexists. split; [reflexivity|].
  rewrite !length_map. split; [|split; reflexivity].
  intros Hnil. apply (f_equal (@length _)) in Hnil.
  rewrite length_map, Ltrain, n_train_is_floor in Hnil.
  assert (1 <= 8 * length (dx :: X') / 10) by (apply Nat.div_le_lower_bound; lia).
  simpl length in *. lia.
Qed.

Lemma submission_csv_lines (predictions : list (list Float32.float32)) :
  Forall (fun row => length row = 10) predictions ->
  exists rows,
    submission_csv predictions = OK ("ImageId,Label" :: rows) /\
    length rows = length predictions.
Proof.
  intros Hrows.
  destruct (argmax_axis1_rows predictions) as (labels & Hcl & Hall).
  { eapply Forall_impl; [|exact Hrows]. intros row Hlen ->. discriminate. }
  assert (Hlen : length labels = length predictions).
  { symmetry. exact (Forall2_length Hall). }
  unfold submission_csv, submission_df, predicted_classes. rewrite Hcl.
  cbv beta iota delta [Py.bind]. rewrite arange1_succ.
  unfold Pandas.DataFrame2. rewrite length_seq, Nat.eqb_refl.
  rewrite to_csv_two_columns. eexists. split; [reflexivity|].
  now rewrite length_map, !length_seq.
Qed.

Lemma to_categorical_length (y : list Z) :
  Forall (fun l => (-10 <= l < 10)%Z) y ->
  exists rows, Keras.to_categorical y 10 = OK rows /\ length rows = length y.
Proof.
  induction 1 as [|l rest Hl _ IH]; simpl.
  - now exists [].
  - destruct IH as (rows & Hrows & Hlen). rewrite Hrows.
    destruct ((0 <=? l)%Z && (l <? 10)%Z) eqn:E1.
    + eexists. split; [reflexivity|]. simpl. now rewrite Hlen.
    + assert (E2 : ((-10 <=? l)%Z && (l <? 0)%Z) = true).
      { apply andb_false_iff in E1. apply andb_true_iff. lia. }
      rewrite E2. eexists. split; [reflexivity|]. simpl. now rewrite Hlen.
Qed.

(** Five training rows, one per digit 0 to 4, and two test rows, one of
    them blank: both notebooks write a header and two rows. *)
Example example_run :
  let train_df := map (fun d => d :: repeat (51 * d)%Z 784) [0; 1; 2; 3; 4]%Z in
  let test_df := [repeat 0%Z 784; repeat 255%Z 784] in
  Notebook1.run ToyRandom.seeded ToyRandom.permutation 7 ToyBackend.K
                (repeat 0 8) 0 train_df test_df
  = OK ["ImageId,Label"; "1,1"; "2,1"] /\
  Notebook2.run ToyRandom.seeded ToyRandom.permutation 7 ToyBackend.K
                (repeat 0 13) 0 train_df test_df
  = OK ["ImageId,Label"; "1,1"; "2,1"].
Proof. vm_compute. split; reflexivity. Qed.

(** * The loader on tables of another width *)

Lemma infer_dim_mismatch (size known : nat) :
  size mod known <> 0 ->
  Numpy.infer_dim size known = Raise (ValueError "cannot reshape array").
Proof.
  intros H. unfold Numpy.infer_dim.
  apply Nat.eqb_neq in H. rewrite H. now rewrite orb_true_r.
Qed.

Lemma off_by_one_multiple (R w : nat) :
  w = 783 \/ w = 785 -> (R * w) mod 784 = 0 -> R mod 784 = 0.
Proof.
  intros Hw H.
  apply Nat.Div0.div_exact in H.
  pose proof (Nat.div_mod_eq R 784) as H1.
  pose proof (Nat.mod_upper_bound R 784) as H2.
  set (q := R * w / 784) in *. set (r := R mod 784) in *. set (d := R / 784) in *.
  destruct Hw as [-> | ->]; nia.
Qed.

Lemma prepare_images_off_by_one (rows : list (list Z)) (w : nat) :
  Forall (fun r => length r = w) rows ->
  w = 783 \/ w = 785 ->
  (length rows mod 784 <> 0 ->
   prepare_images rows = Raise (ValueError "cannot reshape array")) /\
  (length rows mod 784 = 0 ->
   exists t, prepare_images rows = OK t /\ length t = length rows / 784 * w).
Proof.
  intros Hrows Hw. split.
  - intros Hmod. unfold prepare_images, Numpy.reshape_28_28_1, Numpy.ravel.
    rewrite (concat_uniform_length _ w) by exact Hrows.
    rewrite infer_dim_mismatch; [reflexivity|].
    change (28 * 28 * 1) with 784. intros H. apply Hmod.
    now apply (off_by_one_multiple _ w).
  - intros Hmod.
    destruct (prepare_images_buffer rows (length rows / 784 * w)) as (t & Ht & Hlen & _).
    + rewrite (concat_uniform_length _ w) by exact Hrows.
      apply Nat.Div0.div_exact in Hmod. rewrite Hmod at 1. lia.
    + now exists t.
Qed.

(** X1.  A misplaced label column is not recognised by the width of the
    rows.  For a training file without its label column (784 values in a
    row, of which the first is taken for the label and 783 are left) and
    for a test file that still has one (785 values in a row), the reshape
    raises [ValueError] when the number of rows is not a multiple of 784;
    when it is, the loader silently returns another number of images, 783
    or 785 for every 784 rows, cut across the rows. *)
Theorem misplaced_label_column_in_loader (train_df test_df : list (list Z)) :
  Forall (fun r => length r = 784) train_df ->
  Forall (fun r => length r = 785) test_df ->
  (length train_df mod 784 <> 0 ->
   train_images train_df = Raise (ValueError "cannot reshape array")) /\
  (length test_df mod 784 <> 0 ->
   test_images test_df = Raise (ValueError "cannot reshape array")) /\
  (length train_df mod 784 = 0 ->
   exists t, train_images train_df = OK t /\
             length t = length train_df / 784 * 783) /\
  (length test_df mod 784 = 0 ->
   exists t, test_images test_df = OK t /\
             length t = length test_df / 784 * 785).
Proof.
  intros Htrain Htest.
  destruct (prepare_images_off_by_one (iloc_from1 train_df) 783) as [T1 T2].
  { unfold iloc_from1. rewrite Forall_map.
    eapply Forall_impl; [|exact Htrain]. intros r Hr. destruct r; simpl in *; lia. }
  { now left. }
  destruct (prepare_images_off_by_one test_df 785 Htest) as [S1 S2]; [now right|].
  unfold iloc_from1 in T1, T2. rewrite length_map in T1, T2.
  unfold train_images, test_images, iloc_from1. now repeat split.
Qed.

Lemma misplaced_label_column_in_loader_witness :
  train_images [repeat 0%Z 784; repeat 255%Z 784]
  = Raise (ValueError "cannot reshape array") /\
  test_images [7%Z :: repeat 128%Z 784] = Raise (ValueError "cannot reshape array").
Proof.
  destruct (misplaced_label_column_in_loader
              [repeat 0%Z 784; repeat 255%Z 784] [7%Z :: repeat 128%Z 784])
    as (H1 & H2 & _ & _).
  - constructor; [|constructor; [|constructor]]; apply repeat_length.
  - constructor; [|constructor]. exact (f_equal S (repeat_length 128%Z 784)).
  - split; [apply H1 | apply H2]; discriminate.
Defined.

(** * The order of the normalised pixels *)

Lemma normalise_adjacent_all :
  forallb (fun k =>
             let a := normalise (Z.of_nat k) in
             let b := normalise (Z.of_nat (S k)) in
             negb (Float32.is_nan a) && negb (Float32.is_nan b)
             && Float32.leb a b && negb (Float32.leb b a))
          (seq 0 255) = true.
Proof. vm_compute. reflexivity. Qed.

Lemma normalise_adjacent (k : nat) :
  k < 255 ->
  not_nan (normalise (Z.of_nat k)) /\
  not_nan (normalise (Z.of_nat (S k))) /\
  Float32.leb (normalise (Z.of_nat k)) (normalise (Z.of_nat (S k))) = true /\
  Float32.leb (normalise (Z.of_nat (S k))) (normalise (Z.of_nat k)) = false.
Proof.
  intros Hk. pose proof normalise_adjacent_all as H.
  rewrite forallb_forall in H.
  assert (Hin : In k (seq 0 255)) by (apply in_seq; lia).
  specialize (H k Hin). cbv zeta in H.
  rewrite !andb_true_iff, !negb_true_iff in H.
  unfold not_nan. tauto.
Qed.

Lemma normalise_chain (i d : nat) :
  i + S d <= 255 ->
  not_nan (normalise (Z.of_nat (i + S d))) /\
  Float32.leb (normalise (Z.of_nat i)) (normalise (Z.of_nat (i + S d))) = true /\
  Float32.leb (normalise (Z.of_nat (i + S d))) (normalise (Z.of_nat i)) = false.
Proof.
  induction d as [|d IH]; intros Hd.
  - replace (i + 1) with (S i) by lia.
    destruct (normalise_adjacent i) as (_ & H2 & H3 & H4); [lia | tauto].
  - destruct IH as (Hn & Hle & Hgt); [lia|].
    replace (i + S (S d)) with (S (i + S d)) by lia.
    destruct (normalise_adjacent (i + S d)) as (_ & H2 & H3 & H4); [lia|].
    assert (Hi : not_nan (normalise (Z.of_nat i))).
    { destruct (normalise_adjacent i) as (H & _); [lia | exact H]. }
    split; [exact H2|]. split.
    + exact (leb_trans _ _ _ Hi Hn H2 Hle H3).
    + destruct (Float32.leb (normalise (Z.of_nat (S (i + S d))))
                            (normalise (Z.of_nat i))) eqn:E; [|reflexivity].
      rewrite (leb_trans _ _ _ H2 Hi Hn E Hle) in H4. discriminate.
Qed.

(** X2.  Dividing by 255 in float32 keeps the order of the pixel values:
    a larger pixel gives a strictly larger number, so no two intensities
    are merged; and the ends of the range are exact, 0 giving 0.0 and 255
    giving 1.0. *)
Theorem normalise_strictly_increasing (v w : Z) :
  pixel v -> pixel w -> (v < w)%Z ->
  Float32.leb (normalise v) (normalise w) = true /\
  Float32.leb (normalise w) (normalise v) = false /\
  normalise 0 = S754_zero false /\
  normalise 255 = Float32.of_Z 1.
Proof.
  intros [Hv0 Hv1] [Hw0 Hw1] Hlt.
  destruct (normalise_chain (Z.to_nat v) (Z.to_nat (w - v - 1))) as (_ & H1 & H2);
    [lia|].
  replace (Z.to_nat v + S (Z.to_nat (w - v - 1))) with (Z.to_nat w) in H1, H2 by lia.
  rewrite !Z2Nat.id in H1, H2 by assumption.
  split; [exact H1|]. split; [exact H2|].
  split; vm_compute; reflexivity.
Qed.

Lemma normalise_strictly_increasing_witness :
  Float32.leb (normalise 127) (normalise 128) = true /\
  Float32.leb (normalise 128) (normalise 127) = false /\
  normalise 0 = S754_zero false /\
  normalise 255 = Float32.of_Z 1.
Proof.
  apply (normalise_strictly_increasing 127 128); unfold pixel; lia.
Defined.

(** * The one-hot labels of notebook 1 *)

Lemma to_categorical_all (y : list Z) :
  Keras.to_categorical y 10
  = if forallb label_in_range y
    then OK (map (fun l => Keras.one_hot 10 (encoded_class l)) y)
    else Raise (IndexError "index out of bounds").
Proof.
  induction y as [|l rest IH]; [reflexivity|].
  cbn [Keras.to_categorical forallb map]. rewrite IH.
  change (- Z.of_nat 10)%Z with (-10)%Z. change (Z.of_nat 10) with 10%Z.
  destruct ((0 <=? l)%Z && (l <? 10)%Z) eqn:E1.
  - apply andb_true_iff in E1. destruct E1 as [H0 H1].
    apply Z.leb_le in H0. apply Z.ltb_lt in H1.
    assert (Hr : label_in_range l = true).
    { apply andb_true_iff. split; apply Z.leb_le; lia. }
    assert (Hc : encoded_class l = Z.to_nat l).
    { unfold encoded_class. now rewrite Z.mod_small by lia. }
    rewrite Hr, Hc. cbn [andb].
    destruct (forallb label_in_range rest); reflexivity.
  - destruct ((-10 <=? l)%Z && (l <? 0)%Z) eqn:E2.
    + apply andb_true_iff in E2. destruct E2 as [H0 H1].
      apply Z.leb_le in H0. apply Z.ltb_lt in H1.
      assert (Hr : label_in_range l = true).
      { apply andb_true_iff. split; apply Z.leb_le; lia. }
      assert (Hc : encoded_class l = Z.to_nat (l + 10)).
      { unfold encoded_class. f_equal. symmetry.
        apply (Z.mod_unique l 10 (-1) (l + 10)); lia. }
      rewrite Hr, Hc. cbn [andb].
      destruct (forallb label_in_range rest); reflexivity.
    + assert (Hr : label_in_range l = false).
      { apply andb_false_iff in E1. apply andb_false_iff in E2.
        apply andb_false_iff.
        rewrite !Z.leb_gt in *. rewrite !Z.ltb_ge in *. lia. }
      rewrite Hr. reflexivity.
Qed.

(** X3.  The last line of In [3] takes the labels from -10 to 9 and no
    other: a label in that range becomes the row of ten numbers with a
    one at the label's class, a negative label counting from the end as
    numpy's indices do (-1 is encoded as class 9); a single label outside
    the range makes the whole call raise [IndexError]. *)
Theorem train_labels_wrap_or_raise (train_df : list (list Z)) :
  Notebook1.train_labels train_df
  = if forallb label_in_range (train_labels train_df)
    then OK (map (fun l => Keras.OneHot (Keras.one_hot 10 (encoded_class l)))
                 (train_labels train_df))
    else Raise (IndexError "index out of bounds").
Proof.
  unfold Notebook1.train_labels, train_labels. rewrite to_categorical_all.
  destruct (forallb label_in_range (iloc_col0 train_df)); [|reflexivity].
  cbv beta iota delta [Py.bind]. now rewrite map_map.
Qed.

Lemma argmax_one_hot (k : nat) :
  k < 10 -> Numpy.argmax (Keras.one_hot 10 k) = OK k.
Proof.
  intros Hk.
  do 10 (destruct k as [|k]; [vm_compute; reflexivity|]). lia.
Qed.

(** X4.  Encoding and decoding agree: the position of the maximum of the
    one-hot row of a digit is that digit, so [np.argmax(..., axis=1)] on
    the rows [to_categorical] makes of the digits [y] gives [y] back.
    The classes predicted from the model's rows are thus in the encoding
    of the training labels. *)
Theorem argmax_inverts_to_categorical (y : list Z) :
  Forall (fun l => (0 <= l <= 9)%Z) y ->
  exists rows,
    Keras.to_categorical y 10 = OK rows /\
    Forall (fun row => length row = 10) rows /\
    Numpy.argmax_axis1 rows = OK (map Z.to_nat y).
Proof.
  intros Hy. rewrite to_categorical_all.
  assert (Hall : forallb label_in_range y = true).
  { apply forallb_forall. intros l Hl. rewrite Forall_forall in Hy.
    specialize (Hy l Hl). unfold label_in_range.
    apply andb_true_iff. split; apply Z.leb_le; lia. }
  rewrite Hall. eexists. split; [reflexivity|]. split.
  - rewrite Forall_map. apply Forall_forall. intros l _.
    unfold Keras.one_hot. now rewrite length_map, length_seq.
  - induction Hy as [|l rest Hl _ IH]; [reflexivity|].
    cbn [map Numpy.argmax_axis1].
    assert (Hc : encoded_class l = Z.to_nat l).
    { unfold encoded_class. now rewrite Z.mod_small by lia. }
    rewrite Hc, argmax_one_hot by lia.
    rewrite IH.
    + reflexivity.
    + simpl in Hall. apply andb_true_iff in Hall. tauto.
Qed.

Lemma argmax_inverts_to_categorical_witness :
  exists rows,
    Keras.to_categorical [3; 0; 9]%Z 10 = OK rows /\
    Forall (fun row => length row = 10) rows /\
    Numpy.argmax_axis1 rows = OK (map Z.to_nat [3; 0; 9]%Z).
Proof.
  apply (argmax_inverts_to_categorical [3; 0; 9]%Z).
  repeat constructor; lia.
Defined.

(** * A NaN among the scores *)

Lemma argmax_scan_nan (pre post : list Float32.float32) (mp : Float32.float32)
      (max_ind i : nat) :
  Forall not_nan pre ->
  Numpy.argmax_scan mp max_ind i (pre ++ S754_nan :: post) = i + length pre.
Proof.
  intros Hpre. revert mp max_ind i.
  induction Hpre as [|x pre Hx _ IH]; intros mp max_ind i.
  - simpl. unfold Float32.leb. simpl. lia.
  - cbn [app Numpy.argmax_scan length].
    unfold not_nan in Hx. rewrite Hx.
    destruct (negb (Float32.leb x mp)); rewrite IH; lia.
Qed.

(** X5.  A NaN among the scores is no error: [np.argmax] takes the first
    NaN of a row for its maximum, so the predicted class of such a row is
    the position of its first NaN, whatever the other scores are. *)
Theorem argmax_of_nan_row (pre post : list Float32.float32) :
  Forall not_nan pre ->
  Numpy.argmax (pre ++ S754_nan :: post) = OK (length pre) /\
  predicted_classes [pre ++ S754_nan :: post] = OK [length pre].
Proof.
  intros Hpre.
  assert (H : Numpy.argmax (pre ++ S754_nan :: post) = OK (length pre)).
  { destruct pre as [|mp pre]; [reflexivity|].
    inversion Hpre as [|? ? Hmp Hrest]; subst.
    cbn [app Numpy.argmax]. unfold not_nan in Hmp. rewrite Hmp.
    rewrite argmax_scan_nan by exact Hrest. reflexivity. }
  split; [exact H|].
  unfold predicted_classes. cbn [Numpy.argmax_axis1]. now rewrite H.
Qed.

Lemma argmax_of_nan_row_witness :
  Numpy.argmax ([Float32.of_Z 0; Float32.of_Z 1] ++ S754_nan :: [Float32.of_Z 7])
  = OK (length [Float32.of_Z 0; Float32.of_Z 1]) /\
  predicted_classes [[Float32.of_Z 0; Float32.of_Z 1] ++ S754_nan :: [Float32.of_Z 7]]
  = OK [length [Float32.of_Z 0; Float32.of_Z 1]].
Proof.
  apply (argmax_of_nan_row [Float32.of_Z 0; Float32.of_Z 1] [Float32.of_Z 7]).
  repeat constructor.
Defined.

(** * The shapes of the two models *)

Lemma conv_3_valid (n : nat) :
  Keras.windowed_output_size n 3 1 Keras.valid
  = if n <? 3 then Raise (ValueError "Negative dimension size") else OK (n - 2).
Proof.
  unfold Keras.windowed_output_size.
  destruct (n <? 3) eqn:E; [reflexivity|].
  apply Nat.ltb_ge in E. rewrite Nat.div_1_r. f_equal. lia.
Qed.

Lemma conv_3_same (n : nat) :
  Keras.windowed_output_size n 3 1 Keras.same = OK n.
Proof.
  unfold Keras.windowed_output_size. rewrite Nat.div_1_r. f_equal. lia.
Qed.

Lemma pool_2 (n : nat) :
  Keras.windowed_output_size n 2 2 Keras.valid
  = if n <? 2 then Raise (ValueError "Negative dimension size") else OK (n / 2).
Proof.
  unfold Keras.windowed_output_size.
  destruct (n <? 2) eqn:E; [reflexivity|].
  apply Nat.ltb_ge in E. f_equal.
  replace (n - 2 + 2) with n by lia. reflexivity.
Qed.

(** The sizes of one axis through the two models. *)
Lemma axis_notebook1 (n : nat) :
  (18 <=? n) = true ->
  (n <? 3) = false /\ ((n - 2) / 2 <? 3) = false /\ ((n - 2) <? 2) = false /\
  (((n - 2) / 2 - 2) <? 2) = false /\ ((((n - 2) / 2 - 2) / 2) <? 3) = false.
Proof.
  intros H. apply Nat.leb_le in H.
  assert (H1 : 8 <= (n - 2) / 2) by (apply Nat.div_le_lower_bound; lia).
  assert (H2 : 3 <= ((n - 2) / 2 - 2) / 2) by (apply Nat.div_le_lower_bound; lia).
  repeat split; apply Nat.ltb_ge; lia.
Qed.

Lemma axis_notebook1_small (n : nat) :
  (18 <=? n) = false ->
  (n <? 3) = true \/ ((n - 2) <? 2) = true \/ ((n - 2) / 2 <? 3) = true \/
  (((n - 2) / 2 - 2) <? 2) = true \/ ((((n - 2) / 2 - 2) / 2) <? 3) = true.
Proof.
  intros H. apply Nat.leb_gt in H.
  do 18 (destruct n as [|n]; [vm_compute; tauto|]). lia.
Qed.

Ltac shape_step :=
  cbn [Keras.sequential_output_shape Keras.compute_output_shape
       fold_right removelast app Nat.eqb];
  repeat rewrite conv_3_valid; repeat rewrite conv_3_same; repeat rewrite pool_2;
  cbv beta iota delta [Py.bind].

Ltac shape_cases :=
  repeat (progress shape_step
          || match goal with
             | |- context [if ?b then _ else _] =>
                 lazymatch type of b with
                 | bool => let E := fresh "E" in destruct b eqn:E
                 end
             end).

Lemma notebook1_output_shape (h w c : nat) :
  1 <= c ->
  Keras.sequential_output_shape Notebook1.layers [h; w; c]
  = if (18 <=? h) && (18 <=? w)
    then OK [10]
    else Raise (ValueError "Negative dimension size").
Proof.
  intros Hc. destruct c as [|c]; [lia|]. clear Hc.
  unfold Notebook1.layers.
  destruct (18 <=? h) eqn:Eh; [destruct (18 <=? w) eqn:Ew|]; cbn [andb].
  - destruct (axis_notebook1 h Eh) as (A1 & A2 & A3 & A4 & A5).
    destruct (axis_notebook1 w Ew) as (B1 & B2 & B3 & B4 & B5).
    shape_cases; try reflexivity; congruence.
  - pose proof (axis_notebook1_small w Ew) as B.
    shape_cases; try reflexivity.
    exfalso. intuition congruence.
  - pose proof (axis_notebook1_small h Eh) as A.
    shape_cases; try reflexivity.
    exfalso. intuition congruence.
Qed.

Lemma axis_notebook2 (n : nat) :
  (4 <=? n) = true -> (n <? 2) = false /\ (n / 2 <? 2) = false.
Proof.
  intros H. apply Nat.leb_le in H.
  assert (H1 : 2 <= n / 2) by (apply Nat.div_le_lower_bound; lia).
  split; apply Nat.ltb_ge; lia.
Qed.

Lemma axis_notebook2_small (n : nat) :
  (4 <=? n) = false -> (n <? 2) = true \/ (n / 2 <? 2) = true.
Proof.
  intros H. apply Nat.leb_gt in H.
  do 4 (destruct n as [|n]; [vm_compute; tauto|]). lia.
Qed.

Lemma notebook2_output_shape (h w c : nat) :
  1 <= c ->
  Keras.sequential_output_shape Notebook2.layers [h; w; c]
  = if (4 <=? h) && (4 <=? w)
    then OK [10]
    else Raise (ValueError "Negative dimension size").
Proof.
  intros Hc. destruct c as [|c]; [lia|]. clear Hc.
  unfold Notebook2.layers.
  destruct (4 <=? h) eqn:Eh; [destruct (4 <=? w) eqn:Ew|]; cbn [andb].
  - destruct (axis_notebook2 h Eh) as (A1 & A2).
    destruct (axis_notebook2 w Ew) as (B1 & B2).
    shape_cases; try reflexivity; congruence.
  - pose proof (axis_notebook2_small w Ew) as B.
    shape_cases; try reflexivity.
    exfalso. intuition congruence.
  - pose proof (axis_notebook2_small h Eh) as A.
    shape_cases; try reflexivity.
    exfalso. intuition congruence.
Qed.

(** X6.  Both models are well formed on the images of the loader: with
    the [input_shape] the first layer is given, every layer receives an
    input it accepts and the last one returns ten numbers for an image.
    More generally notebook 1's layers build on an image of [h x w]
    pixels with at least one channel exactly when [h] and [w] are at
    least 18, and notebook 2's exactly when they are at least 4; a
    smaller image makes a convolution or pooling window not fit, which
    raises [ValueError]. *)
Theorem models_output_ten_classes (h w c : nat) :
  1 <= c ->
  Keras.sequential_output_shape Notebook1.layers Notebook1.input_shape = OK [10] /\
  Keras.sequential_output_shape Notebook2.layers Notebook2.input_shape = OK [10] /\
  Keras.sequential_output_shape Notebook1.layers [h; w; c]
  = (if (18 <=? h) && (18 <=? w)
     then OK [10]
     else Raise (ValueError "Negative dimension size")) /\
  Keras.sequential_output_shape Notebook2.layers [h; w; c]
  = (if (4 <=? h) && (4 <=? w)
     then OK [10]
     else Raise (ValueError "Negative dimension size")).
Proof.
  intros Hc.
  split; [apply (notebook1_output_shape 28 28 1); lia|].
  split; [apply (notebook2_output_shape 28 28 1); lia|].
  split; [now apply notebook1_output_shape | now apply notebook2_output_shape].
Qed.

Lemma models_output_ten_classes_witness :
  Keras.sequential_output_shape Notebook1.layers Notebook1.input_shape = OK [10] /\
  Keras.sequential_output_shape Notebook2.layers Notebook2.input_shape = OK [10] /\
  Keras.sequential_output_shape Notebook1.layers [17; 28; 1]
  = Raise (ValueError "Negative dimension size") /\
  Keras.sequential_output_shape Notebook2.layers [28; 3; 1]
  = Raise (ValueError "Negative dimension size").
Proof.
  split; [apply (models_output_ten_classes 28 28 1); lia|].
  split; [apply (models_output_ten_classes 28 28 1); lia|].
  split.
  - apply (models_output_ten_classes 17 28 1). lia.
  - apply (models_output_ten_classes 28 3 1). lia.
Defined.

(** * The forward pass of notebook 1 *)

Lemma sequential_call_without_batch_normalization
      (K : Keras.Backend) (m : Keras.model K) (training : bool) (x : Keras.tensor K) :
  Forall (fun lv => fst lv <> Keras.BatchNormalization) m ->
  Keras.sequential_call K m training x = Keras.sequential_call K m false x.
Proof.
  intros H. revert x. induction H as [|[l v] rest Hl _ IH]; intros x; [reflexivity|].
  cbn [Keras.sequential_call].
  assert (Hc : Keras.call K l v training x = Keras.call K l v false x).
  { destruct l, training; try reflexivity. now simpl in Hl. }
  rewrite Hc. destruct (Keras.call K l v false x) as [y' v'].
  now rewrite IH.
Qed.

(** X7.  Notebook 1's model has no layer that works differently while
    training: whatever variables it is built with, its forward pass in
    training mode computes what the pass in inference mode computes and
    leaves every variable as it was, so during [fit] only the optimizer's
    update changes the model. *)
Theorem notebook1_forward_pass_ignores_mode
        (K : Keras.Backend) (initial : list (Keras.variables K))
        (training : bool) (x : Keras.tensor K) :
  let m := Keras.build K Notebook1.layers initial in
  Keras.sequential_call K m training x
  = (fst (Keras.sequential_call K m false x), m).
Proof.
  cbv zeta.
  rewrite sequential_call_without_batch_normalization.
  - pose proof (sequential_call_inference K
                  (Keras.build K Notebook1.layers initial) x) as H.
    destruct (Keras.sequential_call K (Keras.build K Notebook1.layers initial) false x)
      as [out m1].
    simpl in *. now subst m1.
  - apply Forall_forall. intros [l v] Hin. unfold Keras.build in Hin.
    apply in_combine_l in Hin. simpl.
    unfold Notebook1.layers in Hin. simpl in Hin.
    intuition (subst; discriminate).
Qed.

(** * Validation and the trained model *)

Section ValidationFacts.
Variable K : Keras.Backend.

Lemma run_steps_test_frozen args ph e (m : Keras.model K) bs :
  fst (fst (Keras.run_steps K (Keras.test_step K args) ph e m bs)) = m.
Proof.
  revert m; induction bs as [|b bs IH]; intros m; simpl; [reflexivity|].
  unfold Keras.test_step at 1.
  pose proof (sequential_call_inference K m (Keras.stack K (fst b))) as H.
  destruct (Keras.sequential_call K m false (Keras.stack K (fst b))) as [out m1].
  simpl in H. subst m1.
  specialize (IH m).
  destruct (Keras.run_steps K (Keras.test_step K args) ph e m bs) as [[m2 ls] tr].
  exact IH.
Qed.

Lemma evaluate_frozen args e (m : Keras.model K) val vbs :
  length (fst val) = length (snd val) ->
  exists ls tr, Keras.evaluate K args e m val vbs = (OK (m, ls), tr).
Proof.
  intros Hlen. unfold Keras.evaluate.
  rewrite Hlen, Nat.eqb_refl. simpl negb. cbv iota.
  pose proof (run_steps_test_frozen args Keras.Validation e m
                (combine (Keras.batches vbs (fst val)) (Keras.batches vbs (snd val))))
    as H.
  destruct (Keras.run_steps K (Keras.test_step K args) Keras.Validation e m
              (combine (Keras.batches vbs (fst val)) (Keras.batches vbs (snd val))))
    as [[m1 ls] tr].
  simpl in H. subst m1. now exists ls, tr.
Qed.

Lemma fit_epochs_ignores_validation {St : Type} args n e (m : Keras.model K)
      (g : St) (ds : Keras.iterator St) val val' vbs vbs' :
  length (fst val) = length (snd val) ->
  length (fst val') = length (snd val') ->
  match fst (Keras.fit_epochs K args n e m g ds val vbs),
        fst (Keras.fit_epochs K args n e m g ds val' vbs') with
  | OK (m1, h1, g1), OK (m2, h2, g2) =>
      m1 = m2 /\ g1 = g2 /\
      map (fun rep => (Keras.epoch rep, Keras.train_logs rep)) h1
      = map (fun rep => (Keras.epoch rep, Keras.train_logs rep)) h2
  | Raise _, Raise _ => True
  | _, _ => False
  end.
Proof.
  intros Hv Hv'. revert e m g; induction n as [|n IH]; intros e m g;
    [now repeat split|].
  cbn [Keras.fit_epochs].
  destruct (ds g) as [bs g1].
  destruct bs as [|b0 bs]; [exact I|].
  destruct (Keras.run_steps K (Keras.train_step K args) Keras.Training e m (b0 :: bs))
    as [[m1 tl] tr1].
  destruct (evaluate_frozen args e m1 val vbs Hv) as (vl & tr2 & Hev).
  destruct (evaluate_frozen args e m1 val' vbs' Hv') as (vl' & tr2' & Hev').
  rewrite Hev, Hev'.
  specialize (IH (S e) m1 g1).
  destruct (Keras.fit_epochs K args n (S e) m1 g1 ds val vbs) as [r tr3].
  destruct (Keras.fit_epochs K args n (S e) m1 g1 ds val' vbs') as [r' tr3'].
  cbn [fst] in *.
  destruct r as [[[m3 h] g2]|err], r' as [[[m3' h'] g2']|err'];
    try contradiction; [|exact I].
  destruct IH as (-> & -> & Hh). cbn [map Keras.epoch Keras.train_logs].
  now rewrite Hh.
Qed.
End ValidationFacts.

(** X8.  The validation data never reach the weights: validation runs in
    inference mode and hands back the model it was given, so for training
    data fixed, [fit] with any two validation sets (each of one length)
    ends with the same model, the same training loss and accuracy for
    every epoch and the same generator, in both notebooks; only the
    validation figures of the reports can differ. *)
Theorem validation_data_do_not_train
        (K : Keras.Backend) (m : Keras.model K) (g : Keras.rng K)
        (X : list Keras.image) (y : list Keras.target)
        (X_val X_val' : list Keras.image) (y_val y_val' : list Keras.target) :
  length X_val = length y_val ->
  length X_val' = length y_val' ->
  training_outcome K (fst (Notebook1.fit_cell K m g X y X_val y_val))
  = training_outcome K (fst (Notebook1.fit_cell K m g X y X_val' y_val')) /\
  training_outcome K (fst (Notebook2.fit_cell K m g X y X_val y_val))
  = training_outcome K (fst (Notebook2.fit_cell K m g X y X_val' y_val')).
Proof.
  intros Hv Hv'.
  unfold Notebook1.fit_cell, Notebook2.fit_cell, Keras.fit, Keras.fit_sequence.
  split.
  - destruct (Keras.array_dataset K X y 64) as [ds|err]; [|reflexivity].
    pose proof (fit_epochs_ignores_validation K Notebook1.compile 10 0 m g ds
                  (X_val, y_val) (X_val', y_val') 64 64 Hv Hv') as H.
    destruct (fst (Keras.fit_epochs K Notebook1.compile 10 0 m g ds (X_val, y_val) 64))
      as [[[m1 h1] g1]|e1],
      (fst (Keras.fit_epochs K Notebook1.compile 10 0 m g ds (X_val', y_val') 64))
      as [[[m2 h2] g2]|e2]; try contradiction; [|reflexivity].
    destruct H as (-> & -> & Hh). cbn [training_outcome]. now rewrite Hh.
  - destruct (Keras.flow Notebook2.datagen X y 64) as [it|err]; [|reflexivity].
    destruct (Keras.sequence_peek K it g) as [st|err]; [|reflexivity].
    pose proof (fit_epochs_ignores_validation K Notebook2.compile 10 0 m st
                  (Keras.sequence_epoch K it)
                  (X_val, y_val) (X_val', y_val') 32 32 Hv Hv') as H.
    destruct (Keras.fit_epochs K Notebook2.compile 10 0 m st
                (Keras.sequence_epoch K it) (X_val, y_val) 32) as [r tr].
    destruct (Keras.fit_epochs K Notebook2.compile 10 0 m st
                (Keras.sequence_epoch K it) (X_val', y_val') 32) as [r' tr'].
    cbn [fst] in *.
    destruct r as [[[m1 h1] g1]|e1], r' as [[[m2 h2] g2]|e2];
      try contradiction; [|reflexivity].
    destruct H as (-> & -> & Hh). cbn [training_outcome]. now rewrite Hh.
Qed.

Lemma validation_data_do_not_train_witness :
  training_outcome ToyBackend.K
    (fst (Notebook1.fit_cell ToyBackend.K ToyBackend.model0 0
            (repeat ToyBackend.blank 70) (repeat (Keras.Sparse 3) 70)
            (repeat ToyBackend.blank 5) (repeat (Keras.Sparse 3) 5)))
  = training_outcome ToyBackend.K
      (fst (Notebook1.fit_cell ToyBackend.K ToyBackend.model0 0
              (repeat ToyBackend.blank 70) (repeat (Keras.Sparse 3) 70)
              [] [])) /\
  training_outcome ToyBackend.K
    (fst (Notebook2.fit_cell ToyBackend.K ToyBackend.model0 0
            (repeat ToyBackend.blank 70) (repeat (Keras.Sparse 3) 70)
            (repeat ToyBackend.blank 5) (repeat (Keras.Sparse 3) 5)))
  = training_outcome ToyBackend.K
      (fst (Notebook2.fit_cell ToyBackend.K ToyBackend.model0 0
              (repeat ToyBackend.blank 70) (repeat (Keras.Sparse 3) 70)
              [] [])).
Proof.
  apply (validation_data_do_not_train ToyBackend.K ToyBackend.model0 0
           (repeat ToyBackend.blank 70) (repeat (Keras.Sparse 3) 70)
           (repeat ToyBackend.blank 5) [] (repeat (Keras.Sparse 3) 5) []).
  - now rewrite !repeat_length.
  - reflexivity.
Defined.

(** * An epoch is one pass over the training examples *)

Section GatherFacts.
Variable A : Type.

Lemma gather_cons (a : list A) (j : nat) (rest : list nat) :
  Keras.gather a (j :: rest)
  = match nth_error a j with
    | Some x => x :: Keras.gather a rest
    | None => Keras.gather a rest
    end.
Proof.
  unfold Keras.gather. simpl. now destruct (nth_error a j).
Qed.

Lemma gather_app (a : list A) (i1 i2 : list nat) :
  Keras.gather a (i1 ++ i2) = Keras.gather a i1 ++ Keras.gather a i2.
Proof. unfold Keras.gather. apply flat_map_app. Qed.

Lemma gather_concat (a : list A) (ibs : list (list nat)) :
  Keras.gather a (concat ibs) = flat_map (Keras.gather a) ibs.
Proof.
  induction ibs as [|ib ibs IH]; simpl; [reflexivity|].
  now rewrite gather_app, IH.
Qed.

Lemma gather_all (a : list A) : Keras.gather a (seq 0 (length a)) = a.
Proof.
  induction a as [|x a IH]; [reflexivity|].
  simpl length. rewrite <- cons_seq, gather_cons. cbn [nth_error].
  rewrite <- seq_shift.
  unfold Keras.gather in *. rewrite flat_map_over_map. cbn [nth_error].
  f_equal. exact IH.
Qed.

Lemma gather_permutation (a : list A) (perm : list nat) :
  Permutation perm (seq 0 (length a)) -> Permutation (Keras.gather a perm) a.
Proof.
  intros H. rewrite <- (gather_all a) at 2.
  unfold Keras.gather. now apply Permutation_flat_map.
Qed.

End GatherFacts.

Arguments gather_cons {A} a j rest.
Arguments gather_concat {A} a ibs.
Arguments gather_permutation {A} a perm.

Lemma nth_error_combine {A B : Type} (a : list A) (b : list B) (j : nat) :
  nth_error (combine a b) j
  = match nth_error a j, nth_error b j with
    | Some x, Some t => Some (x, t)
    | _, _ => None
    end.
Proof.
  revert b j; induction a as [|x a IH]; intros b j.
  - simpl. now destruct j.
  - destruct b as [|t b].
    + simpl. destruct j; simpl; [reflexivity|]. now destruct (nth_error a j).
    + destruct j; simpl; [reflexivity | apply IH].
Qed.

Lemma gather_combine {A B : Type} (a : list A) (b : list B) (ib : list nat) :
  length a = length b ->
  Keras.gather (combine a b) ib = combine (Keras.gather a ib) (Keras.gather b ib).
Proof.
  intros Hlen. induction ib as [|j rest IH]; [reflexivity|].
  rewrite !gather_cons, nth_error_combine, IH.
  destruct (nth_error a j) as [x|] eqn:Ea, (nth_error b j) as [t|] eqn:Eb;
    try reflexivity.
  - apply nth_error_None in Eb.
    assert (j < length a) by (apply nth_error_Some; congruence). lia.
  - apply nth_error_None in Ea.
    assert (j < length b) by (apply nth_error_Some; congruence). lia.
Qed.

Lemma fed_examples_of_batches (ph : Keras.phase) (e : nat)
      (bs : list (list Keras.image * list Keras.target)) :
  fed_examples (map (as_event ph e) bs)
  = flat_map (fun b => combine (fst b) (snd b)) bs.
Proof.
  unfold fed_examples. rewrite flat_map_over_map. reflexivity.
Qed.

Lemma array_epoch_examples (K : Keras.Backend) (X : list Keras.image)
      (y : list Keras.target) (g : Keras.rng K) :
  length y = length X ->
  flat_map (fun b => combine (fst b) (snd b)) (fst (Keras.array_epoch K X y 64 g))
  = Keras.gather (combine X y) (fst (Keras.rng_permutation K g (length X))).
Proof.
  intros Hlen. unfold Keras.array_epoch, Keras.index_batches.
  destruct (Keras.rng_permutation K g (length X)) as [perm g']. cbn [fst].
  rewrite flat_map_over_map. cbn [fst snd].
  rewrite <- (concat_batches _ 64 perm) at 2 by lia.
  rewrite gather_concat. apply flat_map_ext. intros ib.
  symmetry. apply gather_combine. now symmetry.
Qed.

(** X9.  In notebook 1 an epoch is one pass over the training set: when
    the generator shuffles by a permutation, the examples the training
    steps of each of the ten epochs are fed, every image with the target
    fed beside it, are a rearrangement of the pairs of [X_train] and
    [y_train]; no example is left out or fed twice, and none is
    separated from its label. *)
Theorem notebook1_epoch_feeds_every_example_once
        (K : Keras.Backend) (m : Keras.model K) (g : Keras.rng K)
        (X_train X_val : list Keras.image) (y_train y_val : list Keras.target) :
  permutes K ->
  X_train <> [] -> length y_train = length X_train ->
  length X_val = length y_val ->
  forall e, e < 10 ->
    Permutation
      (fed_examples
         (events_of Keras.Training e
            (snd (Notebook1.fit_cell K m g X_train y_train X_val y_val))))
      (combine X_train y_train).
Proof.
  intros Hperm Hne Hy Hv e He.
  unfold Notebook1.fit_cell. rewrite array_dataset_ok by exact Hy.
  destruct (fit_run K Notebook1.compile 10 m g
              (Keras.array_epoch K X_train y_train 64) (X_val, y_val) 64)
    as (m1 & h1 & g1 & Hrun & _).
  { intros g'. now apply array_epoch_nonempty. }
  { exact Hv. }
  rewrite Hrun. cbn [snd].
  rewrite training_events_of_epochs by exact He.
  rewrite fed_examples_of_batches, array_epoch_examples by exact Hy.
  apply gather_permutation.
  rewrite length_combine, Hy, Nat.min_id. apply Hperm.
Qed.

Lemma notebook1_epoch_feeds_every_example_once_witness :
  Permutation
    (fed_examples
       (events_of Keras.Training 9
          (snd (Notebook1.fit_cell ToyBackend.K ToyBackend.model0 0
                  (repeat ToyBackend.blank 70)
                  (map (fun k => Keras.OneHot (Keras.one_hot 10 (k mod 10))) (seq 0 70))
                  [ToyBackend.blank] [Keras.OneHot (Keras.one_hot 10 3)]))))
    (combine (repeat ToyBackend.blank 70)
             (map (fun k => Keras.OneHot (Keras.one_hot 10 (k mod 10))) (seq 0 70))).
Proof.
  apply (notebook1_epoch_feeds_every_example_once ToyBackend.K ToyBackend.model0 0
           (repeat ToyBackend.blank 70) [ToyBackend.blank]
           (map (fun k => Keras.OneHot (Keras.one_hot 10 (k mod 10))) (seq 0 70))
           [Keras.OneHot (Keras.one_hot 10 3)]).
  - exact toy_permutes.
  - discriminate.
  - now rewrite length_map, length_seq, repeat_length.
  - reflexivity.
  - lia.
Defined.

(** * The augmented examples keep their labels *)

Lemma drawn_in_turn_labels (K : Keras.Backend) (X : list Keras.image)
      (y : list Keras.target) (positions : list nat) (g g' : Keras.rng K)
      (samples : list (Keras.image * Keras.target)) :
  drawn_in_turn K X y positions g samples g' ->
  Forall2 (fun j p => nth_error y j = Some (snd p)) positions samples.
Proof.
  induction 1 as [g|j positions g g' x t samples Hx Hy _ IH]; constructor.
  - exact Hy.
  - exact IH.
Qed.

(** X10.  In notebook 2 augmentation changes the images and nothing
    else.  For training arrays of one length that are not empty, class
    indices as targets, validation arrays of one length and a generator
    that shuffles by a permutation, the examples the training steps of
    each of the ten epochs are fed are, in the order of some permutation
    of the positions, one copy of every training image under parameters
    drawn for it from the generator as the example before left it, each
    beside the label of the image it was made from; and the draws of an
    epoch start where those of the epoch before ended, two shuffles
    later.  So every epoch sees every training image once, transformed
    anew, and never with another image's label. *)
Theorem augmented_examples_keep_their_labels
        (K : Keras.Backend) (m : Keras.model K) (g : Keras.rng K)
        (train_images val_images : list Keras.image)
        (train_labels val_labels : list Keras.target) :
  permutes K ->
  train_images <> [] -> length train_labels = length train_images ->
  Forall is_class_index train_labels ->
  length val_images = length val_labels ->
  Forall is_class_index val_labels ->
  let trace := snd (Notebook2.fit_cell K m g train_images train_labels
                                       val_images val_labels) in
  let N := length train_images in
  exists (positions : nat -> list nat) (first last : nat -> Keras.rng K),
    (forall e, e < 10 ->
       Permutation (positions e) (seq 0 N) /\
       drawn_in_turn K train_images train_labels (positions e) (first e)
                     (fed_examples (events_of Keras.Training e trace)) (last e) /\
       Forall2 (fun j p => nth_error train_labels j = Some (snd p))
               (positions e) (fed_examples (events_of Keras.Training e trace))) /\
    (forall e, S e < 10 ->
       first (S e)
       = snd (Keras.rng_permutation K
                (snd (Keras.rng_permutation K (last e) N)) ((N + 63) / 64))).
Proof.
  intros Hperm Hne Hy _ Hv _. cbv zeta.
  destruct (sequence_epochs_drawn K train_images train_labels g Hperm Hy)
    as (positions & first & last & _ & Hep & Hnext).
  exists positions, first, last.
  split; [|intros e _; apply Hnext].
  intros e He.
  unfold Notebook2.fit_cell. rewrite flow_ok by exact Hy.
  destruct (fit_sequence_run K Notebook2.compile 10 m g train_images train_labels
              (val_images, val_labels) 32 Hperm Hne Hv)
    as (m1 & h & st1 & _ & Hrun & _).
  rewrite Hrun. cbn [snd].
  rewrite (training_events_of_epochs K) by exact He.
  rewrite fed_examples_of_events.
  destruct (Hep e) as [H1 H2].
  split; [exact H1|]. split; [exact H2|].
  exact (drawn_in_turn_labels K _ _ _ _ _ _ H2).
Qed.

Lemma augmented_examples_keep_their_labels_witness :
  let K := ToyBackend.K in
  let train_images := repeat ToyBackend.blank 70 in
  let train_labels := repeat (Keras.Sparse 3) 70 in
  let trace := snd (Notebook2.fit_cell K ToyBackend.model0 0
                      train_images train_labels
                      [ToyBackend.blank] [Keras.Sparse 3]) in
  let N := length train_images in
  exists (positions : nat -> list nat) (first last : nat -> Keras.rng K),
    (forall e, e < 10 ->
       Permutation (positions e) (seq 0 N) /\
       drawn_in_turn K train_images train_labels (positions e) (first e)
                     (fed_examples (events_of Keras.Training e trace)) (last e) /\
       Forall2 (fun j p => nth_error train_labels j = Some (snd p))
               (positions e) (fed_examples (events_of Keras.Training e trace))) /\
    (forall e, S e < 10 ->
       first (S e)
       = snd (Keras.rng_permutation K
                (snd (Keras.rng_permutation K (last e) N)) ((N + 63) / 64))).
Proof.
  apply (augmented_examples_keep_their_labels ToyBackend.K ToyBackend.model0 0
           (repeat ToyBackend.blank 70) [ToyBackend.blank]
           (repeat (Keras.Sparse 3) 70) [Keras.Sparse 3]).
  - exact toy_permutes.
  - discriminate.
  - now rewrite !repeat_length.
  - apply class_indices_repeat. lia.
  - reflexivity.
  - apply (class_indices_repeat 3 1). lia.
Defined.

(** * The number of steps *)

Lemma index_batches_count (K : Keras.Backend) (N : nat) (g : Keras.rng K) :
  permutes K ->
  length (fst (Keras.index_batches K N 64 g)) = (N + 63) / 64.
Proof.
  intros Hperm. unfold Keras.index_batches. specialize (Hperm g N).
  destruct (Keras.rng_permutation K g N) as [perm g']. cbn [fst] in *.
  rewrite length_batches, (Permutation_length Hperm), length_seq.
  f_equal. lia.
Qed.

Lemma validation_batches_count (val : list Keras.image * list Keras.target) (vbs : nat) :
  length (fst val) = length (snd val) ->
  length (validation_batches val vbs) = (length (fst val) + vbs - 1) / vbs.
Proof.
  intros H. unfold validation_batches.
  rewrite length_combine, !length_batches, <- H. apply Nat.min_id.
Qed.

Lemma fit_cells_step_counts
      (K : Keras.Backend) (m : Keras.model K) (g : Keras.rng K)
      (X_train X_val : list Keras.image) (y_train y_val : list Keras.target) (e : nat) :
  permutes K ->
  X_train <> [] -> length y_train = length X_train ->
  length X_val = length y_val -> e < 10 ->
  let run1 := snd (Notebook1.fit_cell K m g X_train y_train X_val y_val) in
  let run2 := snd (Notebook2.fit_cell K m g X_train y_train X_val y_val) in
  length (events_of Keras.Training e run1) = (length X_train + 63) / 64 /\
  length (events_of Keras.Validation e run1) = (length X_val + 63) / 64 /\
  length (events_of Keras.Training e run2) = (length X_train + 63) / 64 /\
  length (events_of Keras.Validation e run2) = (length X_val + 31) / 32.
Proof.
  intros Hperm Hne Hy Hv He. cbv zeta.
  unfold Notebook1.fit_cell, Notebook2.fit_cell.
  rewrite array_dataset_ok by exact Hy. rewrite flow_ok by exact Hy.
  destruct (fit_run K Notebook1.compile 10 m g
              (Keras.array_epoch K X_train y_train 64) (X_val, y_val) 64)
    as (m1 & h1 & g1 & Hrun1 & _).
  { intros g'. now apply array_epoch_nonempty. }
  { exact Hv. }
  destruct (fit_sequence_run K Notebook2.compile 10 m g X_train y_train
              (X_val, y_val) 32 Hperm Hne Hv)
    as (m2 & h2 & st2 & _ & Hrun2 & _).
  rewrite Hrun1, Hrun2. cbn [snd].
  rewrite !(training_events_of_epochs K), !(validation_events_of_epochs K)
    by exact He.
  rewrite !length_map, !validation_batches_count by exact Hv. cbn [fst].
  split; [|split; [f_equal; lia|split; [|f_equal; lia]]].
  - rewrite <- (Forall2_length (array_dataset_each K X_train y_train _)).
    now apply index_batches_count.
  - rewrite sequence_epoch_length by exact Hperm. apply train_iterator_len.
Qed.

(** X11.  The cells compose to the step counts the notebooks print.  For
    labelled arrays of [N >= 2] examples the split returns its four
    arrays, and on them [fit] takes, in every one of the ten epochs,
    [ceil(floor(0.8 N) / 64)] training steps in both notebooks and
    [ceil(ceil(0.2 N) / 64)] validation steps in notebook 1,
    [ceil(ceil(0.2 N) / 32)] in notebook 2, which leaves the validation
    batch size at its default; [predict] takes [ceil(M / 32)] steps over
    [M] test images.  For the 42000 training rows and 28000 test rows of
    the competition files these are the 525 and 875 steps of the
    notebooks' outputs. *)
Theorem steps_of_split_fit_predict
        (RandomState : Type) (seeded : Z -> RandomState)
        (permutation : RandomState -> nat -> list nat * RandomState)
        (global : RandomState) (K : Keras.Backend) (m m' : Keras.model K)
        (g : Keras.rng K) (images : list Keras.image) (labels : list Keras.target)
        (test_images : list Keras.image) :
  (forall s n, Permutation (fst (permutation s n)) (seq 0 n)) ->
  permutes K ->
  length images = length labels -> 2 <= length images ->
  exists X_train X_val y_train y_val,
    fst (split_cell seeded permutation images labels global)
    = OK (X_train, X_val, y_train, y_val) /\
    (forall e, e < 10 ->
       let run1 := snd (Notebook1.fit_cell K m g X_train y_train X_val y_val) in
       let run2 := snd (Notebook2.fit_cell K m g X_train y_train X_val y_val) in
       length (events_of Keras.Training e run1) = (8 * length images / 10 + 63) / 64 /\
       length (events_of Keras.Validation e run1)
       = ((length images + 4) / 5 + 63) / 64 /\
       length (events_of Keras.Training e run2) = (8 * length images / 10 + 63) / 64 /\
       length (events_of Keras.Validation e run2)
       = ((length images + 4) / 5 + 31) / 32) /\
    length (snd (Notebook1.predictions K m' test_images))
    = (length test_images + 31) / 32 /\
    length (snd (Notebook2.predictions K m' test_images))
    = (length test_images + 31) / 32.
Proof.
  intros Hnp Hperm Hlen HN.
  destruct images as [|dx images']; [simpl in HN; lia|].
  destruct labels as [|dy labels']; [discriminate|].
  destruct (split_cell_reads _ seeded permutation _ _ (dx :: images') (dy :: labels')
              global dx dy Hnp Hlen HN)
    as (train & test & _ & Ltrain & Ltest & Heq).
  rewrite Heq. cbn [fst]. do 4 eexists. split; [reflexivity|].
  set (N := length (dx :: images')) in *.
  assert (Hfloor : 1 <= 8 * N / 10) by (apply Nat.div_le_lower_bound; lia).
  split; [|split].
  - intros e He.
    pose proof (fit_cells_step_counts K m g
                  (map (fun i => nth i (dx :: images') dx) train)
                  (map (fun i => nth i (dx :: images') dx) test)
                  (map (fun i => nth i (dy :: labels') dy) train)
                  (map (fun i => nth i (dy :: labels') dy) test) e Hperm) as H.
    cbv zeta in H |- *.
    rewrite !length_map, Ltrain, Ltest, n_train_is_floor in H.
    unfold Sklearn.n_test_of in H. apply H.
    + intros Hnil. apply (f_equal (@length _)) in Hnil.
      rewrite length_map, Ltrain, n_train_is_floor in Hnil. cbn [length] in Hnil. lia.
    + reflexivity.
    + reflexivity.
    + exact He.
  - unfold Notebook1.predictions. rewrite predict_trace, length_map, length_batches.
    f_equal. lia.
  - unfold Notebook2.predictions. rewrite predict_trace, length_map, length_batches.
    f_equal. lia.
Qed.

Lemma steps_of_split_fit_predict_witness :
  exists X_train X_val y_train y_val,
    fst (split_cell ToyRandom.seeded ToyRandom.permutation
           (repeat ToyBackend.blank (Z.to_nat 42000)) (repeat (Keras.Sparse 3) (Z.to_nat 42000)) 7)
    = OK (X_train, X_val, y_train, y_val) /\
    (forall e, e < 10 ->
       length (events_of Keras.Training e
                 (snd (Notebook1.fit_cell ToyBackend.K ToyBackend.model0 0
                         X_train y_train X_val y_val))) = 525 /\
       length (events_of Keras.Training e
                 (snd (Notebook2.fit_cell ToyBackend.K ToyBackend.model0 0
                         X_train y_train X_val y_val))) = 525) /\
    length (snd (Notebook1.predictions ToyBackend.K ToyBackend.model0
                   (repeat ToyBackend.blank (Z.to_nat 28000)))) = 875 /\
    length (snd (Notebook2.predictions ToyBackend.K ToyBackend.model0
                   (repeat ToyBackend.blank (Z.to_nat 28000)))) = 875.
Proof.
  destruct (steps_of_split_fit_predict
              ToyRandom.RandomState ToyRandom.seeded ToyRandom.permutation 7
              ToyBackend.K ToyBackend.model0 ToyBackend.model0 0
              (repeat ToyBackend.blank (Z.to_nat 42000)) (repeat (Keras.Sparse 3) (Z.to_nat 42000))
              (repeat ToyBackend.blank (Z.to_nat 28000)))
    as (X_train & X_val & y_train & y_val & Hsplit & Hfit & Hp1 & Hp2).
  - exact toy_permutation_perm.
  - exact toy_permutes.
  - now rewrite !repeat_length.
  - rewrite repeat_length. apply Nat.leb_le. vm_compute. reflexivity.
  - exists X_train, X_val, y_train, y_val.
    rewrite repeat_length in Hfit, Hp1, Hp2.
    assert (E1 : (8 * Z.to_nat 42000 / 10 + 63) / 64 = 525) by (vm_compute; reflexivity).
    assert (E2 : (Z.to_nat 28000 + 31) / 32 = 875) by (vm_compute; reflexivity).
    rewrite E1 in Hfit. rewrite E2 in Hp1, Hp2.
    split; [exact Hsplit|]. split; [|split; assumption].
    intros e He. destruct (Hfit e He) as (H1 & _ & H3 & _). now split.
Defined.

(** * Degenerate files *)

Lemma validate_shuffle_split_small (n : nat) :
  n < 2 ->
  Sklearn.validate_shuffle_split n
  = Raise (ValueError "the resulting train set will be empty").
Proof.
  intros Hn. destruct n as [|[|n]]; [reflexivity | reflexivity | lia].
Qed.

Lemma split_cell_small
      (RandomState : Type) (seeded : Z -> RandomState)
      (permutation : RandomState -> nat -> list nat * RandomState)
      (A B : Type) (X : list A) (y : list B) (global : RandomState) :
  length X = length y -> length X < 2 ->
  fst (split_cell seeded permutation X y global)
  = Raise (ValueError "the resulting train set will be empty").
Proof.
  intros Hlen HN. unfold split_cell, Sklearn.train_test_split.
  rewrite <- Hlen, Nat.eqb_refl. cbn [negb].
  now rewrite validate_shuffle_split_small by exact HN.
Qed.

Lemma to_categorical_in_range_length (y : list Z) :
  forallb label_in_range y = true ->
  exists rows, Keras.to_categorical y 10 = OK rows /\ length rows = length y.
Proof.
  intros H. apply to_categorical_length.
  apply Forall_forall. intros l Hl.
  rewrite forallb_forall in H. specialize (H l Hl).
  unfold label_in_range in H. apply andb_true_iff in H.
  destruct H as [H1 H2]. apply Z.leb_le in H1. apply Z.leb_le in H2. lia.
Qed.

(** X14.  A training file of fewer than two rows stops both notebooks at
    the split: the loader accepts the rows (of a label and 784 pixels;
    for notebook 1 the labels must be ones [to_categorical] takes), and
    [train_test_split] raises [ValueError] because a fifth of the rows
    rounded up leaves nothing to train on.  Nothing is trained and no
    submission is written. *)
Theorem too_few_training_rows_stop_at_split
        (RandomState : Type) (seeded : Z -> RandomState)
        (permutation : RandomState -> nat -> list nat * RandomState)
        (global : RandomState) (K : Keras.Backend)
        (initial1 initial2 : list (Keras.variables K)) (g : Keras.rng K)
        (train_df test_df : list (list Z)) :
  length train_df < 2 ->
  Forall (fun r => length r = 785) train_df ->
  forallb label_in_range (train_labels train_df) = true ->
  Forall (fun r => length r = 784) test_df ->
  Notebook1.run seeded permutation global K initial1 g train_df test_df
  = Raise (ValueError "the resulting train set will be empty") /\
  Notebook2.run seeded permutation global K initial2 g train_df test_df
  = Raise (ValueError "the resulting train set will be empty").
Proof.
  intros HN Htrain Hlab Htest.
  destruct (prepare_images_length (iloc_from1 train_df)) as (images & Himg & Hilen).
  { unfold iloc_from1. rewrite Forall_map.
    eapply Forall_impl; [|exact Htrain]. intros r Hr. destruct r; simpl in *; lia. }
  destruct (prepare_images_length test_df Htest) as (tests & Htests & Htlen).
  unfold iloc_from1 in Hilen. rewrite length_map in Hilen.
  destruct (to_categorical_in_range_length (iloc_col0 train_df) Hlab)
    as (hot & Hhot & Hhlen).
  unfold iloc_col0 in Hhlen. rewrite length_map in Hhlen.
  split.
  - unfold Notebook1.run, train_images, test_images, Notebook1.train_labels.
    rewrite Himg, Htests, Hhot. cbv beta iota delta [Py.bind].
    rewrite split_cell_small; [reflexivity | rewrite length_map; lia | lia].
  - unfold Notebook2.run, train_images, test_images.
    rewrite Himg, Htests. cbv beta iota delta [Py.bind].
    rewrite split_cell_small; [reflexivity | | lia].
    unfold Notebook2.train_labels, iloc_col0. rewrite !length_map. lia.
Qed.

Lemma too_few_training_rows_stop_at_split_witness :
  Notebook1.run ToyRandom.seeded ToyRandom.permutation 7 ToyBackend.K
                (repeat 0 8) 0 [7%Z :: repeat 128%Z 784] [repeat 0%Z 784]
  = Raise (ValueError "the resulting train set will be empty") /\
  Notebook2.run ToyRandom.seeded ToyRandom.permutation 7 ToyBackend.K
                (repeat 0 13) 0 [7%Z :: repeat 128%Z 784] [repeat 0%Z 784]
  = Raise (ValueError "the resulting train set will be empty").
Proof.
  apply (too_few_training_rows_stop_at_split
           ToyRandom.RandomState ToyRandom.seeded ToyRandom.permutation 7
           ToyBackend.K (repeat 0 8) (repeat 0 13) 0
           [7%Z :: repeat 128%Z 784] [repeat 0%Z 784]).
  - simpl. lia.
  - constructor; [|constructor]. exact (f_equal S (repeat_length 128%Z 784)).
  - reflexivity.
  - constructor; [|constructor]. apply repeat_length.
Defined.

Lemma prepare_images_empty : prepare_images [] = OK [].
Proof. reflexivity. Qed.

(** X15.  A test file without rows costs the whole training: the loader
    returns no image for it without an error, the split and the ten
    epochs run, and only then [predict] raises [ValueError] for want of
    a batch, in both notebooks. *)
Theorem empty_test_file_fails_after_training
        (RandomState : Type) (seeded : Z -> RandomState)
        (permutation : RandomState -> nat -> list nat * RandomState)
        (global : RandomState) (K : Keras.Backend)
        (initial1 initial2 : list (Keras.variables K)) (g : Keras.rng K)
        (train_df : list (list Z)) :
  (forall s n, Permutation (fst (permutation s n)) (seq 0 n)) ->
  permutes K ->
  2 <= length train_df ->
  Forall (fun r => length r = 785 /\ (0 <= hd 0%Z r <= 9)%Z) train_df ->
  test_images [] = OK [] /\
  Notebook1.run seeded permutation global K initial1 g train_df []
  = Raise (ValueError "Unexpected result of predict_function (Empty batch_outputs)") /\
  Notebook2.run seeded permutation global K initial2 g train_df []
  = Raise (ValueError "Unexpected result of predict_function (Empty batch_outputs)").
Proof.
  intros Hnp Hperm HN Htrain.
  destruct (prepare_images_length (iloc_from1 train_df)) as (images & Himg & Hilen).
  { unfold iloc_from1. rewrite Forall_map.
    eapply Forall_impl; [|exact Htrain]. intros r [Hr _]. destruct r; simpl in *; lia. }
  unfold iloc_from1 in Hilen. rewrite length_map in Hilen.
  destruct (to_categorical_length (iloc_col0 train_df)) as (hot & Hhot & Hhlen).
  { unfold iloc_col0. rewrite Forall_map.
    eapply Forall_impl; [|exact Htrain]. intros r [_ Hr]. lia. }
  unfold iloc_col0 in Hhlen. rewrite length_map in Hhlen.
  destruct (split_cell_returns _ seeded permutation Keras.image Keras.target
              images (map Keras.OneHot hot) global Hnp)
    as (X1 & V1 & y1 & w1 & Hsplit1 & Hxt1 & Hyt1 & Hv1);
    [rewrite length_map; lia | lia |].
  destruct (split_cell_returns _ seeded permutation Keras.image Keras.target
              images (Notebook2.train_labels train_df) global Hnp)
    as (X2 & V2 & y2 & w2 & Hsplit2 & Hxt2 & Hyt2 & Hv2);
    [unfold Notebook2.train_labels, iloc_col0; rewrite !length_map; lia | lia |].
  destruct (fit_run K Notebook1.compile 10
              (Keras.build K Notebook1.layers initial1) g
              (Keras.array_epoch K X1 y1 64) (V1, w1) 64) as (m1 & h1 & g1 & Hrun1 & _);
    [intros g'; now apply array_epoch_nonempty | exact Hv1 |].
  destruct (fit_sequence_run K Notebook2.compile 10
              (Keras.build K Notebook2.layers initial2) g X2 y2 (V2, w2) 32
              Hperm Hxt2 Hv2)
    as (m2 & h2 & st2 & _ & Hrun2 & _).
  split; [reflexivity|]. split.
  - unfold Notebook1.run, train_images, test_images, Notebook1.train_labels.
    rewrite Himg, prepare_images_empty, Hhot. cbv beta iota delta [Py.bind].
    rewrite Hsplit1. cbv beta iota delta [Py.bind].
    unfold Notebook1.fit_cell. rewrite array_dataset_ok, Hrun1 by exact Hyt1.
    reflexivity.
  - unfold Notebook2.run, train_images, test_images.
    rewrite Himg, prepare_images_empty. cbv beta iota delta [Py.bind].
    rewrite Hsplit2. cbv beta iota delta [Py.bind].
    unfold Notebook2.fit_cell. rewrite flow_ok, Hrun2 by exact Hyt2.
    reflexivity.
Qed.

Lemma empty_test_file_fails_after_training_witness :
  test_images [] = OK [] /\
  Notebook1.run ToyRandom.seeded ToyRandom.permutation 7 ToyBackend.K
                (repeat 0 8) 0
                (map (fun d => d :: repeat (51 * d)%Z 784) [0; 1; 2; 3; 4]%Z) []
  = Raise (ValueError "Unexpected result of predict_function (Empty batch_outputs)") /\
  Notebook2.run ToyRandom.seeded ToyRandom.permutation 7 ToyBackend.K
                (repeat 0 13) 0
                (map (fun d => d :: repeat (51 * d)%Z 784) [0; 1; 2; 3; 4]%Z) []
  = Raise (ValueError "Unexpected result of predict_function (Empty batch_outputs)").
Proof.
  apply (empty_test_file_fails_after_training
           ToyRandom.RandomState ToyRandom.seeded ToyRandom.permutation 7
           ToyBackend.K (repeat 0 8) (repeat 0 13) 0
           (map (fun d => d :: repeat (51 * d)%Z 784) [0; 1; 2; 3; 4]%Z)).
  - exact toy_permutation_perm.
  - exact toy_permutes.
  - simpl. lia.
  - apply Forall_forall. intros r Hr. apply in_map_iff in Hr.
    destruct Hr as (d & <- & Hd). split.
    + exact (f_equal S (repeat_length (51 * d)%Z 784)).
    + cbn [hd]. simpl in Hd. lia.
Defined.

(** * Validation arrays of different lengths *)

(** X17.  Validation arrays of different lengths are only noticed at the
    end of the first epoch: [fit] runs all the training steps of epoch 0,
    [ceil(N / 64)] of them, then raises [ValueError], in both notebooks;
    no validation step runs and no later epoch starts. *)
Theorem mismatched_validation_fails_after_first_epoch
        (K : Keras.Backend) (m : Keras.model K) (g : Keras.rng K)
        (X : list Keras.image) (y : list Keras.target)
        (X_val : list Keras.image) (y_val : list Keras.target) :
  permutes K ->
  X <> [] -> length y = length X ->
  length X_val <> length y_val ->
  let run1 := Notebook1.fit_cell K m g X y X_val y_val in
  let run2 := Notebook2.fit_cell K m g X y X_val y_val in
  fst run1 = Raise (ValueError "Data cardinality is ambiguous") /\
  fst run2 = Raise (ValueError "Data cardinality is ambiguous") /\
  length (snd run1) = (length X + 63) / 64 /\
  length (snd run2) = (length X + 63) / 64 /\
  Forall (fun ev => event_phase ev = Keras.Training /\ event_epoch ev = 0)
         (snd run1 ++ snd run2).
Proof.
  intros Hperm Hne Hy Hv. cbv zeta.
  unfold Notebook1.fit_cell, Notebook2.fit_cell.
  rewrite array_dataset_ok by exact Hy. rewrite flow_ok by exact Hy.
  unfold Keras.fit, Keras.fit_sequence, Keras.sequence_peek.
  pose proof (train_iterator_len_pos X y Hne) as Hpos.
  apply Nat.eqb_neq in Hpos. rewrite Hpos.
  fold (peeked K (train_iterator X y) g).
  cbn [Keras.fit_epochs].
  pose proof (array_epoch_nonempty K X y g Hperm Hne) as Hne1.
  pose proof (sequence_epoch_nonempty K X y (peeked K (train_iterator X y) g)
                Hperm Hne) as Hne2.
  pose proof (Forall2_length (array_dataset_each K X y g)) as Hl1.
  rewrite (index_batches_count K (length X) g Hperm) in Hl1.
  pose proof (sequence_epoch_length K (train_iterator X y) Hperm
                (peeked K (train_iterator X y) g)) as Hl2.
  rewrite train_iterator_len in Hl2.
  destruct (Keras.array_epoch K X y 64 g) as [bs1 g1].
  destruct (Keras.sequence_epoch K (train_iterator X y)
              (peeked K (train_iterator X y) g)) as [bs2 st2].
  cbn [fst] in *.
  destruct bs1 as [|b1 bs1]; [congruence|].
  destruct bs2 as [|b2 bs2]; [congruence|].
  pose proof (run_steps_trace K (Keras.train_step K Notebook1.compile)
                Keras.Training 0 m (b1 :: bs1)) as T1.
  pose proof (run_steps_trace K (Keras.train_step K Notebook2.compile)
                Keras.Training 0 m (b2 :: bs2)) as T2.
  destruct (Keras.run_steps K (Keras.train_step K Notebook1.compile)
              Keras.Training 0 m (b1 :: bs1)) as [[m1 tl1] tr1].
  destruct (Keras.run_steps K (Keras.train_step K Notebook2.compile)
              Keras.Training 0 m (b2 :: bs2)) as [[m2 tl2] tr2].
  cbn [snd] in T1, T2. subst tr1 tr2.
  unfold Keras.evaluate. cbn [fst snd].
  apply Nat.eqb_neq in Hv. rewrite Hv. cbn [negb fst snd].
  rewrite !app_nil_r, !length_map.
  split; [reflexivity|]. split; [reflexivity|].
  split; [now symmetry|]. split; [exact Hl2|].
  apply Forall_app. split; apply Forall_forall; intros ev Hev;
    apply in_map_iff in Hev; destruct Hev as (b & <- & _); now split.
Qed.

Lemma mismatched_validation_fails_after_first_epoch_witness :
  let run1 := Notebook1.fit_cell ToyBackend.K ToyBackend.model0 0
                (repeat ToyBackend.blank 70) (repeat (Keras.Sparse 3) 70)
                [ToyBackend.blank; ToyBackend.blank] [Keras.Sparse 3] in
  let run2 := Notebook2.fit_cell ToyBackend.K ToyBackend.model0 0
                (repeat ToyBackend.blank 70) (repeat (Keras.Sparse 3) 70)
                [ToyBackend.blank; ToyBackend.blank] [Keras.Sparse 3] in
  fst run1 = Raise (ValueError "Data cardinality is ambiguous") /\
  fst run2 = Raise (ValueError "Data cardinality is ambiguous") /\
  length (snd run1) = (length (repeat ToyBackend.blank 70) + 63) / 64 /\
  length (snd run2) = (length (repeat ToyBackend.blank 70) + 63) / 64 /\
  Forall (fun ev => event_phase ev = Keras.Training /\ event_epoch ev = 0)
         (snd run1 ++ snd run2).
Proof.
  apply (mismatched_validation_fails_after_first_epoch
           ToyBackend.K ToyBackend.model0 0
           (repeat ToyBackend.blank 70) (repeat (Keras.Sparse 3) 70)
           [ToyBackend.blank; ToyBackend.blank] [Keras.Sparse 3]).
  - exact toy_permutes.
  - discriminate.
  - now rewrite !repeat_length.
  - discriminate.
Defined.

(** * Reading the submission back *)

Lemma to_uint_not_nil (n : nat) : Nat.to_uint n <> Decimal.Nil.
Proof.
  intros H. pose proof (DecimalNat.Unsigned.of_to n) as Hn.
  rewrite H in Hn. simpl in Hn. subst n. discriminate.
Qed.

Lemma show_nat_injective (a b : nat) :
  Pandas.show_nat a = Pandas.show_nat b -> a = b.
Proof.
  unfold Pandas.show_nat. intros H.
  pose proof (DecimalString.NilZero.usu _ (to_uint_not_nil a)) as Ha.
  pose proof (DecimalString.NilZero.usu _ (to_uint_not_nil b)) as Hb.
  rewrite H, Hb in Ha. injection Ha as Ha.
  symmetry. now apply DecimalNat.Unsigned.to_uint_inj.
Qed.

Lemma append_cancel_l (s t t' : string) :
  (s ++ t)%string = (s ++ t')%string -> t = t'.
Proof.
  induction s as [|c s IH]; simpl; intros H; [exact H|].
  injection H as H. now apply IH.
Qed.

Lemma submission_csv_form (predictions : list (list Float32.float32))
      (file : list string) :
  submission_csv predictions = OK file ->
  exists classes,
    predicted_classes predictions = OK classes /\
    file = "ImageId,Label"
           :: map (fun i => (Pandas.show_nat (nth i (seq 1 (length classes)) 0) ++ ","
                             ++ Pandas.show_nat (nth i classes 0))%string)
                  (seq 0 (length classes)).
Proof.
  unfold submission_csv, submission_df. intros H.
  destruct (predicted_classes predictions) as [classes|e]; [|discriminate].
  exists classes. split; [reflexivity|].
  cbv beta iota delta [Py.bind] in H. rewrite arange1_succ in H.
  unfold Pandas.DataFrame2 in H. rewrite length_seq, Nat.eqb_refl in H.
  rewrite to_csv_two_columns, length_seq in H. now inversion H.
Qed.

(** X18.  The file written keeps everything the last cells computed: two
    arrays of predictions for which the same lines are written have the
    same predicted classes, so the classes can be read back from
    [submission.csv] without loss. *)
Theorem submission_file_determines_classes
        (predictions predictions' : list (list Float32.float32))
        (file : list string) :
  submission_csv predictions = OK file ->
  submission_csv predictions' = OK file ->
  predicted_classes predictions = predicted_classes predictions'.
Proof.
  intros H1 H2.
  destruct (submission_csv_form _ _ H1) as (c1 & Hc1 & F1).
  destruct (submission_csv_form _ _ H2) as (c2 & Hc2 & F2).
  rewrite Hc1, Hc2. f_equal.
  rewrite F1 in F2. injection F2 as F.
  assert (Hlen : length c1 = length c2).
  { apply (f_equal (@length _)) in F. now rewrite !length_map, !length_seq in F. }
  apply (nth_ext _ _ 0 0 Hlen). intros i Hi.
  rewrite <- Hlen in F.
  assert (Hi' : In i (seq 0 (length c1))) by (apply in_seq; lia).
  pose proof (proj1 map_ext_in_iff F i Hi') as Hline.
  cbv beta in Hline.
  apply append_cancel_l in Hline. injection Hline as Hline.
  now apply show_nat_injective.
Qed.

Lemma submission_file_determines_classes_witness :
  predicted_classes example_predictions
  = predicted_classes [Keras.one_hot 10 2; Keras.one_hot 10 9].
Proof.
  apply (submission_file_determines_classes
           example_predictions [Keras.one_hot 10 2; Keras.one_hot 10 9]
           ["ImageId,Label"; "1,2"; "2,9"]); vm_compute; reflexivity.
Defined.

(** * The trained model of notebook 1 *)

Section UpdateFacts.
Variable K : Keras.Backend.
Hypothesis Hkeeps : keeps_layers K.

Lemma sequential_call_layers_without (m : Keras.model K) (x : Keras.tensor K) :
  Forall (fun l => l <> Keras.BatchNormalization) (map fst m) ->
  snd (Keras.sequential_call K m true x) = m.
Proof.
  intros H.
  rewrite sequential_call_without_batch_normalization.
  - apply sequential_call_inference.
  - now rewrite Forall_map in H.
Qed.

Lemma run_steps_train_updates args ph e (m : Keras.model K) bs :
  Forall (fun l => l <> Keras.BatchNormalization) (map fst m) ->
  fst (fst (Keras.run_steps K (Keras.train_step K args) ph e m bs))
  = fold_left (update K args) bs m /\
  map fst (fold_left (update K args) bs m) = map fst m.
Proof.
  revert m; induction bs as [|b bs IH]; intros m Hm; [now split|].
  cbn [Keras.run_steps fold_left]. unfold Keras.train_step at 1.
  pose proof (sequential_call_layers_without m (Keras.stack K (fst b)) Hm) as Hs.
  destruct (Keras.sequential_call K m true (Keras.stack K (fst b))) as [out m1].
  cbn [snd] in Hs. subst m1.
  fold (update K args m b).
  assert (Hu : map fst (update K args m b) = map fst m) by apply Hkeeps.
  destruct (IH (update K args m b)) as [IH1 IH2]; [now rewrite Hu|].
  destruct (Keras.run_steps K (Keras.train_step K args) ph e (update K args m b) bs)
    as [[m2 ls] tr].
  cbn [fst] in *. split; [exact IH1 | now rewrite IH2].
Qed.

Lemma training_batches_succ (ds : Keras.dataset K) (n : nat) (g : Keras.rng K) :
  training_batches K ds (S n) g
  = fst (ds g) ++ training_batches K ds n (snd (ds g)).
Proof.
  unfold training_batches. cbn [seq flat_map]. f_equal.
  rewrite <- seq_shift, flat_map_over_map. reflexivity.
Qed.

Lemma fit_epochs_updates args n e (m : Keras.model K) g (ds : Keras.dataset K) val vbs :
  Forall (fun l => l <> Keras.BatchNormalization) (map fst m) ->
  (forall g', fst (ds g') <> []) ->
  length (fst val) = length (snd val) ->
  exists h,
    fst (Keras.fit_epochs K args n e m g ds val vbs)
    = OK (fold_left (update K args) (training_batches K ds n g) m, h,
          rng_after K ds n g).
Proof.
  intros Hm Hne Hval. revert e m g Hm.
  induction n as [|n IH]; intros e m g Hm; [now exists []|].
  cbn [Keras.fit_epochs]. rewrite training_batches_succ. cbn [rng_after].
  pose proof (Hne g) as Hg.
  destruct (ds g) as [bs g1]. cbn [fst snd] in *.
  destruct bs as [|b0 bs]; [congruence|].
  destruct (run_steps_train_updates args Keras.Training e m (b0 :: bs) Hm)
    as [Hrun Hlayers].
  destruct (Keras.run_steps K (Keras.train_step K args) Keras.Training e m (b0 :: bs))
    as [[m1 tl] tr1].
  cbn [fst] in Hrun. subst m1.
  destruct (evaluate_frozen K args e (fold_left (update K args) (b0 :: bs) m)
              val vbs Hval) as (vl & tr2 & Hev).
  rewrite Hev.
  destruct (IH (S e) (fold_left (update K args) (b0 :: bs) m) g1) as (h & Hrec).
  { now rewrite Hlayers. }
  destruct (Keras.fit_epochs K args n (S e)
              (fold_left (update K args) (b0 :: bs) m) g1 ds val vbs) as [r tr3].
  cbn [fst] in *. subst r. rewrite fold_left_app.
  eexists. reflexivity.
Qed.
End UpdateFacts.

(** X19.  What [fit] returns in notebook 1 is the initial model after one
    update of the optimizer for every training batch, and nothing else:
    when the generator shuffles by a permutation and the optimizer
    returns the layers it is given, the trained model is the fold of the
    updates over the batches of the ten epochs in the order they are
    drawn, epoch after epoch, and the generator has been advanced once
    for each epoch.  Neither the forward passes nor validation leave a
    trace in the weights. *)
Theorem notebook1_trained_model_is_the_fold_of_updates
        (K : Keras.Backend) (initial : list (Keras.variables K)) (g : Keras.rng K)
        (X_train X_val : list Keras.image) (y_train y_val : list Keras.target) :
  permutes K -> keeps_layers K ->
  X_train <> [] -> length y_train = length X_train ->
  length X_val = length y_val ->
  let ds := Keras.array_epoch K X_train y_train 64 in
  let m := Keras.build K Notebook1.layers initial in
  exists h,
    fst (Notebook1.fit_cell K m g X_train y_train X_val y_val)
    = OK (fold_left (update K Notebook1.compile) (training_batches K ds 10 g) m,
          h, rng_after K ds 10 g).
Proof.
  intros Hperm Hkeeps Hne Hy Hv. cbv zeta.
  unfold Notebook1.fit_cell. rewrite array_dataset_ok by exact Hy.
  unfold Keras.fit.
  apply (fit_epochs_updates K Hkeeps).
  - apply Forall_forall. intros l Hin. apply in_map_iff in Hin.
    destruct Hin as ([l' v] & <- & Hin). unfold Keras.build in Hin.
    apply in_combine_l in Hin. simpl.
    unfold Notebook1.layers in Hin. simpl in Hin.
    intuition (subst; discriminate).
  - intros g'. now apply array_epoch_nonempty.
  - exact Hv.
Qed.

Lemma toy_keeps_layers : keeps_layers ToyBackend.K.
Proof. intros args m x y. reflexivity. Qed.

Lemma notebook1_trained_model_is_the_fold_of_updates_witness :
  let ds := Keras.array_epoch ToyBackend.K (repeat ToyBackend.blank 70)
              (repeat (Keras.Sparse 3) 70) 64 in
  let m := Keras.build ToyBackend.K Notebook1.layers (repeat 0 8) in
  exists h,
    fst (Notebook1.fit_cell ToyBackend.K m 0
           (repeat ToyBackend.blank 70) (repeat (Keras.Sparse 3) 70)
           [ToyBackend.blank] [Keras.Sparse 3])
    = OK (fold_left (update ToyBackend.K Notebook1.compile)
                    (training_batches ToyBackend.K ds 10 0) m,
          h, rng_after ToyBackend.K ds 10 0).
Proof.
  apply (notebook1_trained_model_is_the_fold_of_updates ToyBackend.K (repeat 0 8) 0
           (repeat ToyBackend.blank 70) [ToyBackend.blank]
           (repeat (Keras.Sparse 3) 70) [Keras.Sparse 3]).
  - exact toy_permutes.
  - exact toy_keeps_layers.
  - discriminate.
  - now rewrite !repeat_length.
  - reflexivity.
Defined.

(** * From the images to the rows of predictions *)

Lemma sequential_call_layers (K : Keras.Backend) (m : Keras.model K)
      (training : bool) (x : Keras.tensor K) :
  map fst (snd (Keras.sequential_call K m training x)) = map fst m.
Proof.
  revert x; induction m as [|[l v] rest IH]; intros x; [reflexivity|].
  cbn [Keras.sequential_call].
  destruct (Keras.call K l v training x) as [y' v'].
  specialize (IH y').
  destruct (Keras.sequential_call K rest training y') as [z rest'].
  cbn [fst snd map] in *. now rewrite IH.
Qed.

Lemma layers_output_shape (layers : list Keras.layer) :
  layers = Notebook1.layers \/ layers = Notebook2.layers ->
  Keras.sequential_output_shape layers [28; 28; 1] = OK [10].
Proof.
  intros [-> | ->].
  - apply (notebook1_output_shape 28 28 1). lia.
  - apply (notebook2_output_shape 28 28 1). lia.
Qed.

Section ShapeFacts.
Variable K : Keras.Backend.
Variable shape_of : Keras.tensor K -> nat * list nat.
Hypothesis Hshapes : respects_shapes K shape_of.

Lemma sequential_call_shape (m : Keras.model K) (x : Keras.tensor K) (s : list nat) :
  Keras.sequential_output_shape (map fst m) (snd (shape_of x)) = OK s ->
  shape_of (fst (Keras.sequential_call K m false x)) = (fst (shape_of x), s).
Proof.
  destruct Hshapes as (_ & Hinfer & _).
  revert x; induction m as [|[l v] rest IH]; intros x Hs.
  - cbn [map Keras.sequential_output_shape] in Hs. injection Hs as <-.
    cbn [Keras.sequential_call fst]. now destruct (shape_of x).
  - cbn [map fst Keras.sequential_output_shape] in Hs.
    destruct (Keras.compute_output_shape l (snd (shape_of x))) as [s1|err] eqn:E;
      [|discriminate].
    cbv beta iota delta [Py.bind] in Hs.
    cbn [Keras.sequential_call]. rewrite call_inference.
    pose proof (Hinfer l v x s1 E) as Hx.
    specialize (IH (Keras.infer K l v x)). rewrite Hx in IH. cbn [fst snd] in IH.
    specialize (IH Hs).
    destruct (Keras.sequential_call K rest false (Keras.infer K l v x)) as [z rest'].
    exact IH.
Qed.

Lemma predict_step_rows (m : Keras.model K) (b : list Keras.image) :
  Keras.sequential_output_shape (map fst m) [28; 28; 1] = OK [10] ->
  Forall shape_is_28_28_1 b ->
  length (snd (Keras.predict_step K m b)) = length b /\
  Forall (fun r => length r = 10) (snd (Keras.predict_step K m b)).
Proof.
  intros Hm Hb. destruct Hshapes as (Hstack & _ & Hunstack).
  unfold Keras.predict_step.
  pose proof (sequential_call_shape m (Keras.stack K b) [10]) as Hs.
  rewrite (Hstack b Hb) in Hs. cbn [fst snd] in Hs. specialize (Hs Hm).
  destruct (Keras.sequential_call K m false (Keras.stack K b)) as [out m1].
  cbn [fst snd] in *. exact (Hunstack out (length b) 10 Hs).
Qed.

Lemma predict_batches_rows (m : Keras.model K) (bs : list (list Keras.image)) :
  Keras.sequential_output_shape (map fst m) [28; 28; 1] = OK [10] ->
  Forall (Forall shape_is_28_28_1) bs ->
  length (snd (fst (Keras.predict_batches K m bs))) = length (concat bs) /\
  Forall (fun r => length r = 10) (snd (fst (Keras.predict_batches K m bs))).
Proof.
  intros Hm Hbs. induction Hbs as [|b rest Hb _ IH]; cbn [Keras.predict_batches].
  - split; [reflexivity | constructor].
  - destruct (predict_step_rows m b Hm Hb) as [Hl Hten].
    pose proof (predict_step_frozen K m b) as Hfrozen.
    destruct (Keras.predict_step K m b) as [m1 out]. cbn [fst snd] in *. subst m1.
    destruct IH as [IHl IHten].
    destruct (Keras.predict_batches K m rest) as [[m2 outs] tr]. cbn [fst snd concat] in *.
    split.
    + rewrite !length_app. lia.
    + apply Forall_app. now split.
Qed.

(** On images of the loader [predict] returns, one row of ten numbers for
    each image, when the model's layers are those of one of the
    notebooks. *)
Lemma predict_rows (m : Keras.model K) (x : list Keras.image) :
  map fst m = Notebook1.layers \/ map fst m = Notebook2.layers ->
  x <> [] -> Forall shape_is_28_28_1 x ->
  exists outs,
    fst (Keras.predict K m x) = OK (m, outs) /\
    length outs = length x /\
    Forall (fun r => length r = 10) outs.
Proof.
  intros Hm Hx Hshape.
  destruct (predict_returns K m x Hx) as (outs & Hout). exists outs.
  split; [exact Hout|].
  unfold Keras.predict in Hout. destruct x as [|x0 x]; [congruence|].
  pose proof (predict_batches_rows m (Keras.batches 32 (x0 :: x))
                (layers_output_shape _ Hm)) as H.
  destruct (Keras.predict_batches K m (Keras.batches 32 (x0 :: x))) as [[m1 outs'] tr].
  cbn [fst snd] in Hout, H. inversion Hout; subst.
  rewrite concat_batches in H by lia. apply H.
  apply Forall_forall. intros b Hb. apply Forall_forall. intros img Himg.
  rewrite Forall_forall in Hshape. apply Hshape.
  exact (batches_incl 32 (x0 :: x) b ltac:(lia) Hb img Himg).
Qed.
End ShapeFacts.


Lemma shaped_respects_shapes : respects_shapes ShapedBackend.K ShapedBackend.shape_of.
Proof.
  unfold respects_shapes, ShapedBackend.shape_of.
  cbn [ShapedBackend.K Keras.stack Keras.infer Keras.unstack Keras.tensor].
  split; [|split].
  - intros b Hb. f_equal. destruct Hb as [|x rest [Hx Hrows] _]; [reflexivity|].
    cbn [ShapedBackend.shape_of_images length].
    destruct x as [|row x]; [discriminate|]. cbn [hd].
    inversion Hrows as [|? ? [Hrow Hpx] _]; subst.
    destruct row as [|px row]; [discriminate|]. cbn [hd].
    inversion Hpx as [|? ? H1 _]; subst.
    now rewrite Hx, Hrow, H1.
  - intros l v x s Hs. cbn [fst snd] in *. now rewrite Hs.
  - intros x n k Hx. subst x. cbn [fst snd fold_right].
    split; [apply repeat_length|].
    apply Forall_forall. intros r Hr. apply repeat_spec in Hr. subst r.
    unfold Keras.one_hot. rewrite length_map, length_seq. lia.
Qed.

Lemma shaped_permutes : permutes ShapedBackend.K.
Proof. intros g n. apply toy_permutation_perm. Qed.

Lemma shaped_keeps_layers : keeps_layers ShapedBackend.K.
Proof. intros args m x y. reflexivity. Qed.



Example example_shaped_predictions :
  fst (Notebook2.predictions ShapedBackend.K
         (Keras.build ShapedBackend.K Notebook2.layers (repeat 0 13))
         [ShapedBackend.blank; ShapedBackend.blank])
  = OK (Keras.build ShapedBackend.K Notebook2.layers (repeat 0 13),
        [Keras.one_hot 10 1; Keras.one_hot 10 1]).
Proof. vm_compute. reflexivity. Qed.

(** * A whole run, from two files *)

Section LayersFacts.
Variable K : Keras.Backend.
Hypothesis Hkeeps : keeps_layers K.

Lemma run_steps_train_layers args ph e (m : Keras.model K) bs :
  map fst (fst (fst (Keras.run_steps K (Keras.train_step K args) ph e m bs)))
  = map fst m.
Proof.
  revert m; induction bs as [|b bs IH]; intros m; [reflexivity|].
  cbn [Keras.run_steps]. unfold Keras.train_step at 1.
  pose proof (sequential_call_layers K m true (Keras.stack K (fst b))) as Hs.
  destruct (Keras.sequential_call K m true (Keras.stack K (fst b))) as [out m1].
  cbn [snd] in Hs.
  specialize (IH (Keras.apply_gradients K args m1 (Keras.stack K (fst b)) (snd b))).
  rewrite Hkeeps, Hs in IH.
  destruct (Keras.run_steps K (Keras.train_step K args) ph e _ bs) as [[m2 ls] tr].
  exact IH.
Qed.

Lemma fit_epochs_layers {St : Type} args n e (m : Keras.model K) (g : St)
      (ds : Keras.iterator St) val vbs (m' : Keras.model K) h (g' : St) :
  fst (Keras.fit_epochs K args n e m g ds val vbs) = OK (m', h, g') ->
  map fst m' = map fst m.
Proof.
  revert e m g h; induction n as [|n IH]; intros e m g h Hrun.
  - cbn in Hrun. now inversion Hrun.
  - cbn [Keras.fit_epochs] in Hrun.
    destruct (ds g) as [bs g1].
    destruct bs as [|b0 bs]; [discriminate|].
    pose proof (run_steps_train_layers args Keras.Training e m (b0 :: bs)) as Ht.
    destruct (Keras.run_steps K (Keras.train_step K args) Keras.Training e m (b0 :: bs))
      as [[m1 tl] tr1].
    cbn [fst] in Ht.
    unfold Keras.evaluate in Hrun.
    destruct (negb (length (fst val) =? length (snd val))); [discriminate|].
    pose proof (run_steps_test_frozen K args Keras.Validation e m1
                  (combine (Keras.batches vbs (fst val)) (Keras.batches vbs (snd val))))
      as Hv.
    destruct (Keras.run_steps K (Keras.test_step K args) Keras.Validation e m1 _)
      as [[m2 vl] tr2].
    cbn [fst] in Hv. subst m2.
    specialize (IH (S e) m1 g1).
    destruct (Keras.fit_epochs K args n (S e) m1 g1 ds val vbs) as [r tr3].
    cbn [fst] in *.
    destruct r as [[[m3 h3] g3]|err]; [|discriminate].
    inversion Hrun; subst. rewrite (IH h3 eq_refl). exact Ht.
Qed.
End LayersFacts.

Lemma build_layers (K : Keras.Backend) (layers : list Keras.layer)
      (initial : list (Keras.variables K)) :
  length initial = length layers ->
  map fst (Keras.build K layers initial) = layers.
Proof.
  intros H. unfold Keras.build. apply map_fst_combine_same. now symmetry.
Qed.

Lemma prepare_images_shaped (rows : list (list Z)) :
  Forall (fun r => length r = 784) rows ->
  exists t, prepare_images rows = OK t /\ length t = length rows /\
            Forall shape_is_28_28_1 t.
Proof.
  intros Hw.
  destruct (prepare_images_buffer rows (length rows)) as (t & Ht & Hlen & Hs & _).
  { rewrite (concat_uniform_length _ 784) by exact Hw. lia. }
  now exists t.
Qed.

(** X12.  From two files to the submission.  When the two generators
    shuffle by permutations, the backend keeps to the shapes of the
    layers and its optimizer returns the layers it was given, a training
    file of at least two rows of a digit 0 to 9 and 784 pixels and a test
    file of at least one row of 784 pixels make notebook 2, built with
    one set of variables for each of its layers, run through all its
    cells and write the header and one line for each test row. *)
Theorem notebook2_run_writes_submission
        (RandomState : Type) (seeded : Z -> RandomState)
        (permutation : RandomState -> nat -> list nat * RandomState)
        (global : RandomState) (K : Keras.Backend)
        (shape_of : Keras.tensor K -> nat * list nat)
        (initial : list (Keras.variables K)) (g : Keras.rng K)
        (train_df test_df : list (list Z)) :
  (forall s n, Permutation (fst (permutation s n)) (seq 0 n)) ->
  permutes K -> respects_shapes K shape_of -> keeps_layers K ->
  length initial = length Notebook2.layers ->
  2 <= length train_df ->
  Forall (fun r => length r = 785 /\ (0 <= hd 0%Z r <= 9)%Z) train_df ->
  test_df <> [] -> Forall (fun r => length r = 784) test_df ->
  exists rows,
    Notebook2.run seeded permutation global K initial g train_df test_df
    = OK ("ImageId,Label" :: rows) /\
    length rows = length test_df.
Proof.
  intros Hnp Hperm Hshapes Hkeeps Hinit HN Htrain Hne Htest.
  unfold Notebook2.run, train_images, test_images.
  destruct (prepare_images_length (iloc_from1 train_df)) as (images & Himg & Hilen).
  { unfold iloc_from1. rewrite Forall_map.
    eapply Forall_impl; [|exact Htrain]. intros r [Hr _]. destruct r; simpl in *; lia. }
  destruct (prepare_images_shaped test_df Htest) as (tests & Htests & Htlen & Hts).
  rewrite Himg, Htests. cbv beta iota delta [Py.bind].
  unfold iloc_from1 in Hilen. rewrite length_map in Hilen.
  destruct (split_cell_returns _ seeded permutation Keras.image Keras.target
              images (Notebook2.train_labels train_df) global Hnp)
    as (X_train & X_val & y_train & y_val & Hsplit & Hxt & Hyt & Hv).
  { unfold Notebook2.train_labels, iloc_col0. now rewrite !length_map. }
  { lia. }
  rewrite Hsplit. cbv beta iota delta [Py.bind].
  unfold Notebook2.fit_cell. rewrite flow_ok by exact Hyt.
  destruct (fit_sequence_run K Notebook2.compile 10
              (Keras.build K Notebook2.layers initial) g X_train y_train
              (X_val, y_val) 32 Hperm Hxt Hv)
    as (m1 & h & st1 & Hep & Hrun & _).
  rewrite Hrun. cbn [fst]. cbv beta iota delta [Py.bind].
  assert (Hm1 : map fst m1 = Notebook2.layers).
  { rewrite (fit_epochs_layers K Hkeeps _ _ _ _ _ _ _ _ m1 h st1
               (f_equal fst Hep)).
    now apply build_layers. }
  destruct (predict_rows K shape_of Hshapes m1 tests (or_intror Hm1))
    as (outs & Hout & Holen & Hoten).
  { intros ->. destruct test_df; [congruence | discriminate]. }
  { exact Hts. }
  unfold Notebook2.predictions. rewrite Hout. cbv beta iota delta [Py.bind snd].
  destruct (submission_csv_lines outs Hoten) as (rows & Hcsv & Hrl).
  exists rows. split; [exact Hcsv | lia].
Qed.

Lemma small_train_file :
  Forall (fun r => length r = 785 /\ (0 <= hd 0%Z r <= 9)%Z)
         (map (fun d => d :: repeat (51 * d)%Z 784) [0; 1; 2; 3; 4]%Z).
Proof.
  apply Forall_forall. intros r Hr. apply in_map_iff in Hr.
  destruct Hr as (d & <- & Hd). split.
  - exact (f_equal S (repeat_length (51 * d)%Z 784)).
  - cbn [hd]. simpl in Hd. lia.
Qed.

Lemma notebook2_run_writes_submission_witness :
  exists rows,
    Notebook2.run ToyRandom.seeded ToyRandom.permutation 7 ShapedBackend.K
                  (repeat 0 13) 0
                  (map (fun d => d :: repeat (51 * d)%Z 784) [0; 1; 2; 3; 4]%Z)
                  [repeat 0%Z 784; repeat 255%Z 784]
    = OK ("ImageId,Label" :: rows) /\
    length rows = length [repeat 0%Z 784; repeat 255%Z 784].
Proof.
  apply (notebook2_run_writes_submission
           ToyRandom.RandomState ToyRandom.seeded ToyRandom.permutation 7
           ShapedBackend.K ShapedBackend.shape_of (repeat 0 13) 0
           (map (fun d => d :: repeat (51 * d)%Z 784) [0; 1; 2; 3; 4]%Z)
           [repeat 0%Z 784; repeat 255%Z 784]).
  - exact toy_permutation_perm.
  - exact shaped_permutes.
  - exact shaped_respects_shapes.
  - exact shaped_keeps_layers.
  - reflexivity.
  - simpl. lia.
  - exact small_train_file.
  - discriminate.
  - constructor; [|constructor; [|constructor]]; apply repeat_length.
Defined.

(** X13.  The same for notebook 1: a training file of at least two rows
    of a digit and 784 pixels and a test file of at least one row of 784
    pixels make it run through all its cells, the one-hot encoding
    included, and write the header and one line for each test row, when
    the backend keeps to the shapes of the layers and its optimizer
    returns the layers it was given. *)
Theorem notebook1_run_writes_submission
        (RandomState : Type) (seeded : Z -> RandomState)
        (permutation : RandomState -> nat -> list nat * RandomState)
        (global : RandomState) (K : Keras.Backend)
        (shape_of : Keras.tensor K -> nat * list nat)
        (initial : list (Keras.variables K)) (g : Keras.rng K)
        (train_df test_df : list (list Z)) :
  (forall s n, Permutation (fst (permutation s n)) (seq 0 n)) ->
  permutes K -> respects_shapes K shape_of -> keeps_layers K ->
  length initial = length Notebook1.layers ->
  2 <= length train_df ->
  Forall (fun r => length r = 785 /\ (0 <= hd 0%Z r <= 9)%Z) train_df ->
  test_df <> [] -> Forall (fun r => length r = 784) test_df ->
  exists rows,
    Notebook1.run seeded permutation global K initial g train_df test_df
    = OK ("ImageId,Label" :: rows) /\
    length rows = length test_df.
Proof.
  intros Hnp Hperm Hshapes Hkeeps Hinit HN Htrain Hne Htest.
  unfold Notebook1.run, train_images, test_images.
  destruct (prepare_images_length (iloc_from1 train_df)) as (images & Himg & Hilen).
  { unfold iloc_from1. rewrite Forall_map.
    eapply Forall_impl; [|exact Htrain]. intros r [Hr _]. destruct r; simpl in *; lia. }
  destruct (prepare_images_shaped test_df Htest) as (tests & Htests & Htlen & Hts).
  rewrite Himg, Htests. cbv beta iota delta [Py.bind].
  unfold iloc_from1 in Hilen. rewrite length_map in Hilen.
  unfold Notebook1.train_labels.
  destruct (to_categorical_length (iloc_col0 train_df)) as (hot & Hhot & Hhlen).
  { unfold iloc_col0. rewrite Forall_map.
    eapply Forall_impl; [|exact Htrain]. intros r [_ Hr]. lia. }
  rewrite Hhot. cbv beta iota delta [Py.bind].
  unfold iloc_col0 in Hhlen. rewrite length_map in Hhlen.
  destruct (split_cell_returns _ seeded permutation Keras.image Keras.target
              images (map Keras.OneHot hot) global Hnp)
    as (X_train & X_val & y_train & y_val & Hsplit & Hxt & Hyt & Hv).
  { rewrite length_map. lia. }
  { lia. }
  rewrite Hsplit. cbv beta iota delta [Py.bind].
  unfold Notebook1.fit_cell. rewrite array_dataset_ok by exact Hyt.
  destruct (fit_run K Notebook1.compile 10
              (Keras.build K Notebook1.layers initial) g
              (Keras.array_epoch K X_train y_train 64)
              (X_val, y_val) 64) as (m1 & h & g1 & Hrun & _).
  { intros g'. now apply array_epoch_nonempty. }
  { exact Hv. }
  rewrite Hrun. cbn [fst]. cbv beta iota delta [Py.bind].
  assert (Hm1 : map fst m1 = Notebook1.layers).
  { unfold Keras.fit in Hrun.
    rewrite (fit_epochs_layers K Hkeeps _ _ _ _ _ _ _ _ m1 h g1
               (f_equal fst Hrun)).
    now apply build_layers. }
  destruct (predict_rows K shape_of Hshapes m1 tests (or_introl Hm1))
    as (outs & Hout & Holen & Hoten).
  { intros ->. destruct test_df; [congruence | discriminate]. }
  { exact Hts. }
  unfold Notebook1.predictions. rewrite Hout. cbv beta iota delta [Py.bind snd].
  destruct (submission_csv_lines outs Hoten) as (rows & Hcsv & Hrl).
  exists rows. split; [exact Hcsv | lia].
Qed.

Lemma notebook1_run_writes_submission_witness :
  exists rows,
    Notebook1.run ToyRandom.seeded ToyRandom.permutation 7 ShapedBackend.K
                  (repeat 0 8) 0
                  (map (fun d => d :: repeat (51 * d)%Z 784) [0; 1; 2; 3; 4]%Z)
                  [repeat 0%Z 784; repeat 255%Z 784]
    = OK ("ImageId,Label" :: rows) /\
    length rows = length [repeat 0%Z 784; repeat 255%Z 784].
Proof.
  apply (notebook1_run_writes_submission
           ToyRandom.RandomState ToyRandom.seeded ToyRandom.permutation 7
           ShapedBackend.K ShapedBackend.shape_of (repeat 0 8) 0
           (map (fun d => d :: repeat (51 * d)%Z 784) [0; 1; 2; 3; 4]%Z)
           [repeat 0%Z 784; repeat 255%Z 784]).
  - exact toy_permutation_perm.
  - exact shaped_permutes.
  - exact shaped_respects_shapes.
  - exact shaped_keeps_layers.
  - reflexivity.
  - simpl. lia.
  - exact small_train_file.
  - discriminate.
  - constructor; [|constructor; [|constructor]]; apply repeat_length.
Defined.

(** The same two files through both notebooks on the backend that keeps
    the shapes. *)
Example example_shaped_run :
  let train_df := map (fun d => d :: repeat (51 * d)%Z 784) [0; 1; 2; 3; 4]%Z in
  let test_df := [repeat 0%Z 784; repeat 255%Z 784] in
  Notebook1.run ToyRandom.seeded ToyRandom.permutation 7 ShapedBackend.K
                (repeat 0 8) 0 train_df test_df
  = OK ["ImageId,Label"; "1,1"; "2,1"] /\
  Notebook2.run ToyRandom.seeded ToyRandom.permutation 7 ShapedBackend.K
                (repeat 0 13) 0 train_df test_df
  = OK ["ImageId,Label"; "1,1"; "2,1"].
Proof. vm_compute. split; reflexivity. Qed.
